(** * AE validation pipeline: a shallow embedding and its properties

    This development embeds, as Rocq functions, the parts of

      - [src/validators/validation_pipeline.py]
        ([ValidationResult], [ValidationPipeline.validate_file] and the three
        stage helpers, the loop of [validate_directory] and the exit status
        of [main]), and
      - [src/validators/python_logical_validations.py]
        (the reference helpers [_normalize_dest_path],
        [_extract_short_name_from_dest], [_validate_c_identifier], the
        naming rules 7, 16, 28, 44, 46, 52 and 56, the indices of
        [_build_indices], and the rules 3, 4, 5, 6, 9, 10, 22, 23, 62, 63,
        74, 75, 76, 76b, 76 (HW frequency), 78, 79, 80 and 81 (prebuilt))

    and proves what the specification says about them, and further
    properties that the code shows.

    Conventions.
      - A Python [str] is a Rocq [string]; a character is a code point below
        256, so [isspace], [lower] and [int] are Python's restricted to that
        range.  (Python's limit on the number of digits [int] accepts is not
        modelled.)
      - An lxml element is an [element]: tag, attributes, text, children.
        Documents carry no namespaces, comments or processing instructions,
        so an element's local name is its tag.
      - A [node] is an element together with its place in the document: the
        string [tree.getpath] returns for it and the list of its ancestors.
      - Python dictionaries that are only looked up are [gmap]s, sets are
        [gset]s; a dictionary that is iterated is an association list in
        insertion order. *)

From Stdlib Require Import ZArith Ascii String DecimalString.
From stdpp Require Import base option list gmap strings.

Set Warnings "-register-all,-clear-no-such-hyp".

Local Open Scope string_scope.
Local Open Scope list_scope.

(** ** Python strings *)

Module Py.

(** [str.isspace] on one character. *)
Definition isspace (c : ascii) : bool :=
  let n := N_of_ascii c in
  ((9 <=? n) && (n <=? 13) || (28 <=? n) && (n <=? 32)
   || (n =? 133) || (n =? 160))%N.

Fixpoint lstrip_with (p : ascii -> bool) (s : string) : string :=
  match s with
  | EmptyString => EmptyString
  | String c s' => if p c then lstrip_with p s' else s
  end.

Fixpoint rstrip_with (p : ascii -> bool) (s : string) : string :=
  match s with
  | EmptyString => EmptyString
  | String c s' =>
      match rstrip_with p s' with
      | EmptyString => if p c then EmptyString else String c EmptyString
      | r => String c r
      end
  end.

Definition strip_with (p : ascii -> bool) (s : string) : string :=
  rstrip_with p (lstrip_with p s).

(** [s.strip()], [s.lstrip()] *)
Definition strip : string -> string := strip_with isspace.
Definition lstrip : string -> string := lstrip_with isspace.

Fixpoint mem_char (c : ascii) (chars : string) : bool :=
  match chars with
  | EmptyString => false
  | String d chars' => Ascii.eqb c d || mem_char c chars'
  end.

(** [s.strip(chars)] *)
Definition strip_chars (chars : string) : string -> string :=
  strip_with (fun c => mem_char c chars).

(** [s.split(sep)] for a separator of one character. *)
Fixpoint split (sep : ascii) (s : string) : list string :=
  match s with
  | EmptyString => [EmptyString]
  | String c s' =>
      if Ascii.eqb c sep then EmptyString :: split sep s'
      else match split sep s' with
           | seg :: rest => String c seg :: rest
           | [] => [String c EmptyString]
           end
  end.

(** [l[-1]] on a list of strings that [split] returned. *)
Definition last_item (l : list string) : string := List.last l EmptyString.

(** [s.startswith(p)] and [sub in s] *)
Definition startswith (s p : string) : bool := String.prefix p s.

Fixpoint contains (sub s : string) : bool :=
  match s with
  | EmptyString => String.prefix sub EmptyString
  | String _ s' => String.prefix sub s || contains sub s'
  end.

Definition lower_char (c : ascii) : ascii :=
  let n := N_of_ascii c in
  if ((65 <=? n) && (n <=? 90) || (192 <=? n) && (n <=? 214)
      || (216 <=? n) && (n <=? 222))%N
  then ascii_of_N (n + 32) else c.

(** [s.lower()] *)
Fixpoint lower (s : string) : string :=
  match s with
  | EmptyString => EmptyString
  | String c s' => String (lower_char c) (lower s')
  end.

Definition digit_val (c : ascii) : option Z :=
  let n := N_of_ascii c in
  if ((48 <=? n) && (n <=? 57))%N then Some (Z.of_N (n - 48)) else None.

(** The digits of an integer literal: groups of digits separated by single
    underscores. [prev] tells whether the previous character was a digit. *)
Fixpoint int_body (s : string) (acc : Z) (prev : bool) : option Z :=
  match s with
  | EmptyString => if prev then Some acc else None
  | String c s' =>
      match digit_val c with
      | Some d => int_body s' (acc * 10 + d)%Z true
      | None =>
          if Ascii.eqb c "_" && prev then int_body s' acc false else None
      end
  end.

(** [int(s)]: [None] stands for [ValueError]. *)
Definition int (s : string) : option Z :=
  match strip s with
  | String "-" r => Z.opp <$> int_body r 0%Z false
  | String "+" r => int_body r 0%Z false
  | r => int_body r 0%Z false
  end.

(** [str(n)] / [f"{n}"] for an integer. *)
Definition str_of_Z (z : Z) : string := NilZero.string_of_int (Z.to_int z).
Definition str_of_nat (n : nat) : string := str_of_Z (Z.of_nat n).

(** The newline character and the double quote. *)
Definition nl : ascii := ascii_of_N 10.
Definition dq : string := String (ascii_of_N 34) EmptyString.

(** [s[n:]] and [l[-n:]] *)
Definition from (n : nat) (s : string) : string :=
  String.substring n (String.length s - n) s.
Definition last_n {A} (n : nat) (l : list A) : list A :=
  drop (length l - n) l.

(** The line boundaries of [str.splitlines]. *)
Definition is_linebreak (c : ascii) : bool :=
  let n := N_of_ascii c in
  ((10 <=? n) && (n <=? 13) || (28 <=? n) && (n <=? 30) || (n =? 133))%N.

(** [s.splitlines()]: a carriage return followed by a newline is one
    boundary; no empty last line. *)
Fixpoint splitlines (s : string) : list string :=
  match s with
  | EmptyString => []
  | String c s' =>
      if is_linebreak c then
        EmptyString ::
        match s' with
        | String d s'' =>
            if Ascii.eqb c (ascii_of_N 13) && Ascii.eqb d nl
            then splitlines s'' else splitlines s'
        | EmptyString => []
        end
      else match splitlines s' with
           | line :: lines => String c line :: lines
           | [] => [String c EmptyString]
           end
  end.

(** Every character of [s] satisfies [p]; the first and the last
    character of a string. *)
Fixpoint all_chars (p : ascii -> bool) (s : string) : bool :=
  match s with
  | EmptyString => true
  | String c s' => p c && all_chars p s'
  end.

Definition first_char (s : string) : option ascii :=
  match s with
  | EmptyString => None
  | String c _ => Some c
  end.

Fixpoint last_char (s : string) : option ascii :=
  match s with
  | EmptyString => None
  | String c EmptyString => Some c
  | String _ s' => last_char s'
  end.

(** [p] holds neither of the first nor of the last character. *)
Definition trimmed (p : ascii -> bool) (s : string) : bool :=
  match first_char s, last_char s with
  | Some a, Some b => negb (p a) && negb (p b)
  | _, _ => true
  end.

Definition is_slash (c : ascii) : bool := Ascii.eqb c "/".

(** A path segment as a reference ends with one: not empty, without a
    separator, and not ending in white space. *)
Definition is_segment (name : string) : bool :=
  all_chars (fun c => negb (is_slash c)) name
  && match last_char name with
     | Some c => negb (isspace c)
     | None => false
     end.

End Py.

(** ** Documents *)

Module Xml.

(** An element: [tag], [attrib], [text] and the child elements in order. *)
Inductive element : Type :=
| Element (tag : string) (attrib : list (string * string))
          (text : option string) (children : list element).

Definition tag (e : element) : string :=
  match e with Element t _ _ _ => t end.
Definition attrib (e : element) : list (string * string) :=
  match e with Element _ a _ _ => a end.
Definition text (e : element) : option string :=
  match e with Element _ _ x _ => x end.
Definition children (e : element) : list element :=
  match e with Element _ _ _ cs => cs end.

Fixpoint assoc (key : string) (l : list (string * string)) : option string :=
  match l with
  | [] => None
  | (k, v) :: l' => if String.eqb k key then Some v else assoc key l'
  end.

(** [e.get(key)] and [e.get(key, dflt)] *)
Definition get (e : element) (key : string) : option string :=
  assoc key (attrib e).
Definition get_or (e : element) (key dflt : string) : string :=
  default dflt (get e key).

Definition has_tag (t : string) (e : element) : bool := String.eqb (tag e) t.
Definition has_tag_in (ts : list string) (e : element) : bool :=
  existsb (fun t => has_tag t e) ts.

(** An element in its document: [n_path] is what [tree.getpath] returns for
    it, [n_anc] its ancestors, the root first. *)
Record node : Type := Node
  { n_elem : element; n_path : string; n_anc : list element }.

(** One step of [getpath]: the tag, with its position among the siblings of
    the same tag when there are several. *)
Definition path_step (before after : list element) (e : element) : string :=
  let nb := length (List.filter (has_tag (tag e)) before) in
  let na := length (List.filter (has_tag (tag e)) after) in
  match nb + na with
  | O => "/" +:+ tag e
  | S _ => "/" +:+ tag e +:+ "[" +:+ Py.str_of_nat (S nb) +:+ "]"
  end.

(** The element and its descendants, in document order. *)
Fixpoint nodes_of (e : element) (path : string) (anc : list element)
  : list node :=
  Node e path anc ::
  match e with
  | Element _ _ _ cs =>
      (fix go (before rest : list element) : list node :=
         match rest with
         | [] => []
         | c :: rest' =>
             nodes_of c (path +:+ path_step before rest' c) (anc ++ [e])
             ++ go (before ++ [c]) rest'
         end) [] cs
  end.

(** All elements of the document with root [root]. *)
Definition all_nodes (root : element) : list node :=
  nodes_of root ("/" +:+ tag root) [].

(** The descendants of a node, itself excluded, and its children. *)
Definition descendants (n : node) : list node :=
  tail (nodes_of (n_elem n) (n_path n) (n_anc n)).
Definition depth (n : node) : nat := length (n_anc n).
Definition child_nodes (n : node) : list node :=
  List.filter (fun m => Nat.eqb (depth m) (S (depth n))) (descendants n).

(** The elements of a subtree without their place, in document order. *)
Fixpoint subtree (e : element) : list element :=
  e :: match e with
       | Element _ _ _ cs =>
           (fix go (l : list element) : list element :=
              match l with
              | [] => []
              | c :: l' => subtree c ++ go l'
              end) cs
       end.

Definition ntag (n : node) : string := tag (n_elem n).
Definition nget (n : node) (key : string) : option string := get (n_elem n) key.
Definition nget_or (n : node) (key dflt : string) : string :=
  get_or (n_elem n) key dflt.

(** *** The XPath expressions the rules use *)

(** [root.xpath("//T")] *)
Definition xpath_all (root : element) (t : string) : list node :=
  List.filter (fun n => has_tag t (n_elem n)) (all_nodes root).

(** [root.xpath("//T1 | //T2 | ...")] *)
Definition xpath_any (root : element) (ts : list string) : list node :=
  List.filter (fun n => has_tag_in ts (n_elem n)) (all_nodes root).

(** [n.xpath(".//T")] *)
Definition xpath_desc (n : node) (t : string) : list node :=
  List.filter (fun m => has_tag t (n_elem m)) (descendants n).

(** [n.xpath(".//T1 | .//T2 | ...")] *)
Definition xpath_desc_any (n : node) (ts : list string) : list node :=
  List.filter (fun m => has_tag_in ts (n_elem m)) (descendants n).

(** [n.xpath("T")] *)
Definition xpath_child (n : node) (t : string) : list node :=
  List.filter (fun m => has_tag t (n_elem m)) (child_nodes n).

(** [n.find("T")]: the first child with that tag. *)
Definition find_child (n : node) (t : string) : option node :=
  head (xpath_child n t).

(** [n.find(".//T")]: the first descendant with that tag. *)
Definition find_desc (n : node) (t : string) : option node :=
  head (xpath_desc n t).

(** [e.xpath("T/@a")], on an element *)
Definition child_attr (e : element) (t a : string) : list string :=
  omap (fun c => if has_tag t c then get c a else None) (children e).

(** [e.xpath(".//T/@a")], on an element *)
Definition desc_attr (e : element) (t a : string) : list string :=
  omap (fun c => if has_tag t c then get c a else None) (tail (subtree e)).

(** [e.xpath(".//*[@a]")]: the descendants that carry attribute [a]. *)
Definition desc_with_attr (e : element) (a : string) : list element :=
  List.filter (fun c => bool_decide (is_Some (get c a))) (tail (subtree e)).

(** [n.xpath("ancestor::T")] *)
Definition xpath_ancestor (n : node) (t : string) : list element :=
  List.filter (has_tag t) (n_anc n).

(** [n.xpath("parent::*//@a")]: the values of attribute [a] on the parent
    and on the parent's descendants. *)
Definition parent_subtree_attr (n : node) (a : string) : list string :=
  match last (n_anc n) with
  | None => []
  | Some p => omap (fun c => get c a) (subtree p)
  end.

(** Does the tag sequence [ts] end the list [anc]? *)
Definition ends_with_tags (ts : list string) (anc : list element) : bool :=
  bool_decide (List.map tag (drop (length anc - length ts) anc) = ts).

(** [root.xpath("//T1/.../Tk/T")] *)
Definition xpath_path (root : element) (ts : list string) (t : string)
  : list node :=
  List.filter
    (fun n => has_tag t (n_elem n) && ends_with_tags ts (n_anc n))
    (all_nodes root).

(** [n.xpath(".//T1/.../Tk/T")]: as [xpath_path], where [T1] is a
    descendant of [n]. *)
Definition xpath_desc_path (n : node) (ts : list string) (t : string)
  : list node :=
  List.filter
    (fun m => has_tag t (n_elem m)
              && ends_with_tags ts (drop (S (depth n)) (n_anc m)))
    (descendants n).

(** [root.xpath("//T1/T2//T")]: the [T] elements below a [T2] that is a
    child of a [T1]. *)
Fixpoint below_pair (t1 t2 : string) (anc : list element) : bool :=
  match anc with
  | a :: ((b :: _) as anc') =>
      has_tag t1 a && has_tag t2 b || below_pair t1 t2 anc'
  | _ => false
  end.
Definition xpath_below_pair (root : element) (t1 t2 t : string)
  : list node :=
  List.filter
    (fun n => has_tag t (n_elem n) && below_pair t1 t2 (n_anc n))
    (all_nodes root).

(** [e.xpath("SHORT-NAME/@name")]: the list is used through its first item
    only. *)
Definition short_name (e : element) : option string :=
  head (child_attr e "SHORT-NAME" "name").

End Xml.

Import Xml.

(** ** Findings *)

(** [class ValidationError] *)
Record ValidationError : Type := mkValidationError
  { rule_number : Z;
    severity : string;
    message : string;
    xpath : string;
    line_number : Z }.

(** [ValidationError(rule_number=r, severity="error", message=m, xpath=x)] *)
Definition error (r : Z) (m x : string) : ValidationError :=
  mkValidationError r "error" m x 0.

(** [ValidationError.__repr__] *)
Definition repr (err : ValidationError) : string :=
  "Rule " +:+ Py.str_of_Z (rule_number err) +:+ " [" +:+ severity err +:+ "]: "
  +:+ message err +:+ " (at " +:+ xpath err +:+ ")".

(** ** The rule engine: [class PythonLogicalValidator] *)

Module Rules.

(** *** Reference helpers *)

(** [_normalize_dest_path] *)
Definition _normalize_dest_path (dest : string) : string :=
  Py.strip_chars "/" (Py.strip dest).

(** [_extract_short_name_from_dest]. [split] never returns an empty list,
    so the [else] branch of [segments[-1] if segments else ...] is dead. *)
Definition _extract_short_name_from_dest (dest : string) : string :=
  let normalized := _normalize_dest_path dest in
  let segments := Py.split "/" normalized in
  match segments with
  | [] => EmptyString
  | _ => Py.last_item segments
  end.

(** The lookup every resolving rule performs on a reference:
    [name = self._extract_short_name_from_dest(ref)] followed by
    [index[name]] guarded by [name in index]. *)
Definition resolve {A} (dest : string) (index : gmap string A) : option A :=
  index !! _extract_short_name_from_dest dest.

(** *** Identifier naming *)

Definition in_range (lo hi : N) (c : ascii) : bool :=
  let n := N_of_ascii c in ((lo <=? n) && (n <=? hi))%N.

(** The classes [[a-zA-Z_]] and [[a-zA-Z0-9_]] *)
Definition ident_start (c : ascii) : bool :=
  in_range 97 122 c || in_range 65 90 c || Ascii.eqb c "_".
Definition ident_char (c : ascii) : bool :=
  in_range 97 122 c || in_range 65 90 c || in_range 48 57 c
  || Ascii.eqb c "_".

(** [re.compile(r"^[a-zA-Z_][a-zA-Z0-9_]*$").match(name)] is not [None].
    Without [re.MULTILINE], [$] matches at the end of the string and also
    just before a newline that ends the string; the greedy star has
    consumed every identifier character by then. *)
Definition c_identifier_pattern_match (name : string) : bool :=
  match name with
  | EmptyString => false
  | String c rest =>
      ident_start c &&
      (let r := Py.lstrip_with ident_char rest in
       String.eqb r EmptyString || String.eqb r (String Py.nl EmptyString))
  end.

Definition c_keywords : list string :=
  [ "auto"; "break"; "case"; "char"; "const"; "continue"; "default"; "do";
    "double"; "else"; "enum"; "extern"; "float"; "for"; "goto"; "if";
    "inline"; "int"; "long"; "register"; "restrict"; "return"; "short";
    "signed"; "sizeof"; "static"; "struct"; "switch"; "typedef"; "union";
    "unsigned"; "void"; "volatile"; "while"; "_Alignas"; "_Alignof";
    "_Atomic"; "_Bool"; "_Complex"; "_Generic"; "_Imaginary"; "_Noreturn";
    "_Static_assert"; "_Thread_local" ].

Definition not_c_identifier_msg : string :=
  "is not a valid C identifier. C identifiers must match the pattern ^[a-zA-Z_][a-zA-Z0-9_]*$ (start with letter or underscore, contain only letters, digits, and underscores).".
Definition c_keyword_msg : string :=
  "is a reserved C keyword and cannot be used as an identifier.".

(** [_validate_c_identifier] *)
Definition _validate_c_identifier (name : string) : bool * string :=
  if negb (c_identifier_pattern_match name) then (false, not_c_identifier_msg)
  else if bool_decide (name ∈ c_keywords) then (false, c_keyword_msg)
  else (true, EmptyString).

(** The body of the loop of a naming rule, with the rule's number and the
    words its message starts with: an element without [SHORT-NAME/@name] is
    passed over, and one finding is emitted when the helper rejects the
    name. *)
Definition name_findings (rule : Z) (what : string) (n : node)
  : list ValidationError :=
  match short_name (n_elem n) with
  | None => []
  | Some name =>
      let '(is_valid, error_msg) := _validate_c_identifier name in
      if negb is_valid
      then [error rule (what +:+ " '" +:+ name +:+ "' " +:+ error_msg) (n_path n)]
      else []
  end.

(** [_validate_rule_7]: runnable names *)
Definition _validate_rule_7 (root : element) : list ValidationError :=
  flat_map (name_findings 7 "Runnable name") (xpath_all root "RUNNABLE-ENTITY").

(** [_validate_rule_28]: sender-receiver interface names *)
Definition _validate_rule_28 (root : element) : list ValidationError :=
  flat_map (name_findings 28 "SENDER-RECEIVER-INTERFACE name")
           (xpath_all root "SENDER-RECEIVER-INTERFACE").

(** [_validate_rule_44]: ECU names *)
Definition _validate_rule_44 (root : element) : list ValidationError :=
  flat_map (name_findings 44 "ECU name") (xpath_all root "ECUs").

(** [_validate_rule_46]: SoC names *)
Definition _validate_rule_46 (root : element) : list ValidationError :=
  flat_map (name_findings 46 "SoC name") (xpath_path root ["ECUs"] "SoCs").

(** [_validate_rule_52]: chiplet names *)
Definition _validate_rule_52 (root : element) : list ValidationError :=
  flat_map (name_findings 52 "Chiplet name") (xpath_all root "Chiplet").

(** [_validate_rule_56]: hardware block names *)
Definition _validate_rule_56 (root : element) : list ValidationError :=
  flat_map (name_findings 56 "Generic_Hardware (HWIP) name")
           (xpath_all root "Generic_Hardware").

(** [_validate_rule_16]: event names, one event type after the other *)
Definition _validate_rule_16 (root : element) : list ValidationError :=
  flat_map
    (fun event_type =>
       flat_map (name_findings 16 "Event SHORT-NAME/@name")
                (xpath_all root event_type))
    ["TIMING-EVENT"; "DATA-RECEIVED-EVENT"; "TRIGGER-EVENT"].

(** *** Rule 6: runnable names are unique *)

Definition rule_6_msg (name previous : string) : string :=
  "Duplicate RUNNABLE-ENTITY SHORT-NAME/@name '" +:+ name
  +:+ "' found. Previous occurrence(s) at: " +:+ previous.

(** One iteration of the loop: the state is [name_to_paths] and
    [self.errors]. *)
Definition rule_6_step (st : gmap string string * list ValidationError)
           (runnable : node) : gmap string string * list ValidationError :=
  match short_name (n_elem runnable) with
  | None => st
  | Some name =>
      let xpath := n_path runnable in
      match st.1 !! name with
      | Some previous => (st.1, st.2 ++ [error 6 (rule_6_msg name previous) xpath])
      | None => (<[name := xpath]> st.1, st.2)
      end
  end.

(** [_validate_rule_6] *)
Definition _validate_rule_6 (root : element) : list ValidationError :=
  (fold_left rule_6_step (xpath_all root "RUNNABLE-ENTITY") (∅, [])).2.

(** *** Rule 10: a runnable is mapped once *)

Definition rule_10_msg (name : string) (count : nat) : string :=
  "RUNNABLE-ENTITY '" +:+ name +:+ "' is mapped " +:+ Py.str_of_nat count
  +:+ " times. Each runnable must be mapped to only one Cpu Core (one Core-Runnable-Mapping).".

(** [counts]: how often each runnable name ends a RunnableRef. *)
Definition runnable_mapping_counts (root : element) : gmap string nat :=
  fold_left
    (fun counts mapping =>
       let runnable_ref :=
         Py.strip (default EmptyString (nget mapping "RunnableRef")) in
       if String.eqb runnable_ref EmptyString then counts
       else
         let short := _extract_short_name_from_dest runnable_ref in
         if String.eqb short EmptyString then counts
         else <[short := S (default 0 (counts !! short))]> counts)
    (xpath_any root ["Core-Runnable-Mapping"; "CoreRunnableMapping"]) ∅.

(** [_validate_rule_10] *)
Definition _validate_rule_10 (root : element) : list ValidationError :=
  let counts := runnable_mapping_counts root in
  flat_map
    (fun runnable =>
       match short_name (n_elem runnable) with
       | None => []
       | Some name =>
           let count := default 0 (counts !! name) in
           if (1 <? count)%nat
           then [error 10 (rule_10_msg name count) (n_path runnable)]
           else []
       end)
    (xpath_all root "RUNNABLE-ENTITY").

(** *** Rule 9: a runnable is mapped *)

(** The key under which [_build_indices] enters an element into
    [swc_index], [runnable_index], [sri_index] or [prebuilt_app_index]:
    [e.get("name") or e.xpath("SHORT-NAME/@name")], the first item when
    that is a list; no key when both are missing. *)
Definition index_name (e : element) : option string :=
  match get e "name" with
  | Some name =>
      if String.eqb name EmptyString then short_name e else Some name
  | None => short_name e
  end.

(** [self.runnable_index] *)
Definition runnable_index (root : element) : gmap string node :=
  fold_left
    (fun index runnable =>
       match index_name (n_elem runnable) with
       | Some name => <[name := runnable]> index
       | None => index
       end)
    (xpath_all root "RUNNABLE-ENTITY") ∅.

(** The first loop: the state is [mapped] and [mapping_runnable_refs]. *)
Definition rule_9_collect (index : gmap string node)
           (st : gset string * list string) (mapping : node)
  : gset string * list string :=
  let runnable_ref :=
    Py.strip (default EmptyString (nget mapping "RunnableRef")) in
  if String.eqb runnable_ref EmptyString then st
  else
    let refs := st.2 ++ [runnable_ref] in
    let short := _extract_short_name_from_dest runnable_ref in
    if negb (String.eqb short EmptyString)
       && bool_decide (is_Some (index !! short))
    then ({[short]} ∪ st.1, refs)
    else (st.1, refs).

(** [", ".join(mapping_runnable_refs[:10]) if mapping_runnable_refs else
    "none"] *)
Definition rule_9_found_refs (refs : list string) : string :=
  match refs with
  | [] => "none"
  | _ => String.concat ", " (take 10 refs)
  end.

Definition rule_9_msg (name found_refs : string) : string :=
  "RUNNABLE-ENTITY '" +:+ name +:+ "' is not mapped to any Cpu Core. "
  +:+ "Add a Core-Runnable-Mapping with RunnableRef pointing to this runnable and a valid ClusterRef/CoreId."
  +:+ String Py.nl EmptyString
  +:+ "Existing Core-Runnable-Mapping RunnableRef values in document: "
  +:+ found_refs +:+ "." +:+ String Py.nl EmptyString
  +:+ "If mappings reference a non-existent runnable, fix the RunnableRef paths or add the runnable.".

(** The body of the second loop. *)
Definition rule_9_runnable (mapped : gset string) (refs : list string)
           (runnable : node) : list ValidationError :=
  match short_name (n_elem runnable) with
  | None => []
  | Some name =>
      if bool_decide (name ∈ mapped) then []
      else [error 9 (rule_9_msg name (rule_9_found_refs refs))
                  (n_path runnable)]
  end.

(** [_validate_rule_9] *)
Definition _validate_rule_9 (root : element) : list ValidationError :=
  let st :=
    fold_left (rule_9_collect (runnable_index root))
              (xpath_any root ["Core-Runnable-Mapping"; "CoreRunnableMapping"])
              (∅, []) in
  flat_map (rule_9_runnable st.1 st.2) (xpath_all root "RUNNABLE-ENTITY").

(** *** Rule 5: provider ports and write accesses *)

(** [pport_ref_count]: port path to count and element, in insertion
    order. *)
Definition ref_count : Type := list (string * (nat * node)).

(** [d[k] = v]: an existing key keeps its place. *)
Fixpoint od_set (k : string) (v : nat * node) (d : ref_count) : ref_count :=
  match d with
  | [] => [(k, v)]
  | (k', v') :: d' =>
      if String.eqb k' k then (k, v) :: d' else (k', v') :: od_set k v d'
  end.

(** [if k in d: d[k]["count"] += 1] *)
Fixpoint od_incr (d : ref_count) (k : string) : ref_count :=
  match d with
  | [] => []
  | (k', (c, e)) :: d' =>
      if String.eqb k' k then (k', (S c, e)) :: d'
      else (k', (c, e)) :: od_incr d' k
  end.

(** The path under which a port is counted: [/swc_name/port_name], for a
    named port below a named APPLICATION-SW-COMPONENT-TYPE. *)
Definition port_path (port : node) : option string :=
  match short_name (n_elem port) with
  | None => None
  | Some port_name =>
      match xpath_ancestor port "APPLICATION-SW-COMPONENT-TYPE" with
      | [] => None
      | swc :: _ =>
          match short_name swc with
          | None => None
          | Some swc_name => Some ("/" +:+ swc_name +:+ "/" +:+ port_name)
          end
      end
  end.

(** First loop: register the ports. *)
Definition rule_5_register (d : ref_count) (pport : node) : ref_count :=
  match port_path pport with
  | None => d
  | Some path => od_set path (0, pport) d
  end.

(** The references the second loop goes through. *)
Definition write_access_refs (root : element) : list string :=
  flat_map (fun write_access =>
              desc_attr (n_elem write_access) "PORT-PROTOTYPE-REF" "DEST")
           (xpath_all root "DATA-WRITE-ACCESS").

(** [pport_ref_count] after the first two loops. *)
Definition rule_5_table (root : element) : ref_count :=
  fold_left od_incr (write_access_refs root)
            (fold_left rule_5_register (xpath_all root "P-PORT-PROTOTYPE") []).

Definition rule_5_zero_msg (port_name path : string) : string :=
  "Provider port '" +:+ port_name +:+ "' (at " +:+ path
  +:+ ") has ZERO DATA-WRITE-ACCESS references. Each P-PORT must be connected to exactly one DATA-WRITE-ACCESS.".
Definition rule_5_many_msg (port_name path : string) (count : nat) : string :=
  "Provider port '" +:+ port_name +:+ "' (at " +:+ path
  +:+ ") has " +:+ Py.str_of_nat count
  +:+ " DATA-WRITE-ACCESS references. Each P-PORT must be connected to exactly ONE DATA-WRITE-ACCESS.".

(** Third loop: the findings of one entry. *)
Definition rule_5_report (entry : string * (nat * node))
  : list ValidationError :=
  let '(path, (count, element)) := entry in
  let port_name := default "unknown" (short_name (n_elem element)) in
  let xpath := n_path element in
  match count with
  | 0 => [error 5 (rule_5_zero_msg port_name path) xpath]
  | 1 => []
  | _ => [error 5 (rule_5_many_msg port_name path count) xpath]
  end.

(** [_validate_rule_5] *)
Definition _validate_rule_5 (root : element) : list ValidationError :=
  flat_map rule_5_report (rule_5_table root).

(** *** Rule 4: require ports and read accesses *)

(** The references the second loop goes through. *)
Definition read_access_refs (root : element) : list string :=
  flat_map (fun read_access =>
              desc_attr (n_elem read_access) "PORT-PROTOTYPE-REF" "DEST")
           (xpath_all root "DATA-READ-ACCESS").

(** [rport_ref_count] after the first two loops; the first loop registers
    a port as that of rule 5 does. *)
Definition rule_4_table (root : element) : ref_count :=
  fold_left od_incr (read_access_refs root)
            (fold_left rule_5_register (xpath_all root "R-PORT-PROTOTYPE") []).

Definition rule_4_zero_msg (port_name path : string) : string :=
  "Required port '" +:+ port_name +:+ "' (at " +:+ path
  +:+ ") has ZERO DATA-READ-ACCESS references. Each R-PORT must be connected to exactly one DATA-READ-ACCESS.".
Definition rule_4_many_msg (port_name path : string) (count : nat) : string :=
  "Required port '" +:+ port_name +:+ "' (at " +:+ path
  +:+ ") has " +:+ Py.str_of_nat count
  +:+ " DATA-READ-ACCESS references. Each R-PORT must be connected to exactly ONE DATA-READ-ACCESS.".

(** Third loop: the findings of one entry. *)
Definition rule_4_report (entry : string * (nat * node))
  : list ValidationError :=
  let '(path, (count, element)) := entry in
  let port_name := default "unknown" (short_name (n_elem element)) in
  let xpath := n_path element in
  match count with
  | 0 => [error 4 (rule_4_zero_msg port_name path) xpath]
  | 1 => []
  | _ => [error 4 (rule_4_many_msg port_name path count) xpath]
  end.

(** [_validate_rule_4] *)
Definition _validate_rule_4 (root : element) : list ValidationError :=
  flat_map rule_4_report (rule_4_table root).

(** *** Rules 22 and 23: operations of software components *)

Definition op_missing_iref_msg (operation_type : string) : string :=
  operation_type +:+ " operation missing IREF child.".
Definition op_empty_dest_msg (operation_type : string) : string :=
  operation_type +:+ " operation IREF has empty DEST attribute.".
Definition op_unresolved_msg (operation_type dest access_type : string)
  : string :=
  operation_type +:+ " operation IREF DEST='" +:+ dest
  +:+ "' does not resolve to any " +:+ access_type +:+ " SHORT-NAME.".

(** [valid_data_access]: the names of the accesses of one direction. *)
Definition valid_data_access (root : element) (access_type : string)
  : gset string :=
  list_to_set
    (omap (fun data_access => short_name (n_elem data_access))
          (xpath_path root [access_type] "VARIABLE-ACCESS")).

(** The three checks on one operation. *)
Definition check_data_access_operation (operation_type : string)
           (rule_number : Z) (access_type : string) (valid : gset string)
           (operation : node) : list ValidationError :=
  let xpath := n_path operation in
  match find_child operation "IREF" with
  | None => [error rule_number (op_missing_iref_msg operation_type) xpath]
  | Some iref =>
      let dest := Py.strip (nget_or iref "DEST" EmptyString) in
      if String.eqb dest EmptyString
      then [error rule_number (op_empty_dest_msg operation_type) xpath]
      else
        let dest_name := Py.last_item (Py.split "/" dest) in
        if bool_decide (dest_name ∈ valid) then []
        else [error rule_number
                    (op_unresolved_msg operation_type dest access_type) xpath]
  end.

(** [_validate_data_access_operation] *)
Definition _validate_data_access_operation (root : element)
           (operation_type : string) (rule_number : Z)
  : list ValidationError :=
  let access_type := "DATA-" +:+ operation_type +:+ "-ACCESS" in
  let valid := valid_data_access root access_type in
  flat_map
    (check_data_access_operation operation_type rule_number access_type valid)
    (xpath_below_pair root "SWC-INTERNAL-BEHAVIOR" "OPERATIONS-SEQUENCE"
                      operation_type).

Definition _validate_rule_23 (root : element) : list ValidationError :=
  _validate_data_access_operation root "WRITE" 23.

(** *** Rule 63: operations of hardware blocks *)

(** [p_ports] and [r_ports] of one hardware block: port name to port. *)
Definition hwip_ports (hwip : node) (port_tag : string) : gmap string node :=
  fold_left
    (fun ports port =>
       match short_name (n_elem port) with
       | Some port_name => <[port_name := port]> ports
       | None => ports
       end)
    (xpath_desc_path hwip ["INTERNAL-BEHAVIOR"; "PORTS"] port_tag) ∅.

Definition op_wrong_port_msg (op hwip_name other_kind port_name own_kind
  : string) : string :=
  op +:+ " operation in HWIP '" +:+ hwip_name +:+ "' points to "
  +:+ other_kind +:+ " '" +:+ port_name +:+ "'. " +:+ op
  +:+ " operations must reference " +:+ own_kind +:+ "-PROTOTYPE only.".
Definition op_no_port_msg (op hwip_name port_name dest : string) : string :=
  op +:+ " operation in HWIP '" +:+ hwip_name
  +:+ "' references non-existent port '" +:+ port_name +:+ "' (DEST='"
  +:+ dest +:+ "').".

(** The check on one WRITE (or READ) element: [own] are the ports of the
    direction the operation needs, [other] those of the opposite one. *)
Definition check_hwip_operation (op own_kind other_kind hwip_name : string)
           (own other : gmap string node) (op_elem : node)
  : list ValidationError :=
  match find_child op_elem "IREF" with
  | None => []
  | Some iref =>
      let dest := Py.strip (nget_or iref "DEST" EmptyString) in
      if String.eqb dest EmptyString then []
      else
        let port_name := Py.last_item (Py.split "/" dest) in
        if bool_decide (is_Some (own !! port_name)) then []
        else if bool_decide (is_Some (other !! port_name))
        then [error 63 (op_wrong_port_msg op hwip_name other_kind port_name
                                          own_kind) (n_path op_elem)]
        else [error 63 (op_no_port_msg op hwip_name port_name dest)
                    (n_path op_elem)]
  end.

Definition hwip_operations (hwip : node) : list node :=
  xpath_desc_path hwip ["INTERNAL-BEHAVIOR"; "OPERATIONS-SEQUENCE"] "OPERATION".

(** The body of the loop over the hardware blocks. *)
Definition rule_63_hwip (hwip : node) : list ValidationError :=
  match short_name (n_elem hwip) with
  | None => []
  | Some hwip_name =>
      let p_ports := hwip_ports hwip "P-PORT-PROTOTYPE" in
      let r_ports := hwip_ports hwip "R-PORT-PROTOTYPE" in
      flat_map
        (fun operation =>
           flat_map (check_hwip_operation "WRITE" "P-PORT" "R-PORT" hwip_name
                                          p_ports r_ports)
                    (xpath_child operation "WRITE")
           ++ flat_map (check_hwip_operation "READ" "R-PORT" "P-PORT"
                                             hwip_name r_ports p_ports)
                       (xpath_child operation "READ"))
        (hwip_operations hwip)
  end.

(** [_validate_rule_63] *)
Definition _validate_rule_63 (root : element) : list ValidationError :=
  flat_map rule_63_hwip (xpath_all root "Generic_Hardware").

(** *** Rule 76 (HW): the frequency of clusters that run Linux *)

Definition required_frequency : Z := 1000000000.

(** The body of the loop over the operating-system nodes: a Linux
    descendant, or text that mentions linux. *)
Definition os_node_is_linux (os_node : node) : bool :=
  match xpath_desc os_node "Linux" with
  | _ :: _ => true
  | [] =>
      match text (n_elem os_node) with
      | Some t => negb (String.eqb t EmptyString)
                  && Py.contains "linux" (Py.lower t)
      | None => false
      end
  end.

Definition is_linux (cpu_cluster : node) : bool :=
  existsb os_node_is_linux
          (xpath_desc_any cpu_cluster
                          ["Operating-System"; "OS"; "OperatingSystem"])
  || existsb (fun m => Py.contains "Linux" (ntag m)
                       || Py.contains "LINUX" (ntag m))
             (descendants cpu_cluster).

Definition freq_missing_msg (cluster_name : string) : string :=
  "CPU_Cluster " +:+ Py.dq +:+ cluster_name +:+ Py.dq
  +:+ " running Linux OS is missing Frequency value".
Definition freq_invalid_msg (cluster_name : string) (freq_int : Z) : string :=
  "CPU_Cluster " +:+ Py.dq +:+ cluster_name +:+ Py.dq
  +:+ " running Linux OS has invalid Frequency: " +:+ Py.str_of_Z freq_int
  +:+ " Hz. Must be exactly 1000000000 Hz (1 GHz)".
Definition freq_not_numeric_msg (cluster_name freq_value : string) : string :=
  "CPU_Cluster " +:+ Py.dq +:+ cluster_name +:+ Py.dq
  +:+ " running Linux OS has invalid Frequency value: " +:+ Py.dq
  +:+ freq_value +:+ Py.dq +:+ " (must be numeric)".

(** The value of a Frequency element: the attribute, else the text. *)
Definition freq_value_of (freq_node : node) : string :=
  let v := Py.strip (nget_or freq_node "value" EmptyString) in
  if String.eqb v EmptyString
  then Py.strip (default EmptyString (text (n_elem freq_node)))
  else v.

Definition check_frequency (cluster_name : string) (freq_node : node)
  : list ValidationError :=
  let freq_value := freq_value_of freq_node in
  if String.eqb freq_value EmptyString then []
  else match Py.int freq_value with
       | Some freq_int =>
           if Z.eqb freq_int required_frequency then []
           else [error 76 (freq_invalid_msg cluster_name freq_int)
                       (n_path freq_node)]
       | None => [error 76 (freq_not_numeric_msg cluster_name freq_value)
                        (n_path freq_node)]
       end.

Definition cluster_display_name (cpu_cluster : node) : string :=
  match find_desc cpu_cluster "SHORT-NAME" with
  | Some short_name => nget_or short_name "name" "unnamed"
  | None => "unnamed"
  end.

(** The body of the loop over the clusters. *)
Definition rule_76_hw_cluster (cpu_cluster : node) : list ValidationError :=
  if negb (is_linux cpu_cluster) then []
  else
    let cluster_name := cluster_display_name cpu_cluster in
    match xpath_desc cpu_cluster "Frequency" with
    | [] => [error 76 (freq_missing_msg cluster_name) (n_path cpu_cluster)]
    | freq_nodes => flat_map (check_frequency cluster_name) freq_nodes
    end.

(** [_validate_rule_76_hw_frequency] *)
Definition _validate_rule_76_hw_frequency (root : element)
  : list ValidationError :=
  flat_map rule_76_hw_cluster
           (xpath_any root ["CPU_Cluster"; "CPU-Cluster"; "CPUCluster"]).

(** *** Rule 79: core ids of prebuilt-application mappings *)

(** [self.cluster_index], as [_build_indices] fills it: the first
    [SHORT-NAME/@name] below a CPU_Cluster names it; a later cluster of
    the same name replaces an earlier one. *)
Definition cluster_index (root : element) : gmap string node :=
  fold_left
    (fun index cluster =>
       match desc_attr (n_elem cluster) "SHORT-NAME" "name" with
       | name :: _ => <[name := cluster]> index
       | [] => index
       end)
    (xpath_all root "CPU_Cluster") ∅.

(** [CoresPerCluster] of a cluster: the attribute on the first descendant
    that carries it, when it is an integer. *)
Definition cores_per_cluster (cluster_elem : node) : option Z :=
  match desc_with_attr (n_elem cluster_elem) "CoresPerCluster" with
  | elem :: _ => Py.int (get_or elem "CoresPerCluster" EmptyString)
  | [] => None
  end.

Definition core_id_msg (core_id : Z) (cluster_name : string) (cpc : Z)
  : string :=
  "Core-PrebuiltApplication-Mapping CoreId=" +:+ Py.str_of_Z core_id
  +:+ " out of range for cluster '" +:+ cluster_name
  +:+ "' (CoresPerCluster=" +:+ Py.str_of_Z cpc +:+ ")".

(** The body of the loop over the mappings. *)
Definition rule_79_mapping (index : gmap string node) (mapping : node)
  : list ValidationError :=
  let core_id_str := Py.strip (nget_or mapping "CoreId" EmptyString) in
  if String.eqb core_id_str EmptyString then []
  else match Py.int core_id_str with
       | None => []
       | Some core_id =>
           match parent_subtree_attr mapping "ClusterRef" with
           | [] => []
           | cluster_ref_val :: _ =>
               let cluster_name :=
                 _extract_short_name_from_dest cluster_ref_val in
               match index !! cluster_name with
               | None => []
               | Some cluster_elem =>
                   match cores_per_cluster cluster_elem with
                   | Some cpc =>
                       if (cpc <=? core_id)%Z
                       then [error 79 (core_id_msg core_id cluster_name cpc)
                                   (n_path mapping)]
                       else []
                   | None => []
                   end
               end
           end
       end.

(** [_validate_rule_79] *)
Definition _validate_rule_79 (root : element) : list ValidationError :=
  flat_map (rule_79_mapping (cluster_index root))
           (xpath_any root ["Core-PrebuiltApplication-Mapping";
                            "CorePrebuiltAppMapping"]).

(** *** Rule 76b: cluster references of HW-SW-MAPPING elements *)

Definition cluster_ref_msg (cluster_ref cluster_short : string) : string :=
  "HW-SW-MAPPING ClusterRef '" +:+ cluster_ref
  +:+ "' does not resolve to any CPU_Cluster (no SHORT-NAME '"
  +:+ cluster_short +:+ "' found).".

(** The body of the loop over the mappings; the finding carries the rule
    number 76. *)
Definition rule_76b_mapping (index : gmap string node) (mapping : node)
  : list ValidationError :=
  let cluster_ref :=
    Py.strip (default EmptyString (nget mapping "ClusterRef")) in
  if String.eqb cluster_ref EmptyString then []
  else
    let cluster_short := _extract_short_name_from_dest cluster_ref in
    if bool_decide (is_Some (index !! cluster_short)) then []
    else [error 76 (cluster_ref_msg cluster_ref cluster_short)
                (n_path mapping)].

(** [_validate_rule_76b] *)
Definition _validate_rule_76b (root : element) : list ValidationError :=
  flat_map (rule_76b_mapping (cluster_index root))
           (xpath_all root "HW-SW-MAPPING").

(** *** The other indices of [_build_indices] *)

(** [self.sri_index] and [self.prebuilt_app_index], keyed like
    [runnable_index]. *)
Definition sri_index (root : element) : gmap string node :=
  fold_left
    (fun index sri =>
       match index_name (n_elem sri) with
       | Some name => <[name := sri]> index
       | None => index
       end)
    (xpath_all root "SENDER-RECEIVER-INTERFACE") ∅.

Definition prebuilt_app_index (root : element) : gmap string node :=
  fold_left
    (fun index app =>
       match index_name (n_elem app) with
       | Some name => <[name := app]> index
       | None => index
       end)
    (xpath_all root "PRE-BUILT-APPLICATION") ∅.

(** The [prebuilt_index] that rules 80 and 81 build for themselves: keyed
    by the first SHORT-NAME alone. *)
Definition prebuilt_index (root : element) : gmap string node :=
  fold_left
    (fun index app =>
       match short_name (n_elem app) with
       | Some name => <[name := app]> index
       | None => index
       end)
    (xpath_all root "PRE-BUILT-APPLICATION") ∅.

(** *** Rule 3: the interface a port names exists *)

Definition rule_3_unresolved_msg (dest short : string) : string :=
  "Port references interface '" +:+ dest
  +:+ "', but no SENDER-RECEIVER-INTERFACE with SHORT-NAME='" +:+ short
  +:+ "' exists in the model.".
Definition rule_3_empty_msg : string :=
  "Port interface reference DEST is empty or not a valid path. Please check the format.".

(** The body of the inner loop, for one reference of one port. *)
Definition rule_3_dest (index : gmap string node) (port : node)
           (dest : string) : list ValidationError :=
  let short := _extract_short_name_from_dest dest in
  if negb (String.eqb short EmptyString)
     && negb (bool_decide (is_Some (index !! short)))
  then [error 3 (rule_3_unresolved_msg dest short) (n_path port)]
  else if String.eqb short EmptyString
       then [error 3 rule_3_empty_msg (n_path port)]
       else [].

(** [provided_refs + required_refs] of a port. *)
Definition interface_refs (port : node) : list string :=
  desc_attr (n_elem port) "PROVIDED-INTERFACE-TREF" "DEST"
  ++ desc_attr (n_elem port) "REQUIRED-INTERFACE-TREF" "DEST".

(** [_validate_rule_3] *)
Definition _validate_rule_3 (root : element) : list ValidationError :=
  flat_map
    (fun port => flat_map (rule_3_dest (sri_index root) port)
                          (interface_refs port))
    (xpath_any root ["P-PORT-PROTOTYPE"; "R-PORT-PROTOTYPE"]).

(** *** Rules 76, 78, 80 and 81: what a mapping refers to exists *)

(** The four rules run the same loop body on a mapping: [rule] is the
    number the findings carry, [kind] the name of the mapping in the
    messages, [attr] the attribute read with [mapping.get(attr, "")],
    [target] the name of the element the reference should resolve to. *)
Definition empty_ref_msg (kind attr : string) : string :=
  kind +:+ " has empty @" +:+ attr.
Definition unresolved_ref_msg (kind attr ref target : string) : string :=
  kind +:+ " @" +:+ attr +:+ "='" +:+ ref
  +:+ "' does not resolve to existing " +:+ target.

Definition check_mapping_ref (rule : Z) (kind attr target : string)
           (index : gmap string node) (mapping : node)
  : list ValidationError :=
  let ref := Py.strip (nget_or mapping attr EmptyString) in
  if String.eqb ref EmptyString
  then [error rule (empty_ref_msg kind attr) (n_path mapping)]
  else
    let short := _extract_short_name_from_dest ref in
    if bool_decide (is_Some (index !! short)) then []
    else [error rule (unresolved_ref_msg kind attr ref target)
                (n_path mapping)].

(** [_validate_rule_76]: its findings carry the number 78. *)
Definition _validate_rule_76 (root : element) : list ValidationError :=
  flat_map
    (check_mapping_ref 78 "Core-Runnable-Mapping" "RunnableRef"
                       "RUNNABLE-ENTITY" (runnable_index root))
    (xpath_any root ["Core-Runnable-Mapping"; "CoreRunnableMapping"]).

(** [_validate_rule_78] *)
Definition _validate_rule_78 (root : element) : list ValidationError :=
  flat_map
    (check_mapping_ref 78 "Cluster-PrebuiltApplication-Mapping"
                       "PrebuiltApplicationRef" "PRE-BUILT-APPLICATION"
                       (prebuilt_app_index root))
    (xpath_any root ["Cluster-PrebuiltApplication-Mapping";
                     "ClusterPrebuiltAppMapping"]).

(** [_validate_rule_80_prebuilt] *)
Definition _validate_rule_80_prebuilt (root : element)
  : list ValidationError :=
  flat_map
    (check_mapping_ref 80 "Core-PrebuiltApplication-Mapping"
                       "PrebuiltApplicationRef" "PRE-BUILT-APPLICATION"
                       (prebuilt_index root))
    (xpath_any root ["Core-PrebuiltApplication-Mapping";
                     "CorePrebuiltAppMapping"]).

(** [_validate_rule_81_prebuilt] *)
Definition _validate_rule_81_prebuilt (root : element)
  : list ValidationError :=
  flat_map
    (check_mapping_ref 81 "Cluster-PrebuiltApplication-Mapping"
                       "PrebuiltApplicationRef" "PRE-BUILT-APPLICATION"
                       (prebuilt_index root))
    (xpath_any root ["Cluster-PrebuiltApplication-Mapping";
                     "ClusterPrebuiltAppMapping"]).

(** *** Rule 75: a cluster that runs Nucleus is mapped *)

(** [//CPU_Cluster[Operating-System/Nucleus_RTOS]]: the predicate. *)
Definition runs_nucleus (cluster : node) : bool :=
  existsb (fun os => has_tag "Operating-System" os
                     && existsb (has_tag "Nucleus_RTOS") (children os))
          (children (n_elem cluster)).

(** [parts[-1]] of [parts = [p for p in cluster_ref.split("/") if p]], when
    [parts] is not empty. *)
Definition last_part (cluster_ref : string) : option string :=
  last (List.filter (fun p => negb (String.eqb p EmptyString))
                    (Py.split "/" cluster_ref)).

(** One iteration of the first loop: the state is
    [mapped_cluster_names]. *)
Definition rule_75_collect (mapped : gset string) (hw_sw_mapping : node)
  : gset string :=
  let cluster_ref :=
    Py.strip (default EmptyString (nget hw_sw_mapping "ClusterRef")) in
  if String.eqb cluster_ref EmptyString then mapped
  else
    match List.filter (has_tag_in ["Core-Runnable-Mapping";
                                   "CoreRunnableMapping"])
                      (children (n_elem hw_sw_mapping)) with
    | [] => mapped
    | _ :: _ =>
        match last_part cluster_ref with
        | Some part => {[part]} ∪ mapped
        | None => mapped
        end
    end.

Definition rule_75_msg (cluster_short : string) : string :=
  "CPU_Cluster '" +:+ cluster_short
  +:+ "' running Nucleus_RTOS is not mapped to any runnable.".

(** The body of the second loop. *)
Definition rule_75_cluster (mapped : gset string) (cluster : node)
  : list ValidationError :=
  match desc_attr (n_elem cluster) "SHORT-NAME" "name" with
  | [] => []
  | cluster_short :: _ =>
      if bool_decide (cluster_short ∈ mapped) then []
      else [error 75 (rule_75_msg cluster_short) (n_path cluster)]
  end.

(** [mapped_cluster_names] after the first loop. *)
Definition mapped_cluster_names (root : element) : gset string :=
  fold_left rule_75_collect
            (List.filter
               (fun m => bool_decide (is_Some (nget m "ClusterRef")))
               (xpath_all root "HW-SW-MAPPING"))
            ∅.

(** [_validate_rule_75] *)
Definition _validate_rule_75 (root : element) : list ValidationError :=
  flat_map (rule_75_cluster (mapped_cluster_names root))
           (List.filter runs_nucleus (xpath_all root "CPU_Cluster")).

(** *** Rule 62: operations of hardware blocks are well formed *)

Definition rule_62_no_iref_msg (op hwip_name : string) : string :=
  op +:+ " operation in HWIP '" +:+ hwip_name
  +:+ "' must have an IREF child.".
Definition rule_62_empty_dest_msg (op hwip_name : string) : string :=
  op +:+ " operation in HWIP '" +:+ hwip_name
  +:+ "' has empty IREF DEST attribute.".

(** The check on one WRITE (or READ) element. *)
Definition rule_62_access (op hwip_name : string) (op_elem : node)
  : list ValidationError :=
  match find_child op_elem "IREF" with
  | None => [error 62 (rule_62_no_iref_msg op hwip_name) (n_path op_elem)]
  | Some iref =>
      let dest := Py.strip (nget_or iref "DEST" EmptyString) in
      if String.eqb dest EmptyString
      then [error 62 (rule_62_empty_dest_msg op hwip_name) (n_path op_elem)]
      else []
  end.

Definition ml_ops : list string :=
  ["CONVOLUTION"; "BATCH-NORMALIZATION"; "HARDMAX"; "LOG-SOFTMAX";
   "MAX-POOL"; "AVG-POOL"; "TRANSPOSED-CONVOLUTION"].

Definition rule_62_dims_msg (ml_op_name hwip_name height width channels
  : string) : string :=
  ml_op_name +:+ " operation in HWIP '" +:+ hwip_name
  +:+ "' has invalid dimensions (height=" +:+ height +:+ ", width=" +:+ width
  +:+ ", channels=" +:+ channels +:+ "). All dimensions must be non-zero.".
Definition rule_62_non_numeric_msg (ml_op_name hwip_name : string) : string :=
  ml_op_name +:+ " operation in HWIP '" +:+ hwip_name
  +:+ "' has non-numeric dimension attributes.".

(** [int(height) == 0 or int(width) == 0 or int(channels) == 0], evaluated
    from the left and no further than needed; [None] stands for
    [ValueError]. *)
Definition some_dimension_zero (height width channels : string)
  : option bool :=
  h ← Py.int height;
  if (h =? 0)%Z then Some true
  else
    w ← Py.int width;
    if (w =? 0)%Z then Some true
    else
      c ← Py.int channels;
      Some (c =? 0)%Z.

(** The check on one element of a machine-learning operation. *)
Definition rule_62_ml_op (ml_op_name hwip_name : string) (ml_op : node)
  : list ValidationError :=
  let height := nget_or ml_op "height" "1024" in
  let width := nget_or ml_op "width" "1024" in
  let channels := nget_or ml_op "channels" "3" in
  match some_dimension_zero height width channels with
  | Some true =>
      [error 62 (rule_62_dims_msg ml_op_name hwip_name height width channels)
             (n_path ml_op)]
  | Some false => []
  | None =>
      [error 62 (rule_62_non_numeric_msg ml_op_name hwip_name)
             (n_path ml_op)]
  end.

Definition rule_62_latency_msg (hwip_name : string) : string :=
  "LATENCY operation in HWIP '" +:+ hwip_name
  +:+ "' has zero value. Latency must be non-zero.".
Definition rule_62_load_msg (hwip_name : string) : string :=
  "LOAD operation in HWIP '" +:+ hwip_name
  +:+ "' has zero value. Load cycles must be non-zero.".

(** The check on one LATENCY or LOAD element: a value that is no integer
    is passed over. *)
Definition rule_62_value (msg : string) (elem : node)
  : list ValidationError :=
  let value := nget_or elem "value" "0" in
  match Py.int value with
  | Some 0%Z => [error 62 msg (n_path elem)]
  | _ => []
  end.

(** The body of the loop over the operations of one hardware block. *)
Definition rule_62_operation (hwip_name : string) (operation : node)
  : list ValidationError :=
  flat_map (rule_62_access "WRITE" hwip_name) (xpath_child operation "WRITE")
  ++ flat_map (rule_62_access "READ" hwip_name) (xpath_child operation "READ")
  ++ flat_map
       (fun ml_op_name =>
          flat_map (rule_62_ml_op ml_op_name hwip_name)
                   (xpath_child operation ml_op_name))
       ml_ops
  ++ flat_map (rule_62_value (rule_62_latency_msg hwip_name))
              (xpath_child operation "LATENCY")
  ++ flat_map (rule_62_value (rule_62_load_msg hwip_name))
              (xpath_child operation "LOAD").

(** [_validate_rule_62] *)
Definition _validate_rule_62 (root : element) : list ValidationError :=
  flat_map
    (fun hwip =>
       match short_name (n_elem hwip) with
       | None => []
       | Some hwip_name =>
           flat_map (rule_62_operation hwip_name) (hwip_operations hwip)
       end)
    (xpath_all root "Generic_Hardware").

(** *** Rule 74: a cluster has runnable mappings or prebuilt mappings *)

(** [cluster_map]: cluster name to the kinds of mapping that refer to it,
    in insertion order. *)
Definition cluster_map : Type := list (string * gset string).

(** [cluster_map.setdefault(k, set()).add(kind)] *)
Fixpoint add_kind (kind k : string) (d : cluster_map) : cluster_map :=
  match d with
  | [] => [(k, {[kind]})]
  | (k', types) :: d' =>
      if String.eqb k' k then (k', {[kind]} ∪ types) :: d'
      else (k', types) :: add_kind kind k d'
  end.

(** The cluster a core mapping refers to: the last segment of the first
    [parent::*//@ClusterRef]. *)
Definition parent_cluster (mapping : node) : option string :=
  match parent_subtree_attr mapping "ClusterRef" with
  | cluster_ref :: _ => Some (_extract_short_name_from_dest cluster_ref)
  | [] => None
  end.

(** The cluster a cluster mapping refers to: by its own ClusterRef, or,
    when that is blank, by the first one of the parent; none when the
    reference found is blank. *)
Definition own_or_parent_cluster (mapping : node) : option string :=
  let own := Py.strip (nget_or mapping "ClusterRef" EmptyString) in
  let cluster_ref :=
    if String.eqb own EmptyString then
      match parent_subtree_attr mapping "ClusterRef" with
      | parent_ref :: _ => Py.strip parent_ref
      | [] => own
      end
    else own in
  if String.eqb cluster_ref EmptyString then None
  else Some (_extract_short_name_from_dest cluster_ref).

(** One iteration of a collecting loop. *)
Definition collect_kind (kind : string) (cluster_of : node → option string)
           (d : cluster_map) (mapping : node) : cluster_map :=
  match cluster_of mapping with
  | Some cluster_short => add_kind kind cluster_short d
  | None => d
  end.

Definition core_runnable_mappings (root : element) : list node :=
  xpath_any root ["Core-Runnable-Mapping"; "CoreRunnableMapping"].
Definition core_prebuilt_mappings (root : element) : list node :=
  xpath_any root ["Core-PrebuiltApplication-Mapping"; "CorePrebuiltAppMapping"].
Definition cluster_prebuilt_mappings (root : element) : list node :=
  xpath_any root ["Cluster-PrebuiltApplication-Mapping";
                  "ClusterPrebuiltAppMapping"].

(** [cluster_map] after the three collecting loops. *)
Definition rule_74_map (root : element) : cluster_map :=
  fold_left (collect_kind "prebuilt" own_or_parent_cluster)
    (cluster_prebuilt_mappings root)
    (fold_left (collect_kind "prebuilt" parent_cluster)
       (core_prebuilt_mappings root)
       (fold_left (collect_kind "runnable" parent_cluster)
          (core_runnable_mappings root) [])).

Definition rule_74_msg (cluster_short : string) : string :=
  "CPU_Cluster '" +:+ cluster_short
  +:+ "' is referenced by both runnable and prebuilt app mappings (not allowed)".

(** One reporting loop: a finding at every mapping that refers to the
    cluster. *)
Definition rule_74_matches (cluster_of : node → option string)
           (cluster_short : string) (mappings : list node)
  : list ValidationError :=
  flat_map
    (fun mapping =>
       if bool_decide (cluster_of mapping = Some cluster_short)
       then [error 74 (rule_74_msg cluster_short) (n_path mapping)]
       else [])
    mappings.

(** The body of the loop over [cluster_map.items()]. *)
Definition rule_74_report (root : element) (entry : string * gset string)
  : list ValidationError :=
  let '(cluster_short, types) := entry in
  if bool_decide ("runnable" ∈ types) && bool_decide ("prebuilt" ∈ types)
  then
    rule_74_matches parent_cluster cluster_short (core_runnable_mappings root)
    ++ rule_74_matches parent_cluster cluster_short
                       (core_prebuilt_mappings root)
    ++ rule_74_matches own_or_parent_cluster cluster_short
                       (cluster_prebuilt_mappings root)
  else [].

(** [_validate_rule_74] *)
Definition _validate_rule_74 (root : element) : list ValidationError :=
  flat_map (rule_74_report root) (rule_74_map root).

End Rules.

Import Rules.

(** ** The stage orchestrator: [validation_pipeline.py] *)

(** [class ValidationResult] *)
Record ValidationResult : Type := mkValidationResult
  { file_path : string;
    xsd_passed : bool;
    xsd_errors : list string;
    schematron_passed : bool;
    schematron_errors : list string;
    python_passed : bool;
    python_errors : list string }.

(** [ValidationResult.__init__] *)
Definition ValidationResult_init (file_path : string) : ValidationResult :=
  mkValidationResult file_path false [] false [] false [].

(** [ValidationResult.is_valid] *)
Definition is_valid (self : ValidationResult) : bool :=
  xsd_passed self && schematron_passed self && python_passed self.

(** [ValidationResult.total_errors] *)
Definition total_errors (self : ValidationResult) : nat :=
  length (xsd_errors self) + length (schematron_errors self)
  + length (python_errors self).

Module Pipeline.

(** An exception that [except Exception] catches: whether it is a
    [subprocess.TimeoutExpired], and what [str(e)] gives. *)
Record exn : Type := Exn { is_timeout : bool; exn_str : string }.

Inductive outcome (A : Type) : Type :=
| Returned (a : A)
| Raised (e : exn).
Arguments Returned {A} a.
Arguments Raised {A} e.

(** What a run does that can be observed from outside: the lines
    [validate_file] prints around each stage and the calls to the tools. *)
Inductive event : Type :=
| Print_stage (k : nat)
| Print_verdict (passed : bool)
| Call_is_valid (xml_file : string)
| Call_iter_errors (xml_file : string)
| Call_venv_exists
| Call_subprocess_run (cmd : list string)
| Call_python_validate (xml_file : string) (check_filesystem : bool).

(** A computation: its outcome and the events it produced, in order. An
    exception ends the computation it occurs in unless it is caught. *)
Definition M (A : Type) : Type := outcome A * list event.

#[local] Instance M_ret : MRet M := fun _ a => (Returned a, []).
#[local] Instance M_bind : MBind M := fun _ _ f m =>
  match m with
  | (Returned a, evs) => let '(r, evs') := f a in (r, evs ++ evs')
  | (Raised e, evs) => (Raised e, evs)
  end.

Definition emit (ev : event) : M unit := (Returned tt, [ev]).
Definition call {A} (ev : event) (r : outcome A) : M A := (r, [ev]).

(** [try: body / except Exception as e: handler(e)] *)
Definition try_except {A} (body : M A) (handler : exn -> M A) : M A :=
  match body with
  | (Returned a, evs) => (Returned a, evs)
  | (Raised e, evs) => let '(r, evs') := handler e in (r, evs ++ evs')
  end.

(** An error the schema reports: [getattr(err, "path", ...)] and
    [getattr(err, "reason", str(err))]. *)
Record xsd_error : Type := XsdError
  { err_path : option string; err_reason : string }.

(** The [xmlschema.XMLSchema] object, through what the pipeline uses of
    it: its truth value, [is_valid] and [iter_errors]. *)
Record XMLSchema : Type := mkXMLSchema
  { schema_truth : bool;
    schema_is_valid : string -> outcome bool;
    schema_iter_errors : string -> outcome (list xsd_error) }.

(** [subprocess.CompletedProcess] *)
Record CompletedProcess : Type := mkCompletedProcess
  { returncode : Z; stdout : option string; stderr : option string }.

(** What lies outside the pipeline: the file system, the Schematron
    subprocess, the regular-expression searches of its output, and the
    rule engine on a file ([python_logical_validations.validate_file]). *)
Record World : Type := mkWorld
  { venv_exists : outcome bool;
    subprocess_run : list string -> outcome CompletedProcess;
    svrl_ns_messages : string -> list string;
    svrl_messages : string -> list string;
    python_validate_file : string -> bool -> outcome (list ValidationError) }.

(** [class ValidationPipeline], after [__init__]; [validator_path] is the
    resolved path of schematronValidator.py. *)
Record ValidationPipeline : Type := mkValidationPipeline
  { xsd_file : string;
    schematron_file : string;
    check_filesystem : bool;
    xsd_schema : option XMLSchema;
    validator_path : string }.

Section Stages.

Variable W : World.
Variable self : ValidationPipeline.

Definition format_xsd_error (err : xsd_error) : string :=
  let prefix :=
    match err_path err with
    | Some path =>
        if String.eqb path EmptyString then "At <unknown>:"
        else "At " +:+ path +:+ ":"
    | None => "At <unknown>:"
    end in
  prefix +:+ " " +:+ err_reason err.

(** [_validate_xsd] *)
Definition _validate_xsd (xml_file : string) : M (bool * list string) :=
  match xsd_schema self with
  | None => mret (true, [])
  | Some schema =>
      if negb (schema_truth schema) then mret (true, [])
      else
        try_except
          (valid ← call (Call_is_valid xml_file)
                        (schema_is_valid schema xml_file);
           if (valid : bool) then mret (true, [])
           else
             errs ← call (Call_iter_errors xml_file)
                         (schema_iter_errors schema xml_file);
             let errors := List.map format_xsd_error errs in
             mret (false,
                   match errors with
                   | [] => ["Unknown XSD validation error"]
                   | _ => errors
                   end))
          (fun e => mret (false, ["XSD validation error: " +:+ exn_str e]))
  end.

(** Step 1 of the message collection: bullet lines. *)
Definition bullet_errors (output : string) : list string :=
  omap (fun line =>
          let s := Py.strip line in
          if Py.startswith s "- " then Some (Py.from 2 s)
          else if Py.startswith s "-" && (1 <? String.length s)%nat
                  && negb (Py.startswith (Py.from 1 s) "-")
          then Some (Py.lstrip (Py.from 1 s))
          else None)
       (Py.split Py.nl output).

(** Step 3: lines that start with the bracketed failure mark. *)
Definition bracket_errors (output : string) : list string :=
  omap (fun line =>
          if Py.startswith (Py.strip line) "[FAIL]"
          then Some (Py.strip line) else None)
       (Py.split Py.nl output).

(** Step 4: the last twenty lines that mention a failure. *)
Definition interesting_lines (output : string) : list string :=
  Py.last_n 20
    (List.filter
       (fun s => existsb (fun tok => Py.contains tok (Py.lower s))
                         ["fail"; "failed-assert"; "error"; "assert";
                          "schematron"])
       (List.map Py.strip (Py.splitlines output))).

Definition or_else (errors alt : list string) : list string :=
  match errors with [] => alt | _ => errors end.

(** The messages collected from the validator's output, each step tried
    only when the ones before found nothing. *)
Definition collect_errors (output : string) : list string :=
  or_else (bullet_errors output)
    (or_else (svrl_ns_messages W output)
       (or_else (svrl_messages W output)
          (or_else (bracket_errors output) (interesting_lines output)))).

(** What [_validate_schematron] makes of a finished subprocess. *)
Definition schematron_verdict (result : CompletedProcess)
  : bool * list string :=
  let output := default EmptyString (stdout result)
                +:+ default EmptyString (stderr result) in
  let passed_tokens :=
    Py.contains "[PASS]" output || Py.contains "PASSED" output in
  let failed_tokens :=
    Py.contains "[FAIL]" output || Py.contains "FAILED" output in
  if Z.eqb (returncode result) 0 && passed_tokens && negb failed_tokens
  then (true, [])
  else if negb (Z.eqb (returncode result) 0) || failed_tokens
  then (false,
        or_else (collect_errors output)
                ["Schematron validation failed (no parsable messages; raw output suppressed)"])
  else (true, []).

(** [_validate_schematron] *)
Definition _validate_schematron (xml_file : string)
  : M (bool * list string) :=
  try_except
    (venv ← call Call_venv_exists (venv_exists W);
     let venv_python :=
       if (venv : bool) then ".venv/Scripts/python.exe" else "python" in
     let cmd := [venv_python; validator_path self; schematron_file self;
                 xml_file] in
     result ← call (Call_subprocess_run cmd) (subprocess_run W cmd);
     mret (schematron_verdict result))
    (fun e =>
       if is_timeout e then mret (false, ["Schematron validation timed out"])
       else mret (false, ["Schematron validation error: " +:+ exn_str e])).

(** [_validate_python] *)
Definition _validate_python (xml_file : string) : M (bool * list string) :=
  try_except
    (errors ← call (Call_python_validate xml_file (check_filesystem self))
                   (python_validate_file W xml_file (check_filesystem self));
     match errors with
     | [] => mret (true, [])
     | _ => mret (false, List.map repr errors)
     end)
    (fun e => mret (false, ["Python validation error: " +:+ exn_str e])).

(** [validate_file] *)
Definition validate_file (xml_file : string) : M ValidationResult :=
  let result := ValidationResult_init xml_file in
  _ ← emit (Print_stage 1);
  '(passed, errors) ← _validate_xsd xml_file;
  let result := mkValidationResult
                  (file_path result) passed errors
                  (schematron_passed result) (schematron_errors result)
                  (python_passed result) (python_errors result) in
  _ ← emit (Print_verdict (xsd_passed result));
  _ ← emit (Print_stage 2);
  '(passed, errors) ← _validate_schematron xml_file;
  let result := mkValidationResult
                  (file_path result) (xsd_passed result) (xsd_errors result)
                  passed errors
                  (python_passed result) (python_errors result) in
  _ ← emit (Print_verdict (schematron_passed result));
  _ ← emit (Print_stage 3);
  '(passed, errors) ← _validate_python xml_file;
  let result := mkValidationResult
                  (file_path result) (xsd_passed result) (xsd_errors result)
                  (schematron_passed result) (schematron_errors result)
                  passed errors in
  let result :=
    match python_errors result with
    | [] => result
    | _ => mkValidationResult
             (file_path result) (xsd_passed result) (xsd_errors result)
             (schematron_passed result) (schematron_errors result)
             false (python_errors result)
    end in
  _ ← emit (Print_verdict (python_passed result));
  mret result.

(** The loop of [validate_directory] over the files it found: each file is
    validated and its result stored in [self.results] under its path. (The
    lines printed between two files are left out.) *)
Fixpoint validate_files (xml_files : list string)
         (results : gmap string ValidationResult)
  : M (gmap string ValidationResult) :=
  match xml_files with
  | [] => mret results
  | xml_file :: rest =>
      result ← validate_file xml_file;
      validate_files rest (<[xml_file := result]> results)
  end.

End Stages.

End Pipeline.

Import Pipeline.

(** ** Example documents *)

Module Examples.

Definition El (t : string) (a : list (string * string)) (cs : list element)
  : element := Element t a None cs.
Definition SN (name : string) : element :=
  El "SHORT-NAME" [("name", name)] [].

(** Three runnables, two of them named Read_Run_0. *)
Definition doc_duplicate_runnable : element :=
  El "AUTOSAR" []
    [ El "APPLICATION-SW-COMPONENT-TYPE" []
        [ SN "Swc1";
          El "RUNNABLE-ENTITY" [] [SN "Read_Run_0"];
          El "RUNNABLE-ENTITY" [] [SN "Write_Run_0"];
          El "RUNNABLE-ENTITY" [] [SN "Read_Run_0"] ] ].

(** A software component with the provider ports P0, P1 and P2, written
    by no, one and two write accesses. *)
Definition write_access (dest : string) : element :=
  El "DATA-WRITE-ACCESS" []
    [ El "VARIABLE-ACCESS" []
        [ SN "acc"; El "PORT-PROTOTYPE-REF" [("DEST", dest)] [] ] ].
Definition ports_of_swc1 : element :=
  El "PORTS" []
    [ El "P-PORT-PROTOTYPE" [] [SN "P0"];
      El "P-PORT-PROTOTYPE" [] [SN "P1"];
      El "P-PORT-PROTOTYPE" [] [SN "P2"] ].
Definition swc1 : element :=
  El "APPLICATION-SW-COMPONENT-TYPE" []
    [ SN "Swc1";
      ports_of_swc1;
      El "RUNNABLE-ENTITY" []
        [ SN "Run";
          write_access "/Swc1/P1";
          write_access "/Swc1/P2";
          write_access "/Swc1/P2" ] ].
Definition doc_ports : element := El "AUTOSAR" [] [swc1].

(** The three ports as nodes of [doc_ports]. *)
Definition port_node (k : string) : node :=
  Node (El "P-PORT-PROTOTYPE" [] [SN ("P" +:+ k)])
       ("/AUTOSAR/APPLICATION-SW-COMPONENT-TYPE/PORTS/P-PORT-PROTOTYPE["
          +:+ (match k with "0" => "1" | "1" => "2" | _ => "3" end) +:+ "]")
       [doc_ports; swc1; ports_of_swc1].

(** A hardware block with a provider port that nothing writes. *)
Definition doc_hwip_port : element :=
  El "AUTOSAR" []
    [ El "Generic_Hardware" []
        [ SN "Hw1";
          El "INTERNAL-BEHAVIOR" []
            [ El "PORTS" [] [ El "P-PORT-PROTOTYPE" [] [SN "HwOut"] ] ] ] ].

(** A cluster named Cl0 with [cpc] cores and a prebuilt-application
    mapping onto core [core_id] of it. *)
Definition cluster_cl0 (cpc : string) : element :=
  El "CPU_Cluster" []
    [ El "ARMV8-Family" []
        [ El "CortexA53" [("CoresPerCluster", cpc)] [SN "Cl0"] ] ].
Definition core_mapping (core_id : string) : element :=
  El "Core-PrebuiltApplication-Mapping"
     [("CoreId", core_id); ("PrebuiltApplicationRef", "/App")] [].
Definition hw_sw_mapping (core_id : string) : element :=
  El "HW-SW-MAPPING" [("ClusterRef", "/Ecu/Soc/Cl0")] [core_mapping core_id].
Definition doc_core_id (cpc core_id : string) : element :=
  El "AUTOSAR" [] [cluster_cl0 cpc; hw_sw_mapping core_id].

(** The mapping and the cluster as nodes of [doc_core_id]. *)
Definition core_mapping_node (cpc core_id : string) : node :=
  Node (core_mapping core_id)
       "/AUTOSAR/HW-SW-MAPPING/Core-PrebuiltApplication-Mapping"
       [doc_core_id cpc core_id; hw_sw_mapping core_id].
Definition cluster_cl0_node (cpc core_id : string) : node :=
  Node (cluster_cl0 cpc) "/AUTOSAR/CPU_Cluster" [doc_core_id cpc core_id].

(** The same cluster, and a runnable mapped onto core [core_id] of it. *)
Definition runnable_mapping (core_id : string) : element :=
  El "Core-Runnable-Mapping"
     [("CoreId", core_id); ("RunnableRef", "/Swc1/Behavior/Run")] [].
Definition doc_runnable_core_id (cpc core_id : string) : element :=
  El "AUTOSAR" []
    [ cluster_cl0 cpc;
      El "APPLICATION-SW-COMPONENT-TYPE" []
        [ SN "Swc1"; El "RUNNABLE-ENTITY" [] [SN "Run"] ];
      El "HW-SW-MAPPING" [("ClusterRef", "/Ecu/Soc/Cl0")]
        [ runnable_mapping core_id ] ].


(** A hardware block with the provider port Out and the require port In;
    its READ operation names [dest]. *)
Definition doc_hwip_read (dest : string) : element :=
  El "AUTOSAR" []
    [ El "Generic_Hardware" []
        [ SN "Hw1";
          El "INTERNAL-BEHAVIOR" []
            [ El "PORTS" []
                [ El "P-PORT-PROTOTYPE" [] [SN "Out"];
                  El "R-PORT-PROTOTYPE" [] [SN "In"] ];
              El "OPERATIONS-SEQUENCE" []
                [ El "OPERATION" []
                    [ El "READ" [] [ El "IREF" [("DEST", dest)] [] ] ] ] ] ] ].


(** One cluster that runs Linux, with frequency [freq]. *)
Definition frequency (freq : string) : element :=
  El "Frequency" [("value", freq)] [].
Definition cortex_a72 (freq : string) : element :=
  El "CortexA72" [("CoresPerCluster", "4")] [SN "Cl0"; frequency freq].
Definition armv8 (freq : string) : element :=
  El "ARMV8-Family" [] [cortex_a72 freq].
Definition operating_system : element :=
  El "Operating-System" [] [ El "Linux" [] [] ].
Definition linux_cluster (freq : string) : element :=
  El "CPU_Cluster" [] [armv8 freq; operating_system].
Definition doc_linux (freq : string) : element :=
  El "AUTOSAR" [] [linux_cluster freq].

(** The cluster, its operating system and its frequency as nodes of
    [doc_linux]. *)
Definition linux_cluster_node (freq : string) : node :=
  Node (linux_cluster freq) "/AUTOSAR/CPU_Cluster" [doc_linux freq].
Definition operating_system_node (freq : string) : node :=
  Node operating_system "/AUTOSAR/CPU_Cluster/Operating-System"
       [doc_linux freq; linux_cluster freq].
Definition frequency_node (freq : string) : node :=
  Node (frequency freq)
       "/AUTOSAR/CPU_Cluster/ARMV8-Family/CortexA72/Frequency"
       [doc_linux freq; linux_cluster freq; armv8 freq; cortex_a72 freq].

(** A runnable (or SoC) whose name ends with a newline. *)
Definition name_nl : string := "abc" +:+ String Py.nl EmptyString.
Definition doc_newline_name : element :=
  El "AUTOSAR" []
    [ El "APPLICATION-SW-COMPONENT-TYPE" []
        [ SN "Swc1"; El "RUNNABLE-ENTITY" [] [SN name_nl] ];
      El "ECUs" [] [ SN "Ecu1"; El "SoCs" [] [SN name_nl] ] ].

(** A prebuilt application App, and a cluster mapping that names
    [app_ref]. *)
Definition doc_cluster_prebuilt (app_ref : string) : element :=
  El "AUTOSAR" []
    [ El "PRE-BUILT-APPLICATION" [] [SN "App"];
      El "HW-SW-MAPPING" [("ClusterRef", "/Ecu/Soc/Cl0")]
        [ El "Cluster-PrebuiltApplication-Mapping"
             [("PrebuiltApplicationRef", app_ref)] [] ] ].

(** A run in which every tool answers well, and two pipelines on it: one
    without a schema, one whose schema rejects every file. *)
Definition world_quiet : World :=
  mkWorld (Returned false)
          (fun _ => Returned (mkCompletedProcess 0 (Some "[PASS] ok") None))
          (fun _ => []) (fun _ => [])
          (fun _ _ => Returned []).
Definition schema_rejecting : XMLSchema :=
  mkXMLSchema true (fun _ => Returned false)
              (fun _ => Returned [XsdError (Some "/AUTOSAR") "not allowed"]).
Definition pipeline_without_schema : ValidationPipeline :=
  mkValidationPipeline "AE.xsd" "Rules.sch" true None "schematronValidator.py".
Definition pipeline_rejecting : ValidationPipeline :=
  mkValidationPipeline "AE.xsd" "Rules.sch" true (Some schema_rejecting)
                       "schematronValidator.py".

(** The same run, except that looking for the interpreter raises. *)
Definition world_no_lookup : World :=
  mkWorld (Raised (Exn false "denied"))
          (fun _ => Returned (mkCompletedProcess 0 (Some "[PASS] ok") None))
          (fun _ => []) (fun _ => [])
          (fun _ _ => Returned []).

(** The [i]-th element of a document, in document order, as a node. *)
Definition node_at (root : element) (i : nat) : node :=
  nth i (all_nodes root) (Node root EmptyString []).

(** A software component Swc1 with the given ports and, in its runnable,
    the given accesses. *)
Definition read_access (dest : string) : element :=
  El "DATA-READ-ACCESS" []
    [ El "VARIABLE-ACCESS" []
        [ SN "acc"; El "PORT-PROTOTYPE-REF" [("DEST", dest)] [] ] ].
Definition p_port (name : string) : element :=
  El "P-PORT-PROTOTYPE" [] [SN name].
Definition r_port (name : string) : element :=
  El "R-PORT-PROTOTYPE" [] [SN name].
Definition doc_swc (ports accesses : list element) : element :=
  El "AUTOSAR" []
    [ El "APPLICATION-SW-COMPONENT-TYPE" []
        [ SN "Swc1";
          El "PORTS" [] ports;
          El "RUNNABLE-ENTITY" [] (SN "Run" :: accesses) ] ].

(** The cluster Cl0 and a HW-SW-MAPPING that refers to [cluster_ref]. *)
Definition doc_cluster_ref (cluster_ref : string) : element :=
  El "AUTOSAR" []
    [ cluster_cl0 "4"; El "HW-SW-MAPPING" [("ClusterRef", cluster_ref)] [] ].

(** An interface If1 and a software component whose ports refer to
    interfaces. *)
Definition p_port_with (name dest : string) : element :=
  El "P-PORT-PROTOTYPE" []
    [ SN name; El "PROVIDED-INTERFACE-TREF" [("DEST", dest)] [] ].
Definition r_port_with (name dest : string) : element :=
  El "R-PORT-PROTOTYPE" []
    [ SN name; El "REQUIRED-INTERFACE-TREF" [("DEST", dest)] [] ].
Definition doc_interface_refs (ports : list element) : element :=
  El "AUTOSAR" []
    [ El "SENDER-RECEIVER-INTERFACE" [] [SN "If1"];
      El "APPLICATION-SW-COMPONENT-TYPE" [] [SN "Swc1"; El "PORTS" [] ports] ].

(** A cluster Cl0 that runs Nucleus and a HW-SW-MAPPING onto it, which
    holds a core-runnable mapping or a prebuilt-application mapping. *)
Definition doc_nucleus (with_runnable : bool) : element :=
  El "AUTOSAR" []
    [ El "CPU_Cluster" []
        [ El "Operating-System" [] [ El "Nucleus_RTOS" [] [] ];
          El "ARMV8-Family" []
            [ El "CortexA53" [("CoresPerCluster", "4")] [SN "Cl0"] ] ];
      El "HW-SW-MAPPING" [("ClusterRef", "/Ecu/Cl0")]
        [ if with_runnable then runnable_mapping "0" else core_mapping "0" ] ].

(** A hardware block, with its name or without, whose one operation holds
    the given elements. *)
Definition doc_hwip_ops (named : bool) (ops : list element) : element :=
  El "AUTOSAR" []
    [ El "Generic_Hardware" []
        ((if named then [SN "Hw1"] else [])
         ++ [ El "INTERNAL-BEHAVIOR" []
                [ El "OPERATIONS-SEQUENCE" [] [ El "OPERATION" [] ops ] ] ]) ].

(** Operations that rule 62 reports, but for the first LOAD, and
    operations that it passes. *)
Definition ops_ill_formed : list element :=
  [ El "WRITE" [] [];
    El "READ" [] [ El "IREF" [("DEST", " ")] [] ];
    El "CONVOLUTION" [("height", "0"); ("width", "wide")] [];
    El "MAX-POOL" [("height", "high")] [];
    El "LATENCY" [] [];
    El "LOAD" [("value", "many")] [];
    El "LOAD" [("value", "0")] [] ].
Definition ops_well_formed : list element :=
  [ El "WRITE" [] [ El "IREF" [("DEST", "/Hw1/Out")] [] ];
    El "READ" [] [ El "IREF" [("DEST", "/Hw1/In")] [] ];
    El "CONVOLUTION" [] [];
    El "AVG-POOL" [("height", "8"); ("width", "8"); ("channels", "1")] [];
    El "LATENCY" [("value", "5")] [];
    El "LOAD" [("value", "7")] [] ].

(** The cluster Cl0 and a HW-SW-MAPPING onto it that holds a core-runnable
    mapping and a prebuilt-application mapping of a core. *)
Definition doc_both_kinds : element :=
  El "AUTOSAR" []
    [ cluster_cl0 "4";
      El "HW-SW-MAPPING" [("ClusterRef", "/Ecu/Cl0")]
        [ runnable_mapping "0"; core_mapping "1" ] ].

End Examples.

Import Examples.

(** ** The vocabulary of the statements *)

(** A stage helper never lets an exception escape, and reports success
    only with an empty error list. *)
Definition settles (m : M (bool * list string)) : Prop :=
  ∃ (passed : bool) (errors : list string) (evs : list event),
    m = (Returned (passed, errors), evs)
    ∧ (passed = true → errors = []).

(** The runnables that carry a name, in document order: the name and the
    tree path of each. *)
Definition named_runnables (root : element) : list (string * string) :=
  omap (fun runnable =>
          (fun name => (name, n_path runnable)) <$> short_name (n_elem runnable))
       (xpath_all root "RUNNABLE-ENTITY").

(** The loop of rule 6 seen on names and paths alone. *)
Definition rule_6_scan (st : gmap string string * list ValidationError)
           (entry : string * string)
  : gmap string string * list ValidationError :=
  match st.1 !! entry.1 with
  | Some previous =>
      (st.1, st.2 ++ [error 6 (rule_6_msg entry.1 previous) entry.2])
  | None => (<[entry.1 := entry.2]> st.1, st.2)
  end.

(** The path under which a port of a software component is referred to,
    [/component/port]: for a port that carries a name and lies in an
    APPLICATION-SW-COMPONENT-TYPE (the outermost one around it) that
    carries a name. *)
Definition component_path (port : node) : option string :=
  port_name ← short_name (n_elem port);
  swc ← head (xpath_ancestor port "APPLICATION-SW-COMPONENT-TYPE");
  swc_name ← short_name swc;
  Some ("/" +:+ swc_name +:+ "/" +:+ port_name).

(** The ports of one kind that have such a path, in document order, each
    with its path. *)
Definition keyed_ports (root : element) (port_tag : string)
  : list (string * node) :=
  omap (fun port => (fun path => (path, port)) <$> component_path port)
       (xpath_all root port_tag).
Definition keyed_pports (root : element) : list (string * node) :=
  keyed_ports root "P-PORT-PROTOTYPE".

(** The references of the accesses of one kind: the DEST of every
    PORT-PROTOTYPE-REF below an access element, access by access in
    document order. *)
Definition port_ref_dests (root : element) (access_tag : string)
  : list string :=
  flat_map (fun access =>
              desc_attr (n_elem access) "PORT-PROTOTYPE-REF" "DEST")
           (xpath_all root access_tag).

(** The number of references of write accesses that are equal to
    [path]. *)
Definition count_refs (root : element) (path : string) : nat :=
  length (List.filter (String.eqb path)
                      (port_ref_dests root "DATA-WRITE-ACCESS")).

(** The normal form of a port reference, [/component/port]: white space
    and separators off both ends, one separator in front. A reference
    names the port of that path. *)
Definition normal_form (dest : string) : string :=
  "/" +:+ _normalize_dest_path dest.
Definition names_port (dest path : string) : bool :=
  String.eqb (normal_form dest) path.

(** Every reference of the accesses of one kind is written in its normal
    form. *)
Definition canonical_refs (root : element) (access_tag : string) : bool :=
  forallb (fun dest => String.eqb (normal_form dest) dest)
          (port_ref_dests root access_tag).

(** The number of references of the accesses of one kind that name the
    port of [path]. *)
Definition count_naming (root : element) (access_tag path : string) : nat :=
  length (List.filter (fun dest => names_port dest path)
                      (port_ref_dests root access_tag)).

(** [d[k]] *)
Fixpoint od_get (k : string) (d : ref_count) : option (nat * node) :=
  match d with
  | [] => None
  | (k', v) :: d' => if String.eqb k' k then Some v else od_get k d'
  end.

(** The core id a mapping carries and the number of cores of the cluster
    its reference resolves to, as rule 79 reads them. *)
Definition mapping_core_id (mapping : node) : option Z :=
  Py.int (Py.strip (nget_or mapping "CoreId" EmptyString)).
Definition mapping_cores (root : element) (mapping : node) : option Z :=
  match parent_subtree_attr mapping "ClusterRef" with
  | [] => None
  | cluster_ref :: _ =>
      resolve cluster_ref (cluster_index root) ≫= cores_per_cluster
  end.

(** The acceptance the specification describes: the whole name matches
    [[A-Za-z_][A-Za-z0-9_]*] and is not a C keyword. *)
Definition spec_identifier_shape (name : string) : bool :=
  match name with
  | EmptyString => false
  | String c rest => ident_start c && Py.all_chars ident_char rest
  end.
Definition spec_accepts_identifier (name : string) : bool :=
  spec_identifier_shape name && negb (bool_decide (name ∈ c_keywords)).

(** The status [main] exits with:
    [0 if all(r.is_valid() for r in pipeline.results.values()) else 1]. *)
Definition exit_status (results : gmap string ValidationResult) : Z :=
  if bool_decide (map_Forall (fun _ r => is_valid r = true) results)
  then 0%Z else 1%Z.

(** The result [validate_file] returns for a file. *)
Definition result_of (W : World) (self : ValidationPipeline)
           (xml_file : string) : ValidationResult :=
  match (validate_file W self xml_file).1 with
  | Returned r => r
  | Raised _ => ValidationResult_init xml_file
  end.

(** The output the pipeline reads: [(result.stdout or "") + (result.stderr
    or "")], and whether it carries one of the two failure marks. *)
Definition process_output (result : CompletedProcess) : string :=
  default EmptyString (stdout result) +:+ default EmptyString (stderr result).
Definition has_failed_token (output : string) : bool :=
  Py.contains "[FAIL]" output || Py.contains "FAILED" output.

(** A stage helper returns, and reports success exactly with an empty
    error list. *)
Definition decides (m : M (bool * list string)) : Prop :=
  ∃ (passed : bool) (errors : list string) (evs : list event),
    m = (Returned (passed, errors), evs)
    ∧ (passed = true ↔ errors = []).

(** The name under which [_build_indices] files a cluster: the first
    [SHORT-NAME/@name] below it. *)
Definition cluster_name (cluster : node) : option string :=
  head (desc_attr (n_elem cluster) "SHORT-NAME" "name").

(** The clusters of a document that carry a given name, in document
    order. *)
Definition clusters_named (root : element) (name : string) : list node :=
  List.filter (fun cluster => bool_decide (cluster_name cluster = Some name))
              (xpath_all root "CPU_Cluster").

(** The cluster reference of a HW-SW-MAPPING as rule 76b reads it. *)
Definition mapping_cluster_ref (mapping : node) : string :=
  Py.strip (default EmptyString (nget mapping "ClusterRef")).

(** The path under which a name was first entered: that of the first entry
    of the list with this name. *)
Fixpoint first_path (name : string) (l : list (string * string))
  : option string :=
  match l with
  | [] => None
  | (n, path) :: l' => if String.eqb n name then Some path else first_path name l'
  end.

(** The runnable name a core-runnable mapping counts for: the last segment
    of its RunnableRef, when the reference is not blank and the segment not
    empty. *)
Definition mapping_target (mapping : node) : option string :=
  let runnable_ref :=
    Py.strip (default EmptyString (nget mapping "RunnableRef")) in
  if String.eqb runnable_ref EmptyString then None
  else
    let short := _extract_short_name_from_dest runnable_ref in
    if String.eqb short EmptyString then None else Some short.

(** The number of core-runnable mappings of a document that count for a
    name. *)
Definition times_mapped (root : element) (name : string) : nat :=
  length (List.filter
            (fun mapping => bool_decide (mapping_target mapping = Some name))
            (xpath_any root ["Core-Runnable-Mapping"; "CoreRunnableMapping"])).

(** The RunnableRef of a mapping, stripped, when it is not blank. *)
Definition mapping_ref (mapping : node) : option string :=
  let runnable_ref :=
    Py.strip (default EmptyString (nget mapping "RunnableRef")) in
  if String.eqb runnable_ref EmptyString then None else Some runnable_ref.

(** The RunnableRef values of a document that are not blank, stripped, in
    document order. *)
Definition mapping_refs (root : element) : list string :=
  omap mapping_ref
       (xpath_any root ["Core-Runnable-Mapping"; "CoreRunnableMapping"]).

(** The body of the second loop of rule 10. *)
Definition rule_10_runnable (counts : gmap string nat) (runnable : node)
  : list ValidationError :=
  match short_name (n_elem runnable) with
  | None => []
  | Some name =>
      let count := default 0 (counts !! name) in
      if (1 <? count)%nat
      then [error 10 (rule_10_msg name count) (n_path runnable)]
      else []
  end.

(** [mapped] and [mapping_runnable_refs] after the first loop of rule 9. *)
Definition rule_9_state (root : element) : gset string * list string :=
  fold_left (rule_9_collect (runnable_index root))
            (xpath_any root ["Core-Runnable-Mapping"; "CoreRunnableMapping"])
            (∅, []).

(** A name counts as mapped for rule 9 when a mapping counts for it and
    some runnable is indexed under it. *)
Definition is_mapped (root : element) (name : string) : Prop :=
  (1 ≤ times_mapped root name)%nat
  ∧ ∃ indexed,
      indexed ∈ xpath_all root "RUNNABLE-ENTITY"
      ∧ index_name (n_elem indexed) = Some name.

(** Does a HW-SW-MAPPING hold a core-runnable mapping as a child? *)
Definition holds_runnable_mapping (hw_sw_mapping : node) : bool :=
  match List.filter (has_tag_in ["Core-Runnable-Mapping";
                                 "CoreRunnableMapping"])
                    (children (n_elem hw_sw_mapping)) with
  | [] => false
  | _ :: _ => true
  end.

(** A finding without its rule number. *)
Definition finding_text (finding : ValidationError) : string * string :=
  (message finding, xpath finding).

(** The require ports that have a path, in document order, and the number
    of references of read accesses that are equal to a path. *)
Definition keyed_rports (root : element) : list (string * node) :=
  keyed_ports root "R-PORT-PROTOTYPE".
Definition count_read_refs (root : element) (path : string) : nat :=
  length (List.filter (String.eqb path)
                      (port_ref_dests root "DATA-READ-ACCESS")).

(** A cluster name is collected for a runnable mapping, or for a prebuilt
    mapping (of a core or of a cluster). *)
Definition collects_runnable (root : element) (name : string) : Prop :=
  ∃ mapping,
    mapping ∈ core_runnable_mappings root
    ∧ parent_cluster mapping = Some name.
Definition collects_prebuilt (root : element) (name : string) : Prop :=
  (∃ mapping,
      mapping ∈ core_prebuilt_mappings root
      ∧ parent_cluster mapping = Some name)
  ∨ (∃ mapping,
        mapping ∈ cluster_prebuilt_mappings root
        ∧ own_or_parent_cluster mapping = Some name).

(** A mapping of a core refers to the cluster [name]: the first ClusterRef
    on its parent or below it ends in the segment [name]. *)
Definition refers_through_parent (mapping : node) (name : string) : Prop :=
  ∃ cluster_ref : string,
    head (parent_subtree_attr mapping "ClusterRef") = Some cluster_ref
    ∧ _extract_short_name_from_dest cluster_ref = name.

(** A mapping of a cluster refers to the cluster [name]: its own
    ClusterRef, or when that is missing or blank the first one on its
    parent or below it, is not blank and ends in the segment [name]. *)
Definition refers_by_own_or_parent (mapping : node) (name : string) : Prop :=
  ∃ cluster_ref : string,
    Py.strip cluster_ref ≠ EmptyString
    ∧ _extract_short_name_from_dest cluster_ref = name
    ∧ ((nget mapping "ClusterRef" = Some cluster_ref)
       ∨ (Py.strip (nget_or mapping "ClusterRef" EmptyString) = EmptyString
          ∧ head (parent_subtree_attr mapping "ClusterRef")
            = Some cluster_ref)).

(** A cluster name is referred to by a runnable mapping, or by a prebuilt
    mapping (of a core or of a cluster). *)
Definition refers_runnable (root : element) (name : string) : Prop :=
  ∃ mapping,
    mapping ∈ xpath_any root ["Core-Runnable-Mapping"; "CoreRunnableMapping"]
    ∧ refers_through_parent mapping name.
Definition refers_prebuilt (root : element) (name : string) : Prop :=
  (∃ mapping,
      mapping ∈ xpath_any root ["Core-PrebuiltApplication-Mapping";
                                "CorePrebuiltAppMapping"]
      ∧ refers_through_parent mapping name)
  ∨ (∃ mapping,
        mapping ∈ xpath_any root ["Cluster-PrebuiltApplication-Mapping";
                                  "ClusterPrebuiltAppMapping"]
        ∧ refers_by_own_or_parent mapping name).

(** The kinds entered for a cluster name are justified by the mappings of
    the document. *)
Definition kind_justified (root : element) (kind name : string) : Prop :=
  (kind = "runnable" ∧ collects_runnable root name)
  ∨ (kind = "prebuilt" ∧ collects_prebuilt root name).

(** Some entry of the map holds [kind] for [name]. *)
Definition holds_kind (d : cluster_map) (kind name : string) : Prop :=
  ∃ types : gset string, (name, types) ∈ d ∧ kind ∈ types.

(** The command [_validate_schematron] runs on a file. *)
Definition schematron_command (self : ValidationPipeline) (venv : bool)
           (xml_file : string) : list string :=
  [if venv then ".venv/Scripts/python.exe" else "python";
   validator_path self; schematron_file self; xml_file].

(** The one message of a stage that an exception ended. *)
Definition schematron_exception_msg (e : exn) : string :=
  if is_timeout e then "Schematron validation timed out"
  else "Schematron validation error: " +:+ exn_str e.

(** A cluster declares Linux: an operating-system element below it has a
    Linux element below itself or a text that mentions linux, or an element
    below the cluster has Linux or LINUX in its tag. *)
Definition declares_linux (cluster : node) : Prop :=
  (∃ os_node : node,
      os_node ∈ xpath_desc_any cluster
                  ["Operating-System"; "OS"; "OperatingSystem"]
      ∧ (xpath_desc os_node "Linux" ≠ []
         ∨ ∃ t : string,
             text (n_elem os_node) = Some t
             ∧ Py.contains "linux" (Py.lower t) = true))
  ∨ (∃ m : node,
        m ∈ descendants cluster
        ∧ (Py.contains "Linux" (ntag m) = true
           ∨ Py.contains "LINUX" (ntag m) = true)).

(** A Frequency element gives [raw] as its value: in its [value]
    attribute, or in its text when the attribute is missing or blank. *)
Definition frequency_written (freq_node : node) (raw : string) : Prop :=
  (nget freq_node "value" = Some raw ∧ Py.strip raw ≠ EmptyString)
  ∨ (Py.strip (nget_or freq_node "value" EmptyString) = EmptyString
     ∧ text (n_elem freq_node) = Some raw).

(** A reference with the white space and the separators taken off both of
    its ends, in whatever order they stand there. *)
Definition stripped_reference (dest : string) : string :=
  Py.strip_with (fun c => Py.isspace c || Py.is_slash c) dest.

(** A cluster has an Operating-System child with a Nucleus_RTOS child. *)
Definition has_nucleus_child (cluster : node) : Prop :=
  ∃ os nucleus : element,
    os ∈ children (n_elem cluster)
    ∧ tag os = "Operating-System"
    ∧ nucleus ∈ children os
    ∧ tag nucleus = "Nucleus_RTOS".

(** An operation of a hardware block that carries a name: an OPERATION
    below INTERNAL-BEHAVIOR/OPERATIONS-SEQUENCE of a Generic_Hardware with a
    SHORT-NAME. *)
Definition named_hwip_operation (root : element) (hwip_name : string)
           (operation : node) : Prop :=
  ∃ hwip : node,
    hwip ∈ xpath_all root "Generic_Hardware"
    ∧ short_name (n_elem hwip) = Some hwip_name
    ∧ operation ∈ xpath_desc_path
                    hwip ["INTERNAL-BEHAVIOR"; "OPERATIONS-SEQUENCE"]
                    "OPERATION".

(** A READ or WRITE element is well formed: its first IREF child has a
    DEST that is not blank. *)
Definition access_well_formed (op_elem : node) : Prop :=
  ∃ iref : node,
    find_child op_elem "IREF" = Some iref
    ∧ Py.strip (nget_or iref "DEST" EmptyString) ≠ EmptyString.

(** The dimensions of a machine-learning operation, a missing one standing
    for 1024, 1024 and 3, are integers other than zero. *)
Definition dimensions_nonzero (elem : node) : Prop :=
  ∃ h w c : Z,
    Py.int (nget_or elem "height" "1024") = Some h
    ∧ Py.int (nget_or elem "width" "1024") = Some w
    ∧ Py.int (nget_or elem "channels" "3") = Some c
    ∧ h ≠ 0%Z ∧ w ≠ 0%Z ∧ c ≠ 0%Z.

(** The value of a LATENCY or LOAD, a missing one standing for 0, is not
    the integer zero. *)
Definition value_nonzero (elem : node) : Prop :=
  Py.int (nget_or elem "value" "0") ≠ Some 0%Z.

(** * Properties *)

Lemma flat_map_nil_iff {A B} (f : A → list B) (l : list A) :
  flat_map f l = [] ↔ ∀ x, x ∈ l → f x = [].
Proof.
  induction l as [|x l IH]; simpl.
  - split; [|done]. intros _ x Hx. by apply elem_of_nil in Hx.
  - split.
    + intros [Hx Hl]%app_eq_nil y [->|Hy]%elem_of_cons; [done|].
      by apply IH.
    + intros H. rewrite (H x) by (apply elem_of_cons; by left).
      apply IH. intros y Hy. apply H, elem_of_cons. by right.
Qed.

(** ** The verdict record *)

(** C2. [is_valid] holds exactly when the three stage booleans hold, whatever
    the error lists are; a result as [__init__] leaves it has empty error
    lists and is not valid; [total_errors] is the sum of the lengths of the
    three error lists. *)
Theorem is_valid_iff_all_stages_passed :
  (∀ r : ValidationResult,
      is_valid r = true
      ↔ xsd_passed r = true ∧ schematron_passed r = true
        ∧ python_passed r = true)
  ∧ (∀ (f : string) (x s p : bool) (xe xe' se se' pe pe' : list string),
        is_valid (mkValidationResult f x xe s se p pe)
        = is_valid (mkValidationResult f x xe' s se' p pe'))
  ∧ (∀ f : string,
        is_valid (ValidationResult_init f) = false
        ∧ xsd_errors (ValidationResult_init f) = []
        ∧ schematron_errors (ValidationResult_init f) = []
        ∧ python_errors (ValidationResult_init f) = [])
  ∧ (∀ r : ValidationResult,
        total_errors r
        = length (xsd_errors r) + length (schematron_errors r)
          + length (python_errors r)).
Proof.
  repeat split; try reflexivity.
  - unfold is_valid in H.
    destruct (xsd_passed r); [reflexivity | discriminate].
  - unfold is_valid in H.
    destruct (xsd_passed r), (schematron_passed r); try discriminate; reflexivity.
  - unfold is_valid in H.
    destruct (xsd_passed r), (schematron_passed r), (python_passed r);
      try discriminate; reflexivity.
  - intros (Hx & Hs & Hp). unfold is_valid. rewrite Hx, Hs, Hp. reflexivity.
Qed.

(** ** The stage helpers *)

Section StageFacts.

Variable W : World.
Variable self : ValidationPipeline.

Lemma validate_xsd_settles (xml_file : string) :
  settles (_validate_xsd self xml_file).
Proof.
  unfold settles, _validate_xsd.
  destruct (xsd_schema self) as [schema|]; [|by eexists _, _, _].
  destruct (schema_truth schema); simpl; [|by eexists _, _, _].
  destruct (schema_is_valid schema xml_file) as [[|]|e]; simpl;
    try by eexists _, _, _.
  destruct (schema_iter_errors schema xml_file) as [errs|e]; simpl;
    by eexists _, _, _.
Qed.

Lemma schematron_verdict_sound (result : CompletedProcess) :
  (schematron_verdict W result).1 = true
  → (schematron_verdict W result).2 = [].
Proof.
  unfold schematron_verdict.
  repeat match goal with |- context [if ?b then _ else _] => destruct b end;
    simpl; done.
Qed.

Lemma validate_schematron_settles (xml_file : string) :
  settles (_validate_schematron W self xml_file).
Proof.
  unfold settles, _validate_schematron.
  destruct (venv_exists W) as [venv|e]; simpl.
  - match goal with |- context [subprocess_run W ?cmd] =>
      destruct (subprocess_run W cmd) as [result|e] end; simpl.
    + destruct (schematron_verdict W result) as [passed errors] eqn:Hv.
      eexists _, _, _. split; [reflexivity|].
      intros ->. pose proof (schematron_verdict_sound result) as Hs.
      rewrite Hv in Hs. exact (Hs eq_refl).
    + destruct (is_timeout e); by eexists _, _, _.
  - destruct (is_timeout e); by eexists _, _, _.
Qed.

Lemma validate_python_settles (xml_file : string) :
  settles (_validate_python W self xml_file).
Proof.
  unfold settles, _validate_python.
  destruct (python_validate_file W xml_file (check_filesystem self))
    as [[|err errors]|e]; simpl; by eexists _, _, _.
Qed.

End StageFacts.

(** ** The orchestrator *)

(** What the three helpers do with their tools. *)
Lemma schematron_verdict_passes
      (W : World) (result : CompletedProcess) :
  ((schematron_verdict W result).1 = true
   ↔ returncode result = 0%Z
     ∧ has_failed_token (process_output result) = false)
  ∧ ((schematron_verdict W result).1 = false
     → (schematron_verdict W result).2 ≠ []).
Proof.
  unfold schematron_verdict, has_failed_token, process_output.
  destruct (Z.eqb_spec (returncode result) 0) as [->|Hrc]; simpl.
  - destruct (Py.contains "[FAIL]" _ || Py.contains "FAILED" _); simpl.
    + rewrite andb_false_r. split; [split; [done | by intros [_ ?]]|].
      intros _. unfold or_else. by destruct (collect_errors W _).
    + rewrite andb_true_r.
      destruct (Py.contains "[PASS]" _ || Py.contains "PASSED" _); simpl;
        by split.
  - split; [split; [done | by intros [? _]]|].
    intros _. unfold or_else. by destruct (collect_errors W _).
Qed.

(** C1, as the code has it. Whatever the tools answer (a pass, a failure,
    an exception, a timeout), [validate_file] returns a result; the three
    stage helpers have each run once, in order, on the file it was given,
    between the lines printed for their stage; and the result records, for
    each stage, the boolean and the error list that this stage's helper
    returns for that file, whatever the earlier stages returned. Each
    helper's answer is its tool's answer on that file: the rule engine is
    called on the file and its findings are the stage's errors; the
    Schematron validator is launched on the file once the interpreter has
    been looked up, and the stage passes exactly on status 0 without a
    failure mark; the schema, when one is loaded, is asked whether the file
    is valid and, if not, for its errors. With no schema loaded the XSD
    stage asks nothing and passes. *)
Theorem validate_file_runs_all_stages
        (W : World) (self : ValidationPipeline) (xml_file : string) :
  ∃ (x s p : bool * list string) (evx evs evp : list event),
    _validate_xsd self xml_file = (Returned x, evx)
    ∧ _validate_schematron W self xml_file = (Returned s, evs)
    ∧ _validate_python W self xml_file = (Returned p, evp)
    ∧ validate_file W self xml_file
      = (Returned (mkValidationResult xml_file x.1 x.2 s.1 s.2 p.1 p.2),
         [Print_stage 1] ++ evx ++ [Print_verdict x.1; Print_stage 2]
         ++ evs ++ [Print_verdict s.1; Print_stage 3]
         ++ evp ++ [Print_verdict p.1])
    ∧ evp = [Call_python_validate xml_file (check_filesystem self)]
    ∧ (∀ errors,
          python_validate_file W xml_file (check_filesystem self)
          = Returned errors
          → p = (bool_decide (errors = []), List.map repr errors))
    ∧ (∀ e,
          python_validate_file W xml_file (check_filesystem self) = Raised e
          → p = (false, ["Python validation error: " +:+ exn_str e]))
    ∧ (∀ venv,
          venv_exists W = Returned venv
          → evs = [Call_venv_exists;
                   Call_subprocess_run (schematron_command self venv xml_file)]
            ∧ (∀ result,
                  subprocess_run W (schematron_command self venv xml_file)
                  = Returned result
                  → s = schematron_verdict W result
                    ∧ (s.1 = true
                       ↔ returncode result = 0%Z
                         ∧ has_failed_token (process_output result) = false)
                    ∧ (s.1 = false → s.2 ≠ []))
            ∧ (∀ e,
                  subprocess_run W (schematron_command self venv xml_file)
                  = Raised e
                  → s = (false, [schematron_exception_msg e])))
    ∧ (∀ e,
          venv_exists W = Raised e
          → evs = [Call_venv_exists]
            ∧ s = (false, [schematron_exception_msg e]))
    ∧ (∀ schema : XMLSchema,
          xsd_schema self = Some schema
          → schema_truth schema = true
          → head evx = Some (Call_is_valid xml_file)
            ∧ (schema_is_valid schema xml_file = Returned true
               → x = (true, []) ∧ evx = [Call_is_valid xml_file])
            ∧ (schema_is_valid schema xml_file = Returned false
               → evx = [Call_is_valid xml_file; Call_iter_errors xml_file]
                 ∧ x.1 = false
                 ∧ ∀ errs,
                     schema_iter_errors schema xml_file = Returned errs
                     → x.2 = or_else (List.map format_xsd_error errs)
                                     ["Unknown XSD validation error"])
            ∧ (∀ e,
                  schema_is_valid schema xml_file = Raised e
                  → x = (false, ["XSD validation error: " +:+ exn_str e])))
    ∧ (xsd_schema self = None
       ∨ (∃ schema, xsd_schema self = Some schema
                    ∧ schema_truth schema = false)
       → x = (true, []) ∧ evx = []).
Proof.
  destruct (validate_xsd_settles self xml_file) as (xp & xe & evx & Hx & _).
  destruct (validate_schematron_settles W self xml_file)
    as (sp & se & evs & Hs & _).
  destruct (validate_python_settles W self xml_file)
    as (pp & pe & evp & Hp & Hpe).
  exists (xp, xe), (sp, se), (pp, pe), evx, evs, evp.
  split; [done|]. split; [done|]. split; [done|].
  split; [|split; [|split; [|split; [|split; [|split; [|split]]]]]].
  - unfold validate_file. rewrite Hx, Hs, Hp. simpl.
    destruct pe as [|e pe]; simpl.
    + rewrite <- ?List.app_assoc. reflexivity.
    + destruct pp; [by specialize (Hpe eq_refl)|].
      rewrite <- ?List.app_assoc. reflexivity.
  - unfold _validate_python in Hp.
    destruct (python_validate_file W xml_file (check_filesystem self))
      as [[|err errors]|e]; simpl in Hp; by injection Hp as _ _ <-.
  - intros errors Herrors. unfold _validate_python in Hp.
    rewrite Herrors in Hp. destruct errors as [|err errors]; simpl in Hp.
    + by injection Hp as <- <- _.
    + by injection Hp as <- <- _.
  - intros e He. unfold _validate_python in Hp. rewrite He in Hp.
    simpl in Hp. by injection Hp as <- <- _.
  - intros venv Hvenv. unfold _validate_schematron in Hs.
    rewrite Hvenv in Hs. simpl in Hs. fold (schematron_command self venv xml_file) in Hs.
    destruct (subprocess_run W (schematron_command self venv xml_file))
      as [result|e] eqn:Hrun; simpl in Hs.
    + injection Hs as Hv <-. split; [done|]. split; [|done].
      intros result' [= <-]. split; [done|]. rewrite <- Hv.
      apply schematron_verdict_passes.
    + unfold schematron_exception_msg.
      destruct (is_timeout e) eqn:Ht; simpl in Hs;
        injection Hs as <- <- <-; (split; [done|]); (split; [done|]);
        intros e' [= <-]; by rewrite Ht.
  - intros e He. unfold _validate_schematron in Hs. rewrite He in Hs.
    unfold schematron_exception_msg. simpl in Hs.
    destruct (is_timeout e); simpl in Hs; by injection Hs as <- <- <-.
  - intros schema Hschema Htruth. unfold _validate_xsd in Hx.
    rewrite Hschema, Htruth in Hx. simpl in Hx.
    destruct (schema_is_valid schema xml_file) as [[|]|e]; simpl in Hx.
    + injection Hx as <- <- <-. by repeat split.
    + destruct (schema_iter_errors schema xml_file) as [errs|e];
        simpl in Hx.
      * injection Hx as <- <- <-. split; [done|]. split; [done|].
        split; [|done]. intros _. split; [done|]. split; [done|].
        intros errs' [= <-]. unfold or_else. simpl.
        by destruct (List.map format_xsd_error errs).
      * injection Hx as <- <- <-. split; [done|]. split; [done|].
        split; [|done]. intros _. by repeat split.
    + injection Hx as <- <- <-. split; [done|]. split; [done|].
      split; [done|]. by intros e' [= <-].
  - intros Hnone. unfold _validate_xsd in Hx.
    destruct Hnone as [Hnone|(schema & Hschema & Htruth)].
    + rewrite Hnone in Hx. by injection Hx as <- <- <-.
    + rewrite Hschema, Htruth in Hx. simpl in Hx. by injection Hx as <- <- <-.
Qed.

(** C1, as the specification has it, fails for a pipeline that has no
    schema loaded: the file is one that the schema would reject, yet the
    XSD stage is recorded as passed and nothing was asked about the file;
    the other two stages still run on it. With the rejecting schema loaded
    the schema is asked and the stage fails. And when looking for the
    interpreter raises, the Schematron validator is not launched and the
    stage is recorded as failed. *)
Lemma xsd_stage_skipped_without_schema :
  validate_file world_quiet pipeline_without_schema "model.xml"
  = (Returned (mkValidationResult "model.xml" true [] true [] true []),
     [Print_stage 1; Print_verdict true;
      Print_stage 2; Call_venv_exists;
      Call_subprocess_run
        ["python"; "schematronValidator.py"; "Rules.sch"; "model.xml"];
      Print_verdict true;
      Print_stage 3; Call_python_validate "model.xml" true;
      Print_verdict true])
  ∧ validate_file world_quiet pipeline_rejecting "model.xml"
    = (Returned (mkValidationResult
                   "model.xml" false ["At /AUTOSAR: not allowed"]
                   true [] true []),
       [Print_stage 1; Call_is_valid "model.xml";
        Call_iter_errors "model.xml"; Print_verdict false;
        Print_stage 2; Call_venv_exists;
        Call_subprocess_run
          ["python"; "schematronValidator.py"; "Rules.sch"; "model.xml"];
        Print_verdict true;
        Print_stage 3; Call_python_validate "model.xml" true;
        Print_verdict true])
  ∧ validate_file world_no_lookup pipeline_rejecting "model.xml"
    = (Returned (mkValidationResult
                   "model.xml" false ["At /AUTOSAR: not allowed"]
                   false ["Schematron validation error: denied"] true []),
       [Print_stage 1; Call_is_valid "model.xml";
        Call_iter_errors "model.xml"; Print_verdict false;
        Print_stage 2; Call_venv_exists; Print_verdict false;
        Print_stage 3; Call_python_validate "model.xml" true;
        Print_verdict true]).
Proof. vm_compute. repeat split. Qed.

(** C10. In the result [validate_file] returns, a stage that is marked
    passed has an empty error list: the XSD and the Schematron helper return
    [True] only together with an empty list, and the Python stage is marked
    failed whenever its list is not empty. *)
Theorem passed_stage_has_no_errors
        (W : World) (self : ValidationPipeline) (xml_file : string) :
  settles (_validate_xsd self xml_file)
  ∧ settles (_validate_schematron W self xml_file)
  ∧ ∃ (r : ValidationResult) (evs : list event),
      validate_file W self xml_file = (Returned r, evs)
      ∧ (xsd_passed r = true → xsd_errors r = [])
      ∧ (schematron_passed r = true → schematron_errors r = [])
      ∧ (python_passed r = true → python_errors r = [])
      ∧ (python_errors r ≠ [] → python_passed r = false).
Proof.
  split; [apply validate_xsd_settles|].
  split; [apply validate_schematron_settles|].
  destruct (validate_xsd_settles self xml_file) as (xp & xe & evx & Hx & Hxe).
  destruct (validate_schematron_settles W self xml_file)
    as (sp & se & evs & Hs & Hse).
  destruct (validate_python_settles W self xml_file)
    as (pp & pe & evp & Hp & Hpe).
  unfold validate_file. rewrite Hx, Hs, Hp. simpl.
  destruct pe as [|e pe]; simpl; eexists _, _; (split; [reflexivity|]); simpl.
  - repeat split; try assumption; done.
  - repeat split; try assumption; done.
Qed.

(** ** Strings *)

#[local] Arguments String.append !_ _ : simpl nomatch.

Section StringFacts.

Variable p : ascii → bool.

Lemma append_assoc (a b c : string) : (a +:+ b) +:+ c = a +:+ (b +:+ c).
Proof. induction a as [|x a IH]; simpl; [reflexivity | by rewrite IH]. Qed.

Lemma all_chars_app (a b : string) :
  Py.all_chars p (a +:+ b) = Py.all_chars p a && Py.all_chars p b.
Proof.
  induction a as [|x a IH]; simpl; [reflexivity|].
  rewrite IH. by rewrite andb_assoc.
Qed.

(** What [lstrip] removes satisfies [p]; what is left does not start with a
    character that does. *)
Lemma lstrip_with_split (s : string) :
  ∃ pre : string,
    s = pre +:+ Py.lstrip_with p s
    ∧ Py.all_chars p pre = true
    ∧ match Py.first_char (Py.lstrip_with p s) with
      | Some c => p c = false
      | None => True
      end.
Proof.
  induction s as [|c s IH]; simpl.
  - by exists EmptyString.
  - destruct (p c) eqn:Hc.
    + destruct IH as (pre & Hs & Hall & Hfirst).
      exists (String c pre). simpl. rewrite Hc, Hall. by rewrite <- Hs.
    + exists EmptyString. by simpl.
Qed.

(** The same for [rstrip]; the first character stays when something is
    left. *)
Lemma rstrip_with_split (s : string) :
  ∃ suf : string,
    s = Py.rstrip_with p s +:+ suf
    ∧ Py.all_chars p suf = true
    ∧ match Py.last_char (Py.rstrip_with p s) with
      | Some c => p c = false
      | None => True
      end
    ∧ (Py.rstrip_with p s ≠ EmptyString
       → Py.first_char (Py.rstrip_with p s) = Py.first_char s).
Proof.
  induction s as [|c s IH]; simpl.
  - by exists EmptyString.
  - destruct IH as (suf & Hs & Hall & Hlast & _).
    destruct (Py.rstrip_with p s) as [|d r] eqn:Hr.
    + destruct (p c) eqn:Hc.
      * exists (String c suf). simpl in *. subst s. by rewrite Hc, Hall.
      * exists suf. simpl in *. subst s. by rewrite Hc.
    + exists suf. simpl in *. rewrite <- Hs. repeat split; done.
Qed.

(** [strip] removes a prefix and a suffix of characters that satisfy [p],
    and what it leaves neither starts nor ends with such a character. *)
Lemma strip_with_split (s : string) :
  ∃ pre suf : string,
    s = pre +:+ Py.strip_with p s +:+ suf
    ∧ Py.all_chars p pre = true ∧ Py.all_chars p suf = true
    ∧ Py.trimmed p (Py.strip_with p s) = true.
Proof.
  unfold Py.strip_with.
  destruct (lstrip_with_split s) as (pre & Hs & Hpre & Hfirst).
  destruct (rstrip_with_split (Py.lstrip_with p s))
    as (suf & Hr & Hsuf & Hlast & Hkeep).
  exists pre, suf. repeat split; try done.
  - by rewrite <- Hr.
  - unfold Py.trimmed.
    destruct (Py.rstrip_with p (Py.lstrip_with p s)) as [|c r] eqn:E;
      [done|].
    rewrite Hkeep in * by done.
    destruct (Py.first_char (Py.lstrip_with p s)) as [a|]; [|done].
    destruct (Py.last_char (String c r)) as [b|]; [|done].
    by rewrite Hfirst, Hlast.
Qed.

(** A string that is already trimmed is left as it is. *)
Lemma lstrip_with_first (s : string) :
  match Py.first_char s with Some c => p c = false | None => True end
  → Py.lstrip_with p s = s.
Proof. destruct s as [|c s]; simpl; [done|]. by intros ->. Qed.

Lemma rstrip_with_last (s : string) :
  match Py.last_char s with Some c => p c = false | None => True end
  → Py.rstrip_with p s = s.
Proof.
  induction s as [|c s IH]; simpl; [done|].
  destruct s as [|d s].
  - simpl. by intros ->.
  - intros H. rewrite IH by exact H. reflexivity.
Qed.

End StringFacts.

Lemma split_nonempty (sep : ascii) (s : string) : Py.split sep s ≠ [].
Proof.
  destruct s as [|c s]; simpl; [done|].
  destruct (Ascii.eqb c sep); [done|]. by destruct (Py.split sep s).
Qed.

(** [split] at a separator splits both sides of it. *)
Lemma split_app_sep (sep : ascii) (s t : string) :
  Py.split sep (s +:+ String sep t) = Py.split sep s ++ Py.split sep t.
Proof.
  induction s as [|c s IH]; simpl.
  - by rewrite Ascii.eqb_refl.
  - destruct (Ascii.eqb c sep); [by rewrite IH|].
    rewrite IH. pose proof (split_nonempty sep s).
    by destruct (Py.split sep s).
Qed.

Lemma split_no_sep (sep : ascii) (s : string) :
  Py.all_chars (fun c => negb (Ascii.eqb c sep)) s = true
  → Py.split sep s = [s].
Proof.
  induction s as [|c s IH]; simpl; [done|].
  intros [Hc Hs]%andb_prop. apply negb_true_iff in Hc. rewrite Hc.
  by rewrite IH.
Qed.

Lemma last_item_app (l1 l2 : list string) :
  l2 ≠ [] → Py.last_item (l1 ++ l2) = Py.last_item l2.
Proof.
  intros H. unfold Py.last_item.
  destruct l2 as [|x l2]; [done|].
  induction l1 as [|y l1 IH]; [done|].
  simpl. destruct (l1 ++ x :: l2) eqn:E; [by destruct l1|]. exact IH.
Qed.

Lemma all_chars_impl (p q : ascii → bool) (s : string) :
  (∀ c, p c = true → q c = true)
  → Py.all_chars p s = true → Py.all_chars q s = true.
Proof.
  intros Hpq. induction s as [|c s IH]; simpl; [done|].
  intros [Hc Hs]%andb_prop. by rewrite (Hpq c Hc), IH.
Qed.

Lemma all_chars_last (p : ascii → bool) (s : string) (c : ascii) :
  Py.all_chars p s = true → Py.last_char s = Some c → p c = true.
Proof.
  induction s as [|d s IH]; simpl; [done|].
  intros [Hd Hs]%andb_prop. destruct s; [by intros [= <-]|]. by apply IH.
Qed.

Lemma last_char_app (a b : string) :
  b ≠ EmptyString → Py.last_char (a +:+ b) = Py.last_char b.
Proof.
  intros Hb. induction a as [|c a IH]; simpl; [done|].
  destruct (a +:+ b) eqn:E; [|exact IH].
  destruct a, b; done.
Qed.

Lemma lstrip_with_app_stop (p : ascii → bool) (a b : string) (c : ascii) :
  p c = false
  → ∃ a' : string,
      Py.lstrip_with p (a +:+ String c b) = a' +:+ String c b.
Proof.
  intros Hc. induction a as [|x a IH]; simpl.
  - exists EmptyString. by rewrite Hc.
  - destruct (p x); [exact IH|]. by exists (String x a).
Qed.

(** A segment behind a separator is what [_extract_short_name_from_dest]
    returns, whatever stands before the separator. *)
Lemma extract_short_name_behind_prefix (prefix name : string) :
  Py.is_segment name = true
  → _extract_short_name_from_dest (prefix +:+ "/" +:+ name) = name.
Proof.
  unfold Py.is_segment. intros [Hns Hlast]%andb_prop.
  destruct (Py.last_char name) as [l|] eqn:Hl; [|done].
  apply negb_true_iff in Hlast.
  assert (name ≠ EmptyString) as Hne by (by destruct name).
  assert (Py.is_slash l = false) as Hlslash.
  { apply negb_true_iff. exact (all_chars_last _ _ _ Hns Hl). }
  unfold _extract_short_name_from_dest, _normalize_dest_path.
  set (sl := String "/" name).
  assert (∀ a, Py.last_char (a +:+ sl) = Some l) as Hlast_sl.
  { intros a. rewrite last_char_app by done. subst sl. simpl.
    by destruct name. }
  (* white space *)
  unfold Py.strip_chars, Py.strip, Py.strip_with. simpl "+:+".
  destruct (lstrip_with_app_stop Py.isspace prefix name "/" eq_refl)
    as (q1 & ->).
  fold sl. rewrite (rstrip_with_last Py.isspace (q1 +:+ sl))
    by (by rewrite Hlast_sl).
  (* separators *)
  assert (∃ q2, Py.lstrip_with (λ c, Py.mem_char c "/") (q1 +:+ sl) = q2 +:+ name
                ∧ (q2 = EmptyString ∨ ∃ q3, q2 = q3 +:+ "/")) as (q2 & Hq2 & Hshape).
  { clear Hlast_sl. induction q1 as [|x q1 IH]; simpl.
    - exists EmptyString. split; [|by left].
      apply lstrip_with_first. destruct name as [|n0 name]; [done|].
      simpl in *. apply andb_prop in Hns as [Hn0 _].
      unfold Py.is_slash in Hn0. apply negb_true_iff in Hn0.
      by rewrite Hn0.
    - destruct (Ascii.eqb x "/" || false); [exact IH|].
      exists (String x q1 +:+ "/"). split; [|by right; eexists].
      subst sl. simpl. by rewrite append_assoc. }
  rewrite Hq2.
  assert (Py.last_char (q2 +:+ name) = Some l) as Hl2
    by (by rewrite last_char_app).
  rewrite rstrip_with_last
    by (rewrite Hl2; unfold Py.is_slash in Hlslash; simpl; by rewrite Hlslash).
  assert (Py.last_item (Py.split "/" (q2 +:+ name)) = name) as Hitem.
  { destruct Hshape as [-> | (q3 & ->)].
    - simpl. by rewrite split_no_sep.
    - rewrite append_assoc. simpl. rewrite split_app_sep.
      rewrite last_item_app by apply split_nonempty.
      by rewrite split_no_sep. }
  pose proof (split_nonempty "/" (q2 +:+ name)).
  destruct (Py.split "/" (q2 +:+ name)); done.
Qed.

(** ** References *)

Lemma mem_char_slash (c : ascii) : Py.mem_char c "/" = Py.is_slash c.
Proof. unfold Py.is_slash. simpl. apply orb_false_r. Qed.

(** Normalization takes off the front and off the end of a reference only
    white space and separators, and what it leaves neither starts nor ends
    with a separator. *)
Lemma normalize_split (dest : string) :
  ∃ pre suf : string,
    dest = pre +:+ _normalize_dest_path dest +:+ suf
    ∧ Py.all_chars (λ c, Py.isspace c || Py.is_slash c) pre = true
    ∧ Py.all_chars (λ c, Py.isspace c || Py.is_slash c) suf = true
    ∧ Py.trimmed Py.is_slash (_normalize_dest_path dest) = true.
Proof.
  unfold _normalize_dest_path.
  destruct (strip_with_split Py.isspace dest)
    as (pre1 & suf1 & H1 & Hpre1 & Hsuf1 & _).
  destruct (strip_with_split (λ c, Py.mem_char c "/") (Py.strip dest))
    as (pre2 & suf2 & H2 & Hpre2 & Hsuf2 & Htrim).
  exists (pre1 +:+ pre2), (suf2 +:+ suf1).
  repeat split.
  + unfold Py.strip_chars. rewrite !append_assoc.
    rewrite <- (append_assoc _ suf2 suf1), <- (append_assoc pre2).
    fold (Py.strip dest) in H1. by rewrite <- H2.
  + rewrite all_chars_app. apply andb_true_intro. split.
    * eapply all_chars_impl; [|exact Hpre1]. by intros c ->.
    * eapply all_chars_impl; [|exact Hpre2].
      intros c Hc. cbv beta in Hc. rewrite mem_char_slash in Hc.
      rewrite Hc. apply orb_true_r.
  + rewrite all_chars_app. apply andb_true_intro. split.
    * eapply all_chars_impl; [|exact Hsuf2].
      intros c Hc. cbv beta in Hc. rewrite mem_char_slash in Hc.
      rewrite Hc. apply orb_true_r.
    * eapply all_chars_impl; [|exact Hsuf1]. by intros c ->.
  + unfold Py.strip_chars. unfold Py.trimmed in *.
    destruct (Py.first_char _) as [a|]; [|done].
    destruct (Py.last_char _) as [b|]; [|done].
    by rewrite <- !mem_char_slash.
Qed.

Lemma lstrip_with_all_chars (p : ascii → bool) (s : string) :
  Py.all_chars p s = true → Py.lstrip_with p s = EmptyString.
Proof.
  induction s as [|c s IH]; [done|]. cbn [Py.all_chars Py.lstrip_with].
  intros [Hc Hs]%andb_prop. rewrite Hc. by apply IH.
Qed.

Lemma rstrip_with_all_chars (p : ascii → bool) (s : string) :
  Py.all_chars p s = true → Py.rstrip_with p s = EmptyString.
Proof.
  induction s as [|c s IH]; [done|]. cbn [Py.all_chars Py.rstrip_with].
  intros [Hc Hs]%andb_prop. by rewrite (IH Hs), Hc.
Qed.

Lemma rstrip_with_append_all (p : ascii → bool) (a b : string) :
  Py.all_chars p b = true
  → Py.rstrip_with p (a +:+ b) = Py.rstrip_with p a.
Proof.
  intros Hb. induction a as [|c a IH]; [by apply rstrip_with_all_chars|].
  cbn [String.append Py.rstrip_with]. by rewrite IH.
Qed.

Lemma lstrip_with_append_all (p : ascii → bool) (a b : string) :
  Py.all_chars p a = true
  → Py.lstrip_with p (a +:+ b) = Py.lstrip_with p b.
Proof.
  induction a as [|c a IH]; [done|]. cbn [Py.all_chars].
  intros [Hc Ha]%andb_prop. cbn [String.append Py.lstrip_with].
  rewrite Hc. by apply IH.
Qed.

Lemma last_char_nonempty (s : string) :
  s ≠ EmptyString → ∃ b, Py.last_char s = Some b.
Proof.
  induction s as [|c s IH]; [done|]. intros _.
  destruct s as [|d s]; [by exists c|]. by apply IH.
Qed.

(** Stripping gives back a trimmed string from between what it strips. *)
Lemma strip_with_sandwich (p : ascii → bool) (pre mid suf : string) :
  Py.all_chars p pre = true
  → Py.all_chars p suf = true
  → Py.trimmed p mid = true
  → Py.strip_with p (pre +:+ mid +:+ suf) = mid.
Proof.
  intros Hpre Hsuf Htrim. unfold Py.strip_with.
  rewrite lstrip_with_append_all by done.
  destruct mid as [|c t].
  - simpl. by rewrite lstrip_with_all_chars.
  - destruct (last_char_nonempty (String c t)) as (b & Hb); [done|].
    unfold Py.trimmed in Htrim. rewrite Hb in Htrim.
    cbn [Py.first_char] in Htrim.
    apply andb_prop in Htrim as [Hpc Hpb].
    apply negb_true_iff in Hpc, Hpb.
    cbn [String.append Py.lstrip_with]. rewrite Hpc.
    change (String c (t +:+ suf)) with (String c t +:+ suf).
    rewrite rstrip_with_append_all by done.
    apply rstrip_with_last. by rewrite Hb.
Qed.

(** Normalization is the stripping of white space and separators exactly
    when what it returns does not start or end with white space. *)
Lemma normalize_agrees_iff (dest : string) :
  _normalize_dest_path dest = stripped_reference dest
  ↔ Py.trimmed Py.isspace (_normalize_dest_path dest) = true.
Proof.
  split.
  - intros ->. unfold stripped_reference.
    destruct (strip_with_split (λ c, Py.isspace c || Py.is_slash c) dest)
      as (_ & _ & _ & _ & _ & Htrim).
    unfold Py.trimmed in *.
    destruct (Py.first_char _) as [a|]; [|done].
    destruct (Py.last_char _) as [b|]; [|done].
    apply andb_prop in Htrim as [Ha Hb].
    apply negb_true_iff, orb_false_elim in Ha as [Ha _].
    apply negb_true_iff, orb_false_elim in Hb as [Hb _].
    by rewrite Ha, Hb.
  - intros Hspace.
    destruct (normalize_split dest) as (pre & suf & Hdest & Hpre & Hsuf & Hslash).
    unfold stripped_reference. rewrite Hdest at 2.
    symmetry. apply strip_with_sandwich; [done|done|].
    unfold Py.trimmed in *.
    destruct (Py.first_char _) as [a|]; [|done].
    destruct (Py.last_char _) as [b|]; [|done].
    apply andb_prop in Hspace as [Ha Hb].
    apply andb_prop in Hslash as [Ha' Hb'].
    apply negb_true_iff in Ha, Hb, Ha', Hb'.
    by rewrite Ha, Hb, Ha', Hb'.
Qed.

(** ** References *)

(** C8, where the code departs from it. Normalization strips white space
    first and separators afterwards, once each, so white space that stands
    inside the separators stays: [/ Cl0 /] becomes [ Cl0 ] with its blanks,
    the last segment of [ / a/b / ] is [b ] with a blank, and a cluster
    reference written so is reported as unresolved although the cluster
    exists, while the same reference with the blanks outside the separators
    resolves. Apart from that the claim holds: normalization takes off the
    ends of a reference only white space and separators and leaves no
    separator at either end, it is the stripping of both exactly when what
    it returns is free of white space at its ends, the resolving rules use
    the last segment of the normalized reference, and what stands before
    the last separator of a reference does not matter. *)
Theorem normalization_keeps_inner_white_space :
  (_normalize_dest_path "/ Cl0 /" = " Cl0 "
   ∧ stripped_reference "/ Cl0 /" = "Cl0"
   ∧ _normalize_dest_path " /Cl0/ " = "Cl0"
   ∧ _extract_short_name_from_dest "/ Cl0 /" = " Cl0 "
   ∧ _extract_short_name_from_dest " / a/b / " = "b "
   ∧ _validate_rule_76b (doc_cluster_ref "/ Cl0 /")
     = [error 76 (cluster_ref_msg "/ Cl0 /" " Cl0 ") "/AUTOSAR/HW-SW-MAPPING"]
   ∧ _validate_rule_76b (doc_cluster_ref " /Cl0/ ") = []
   ∧ _validate_rule_76b (doc_cluster_ref "/Wrong/Path/Cl0") = [])
  ∧ (∀ dest : string,
        ∃ pre suf : string,
          dest = pre +:+ _normalize_dest_path dest +:+ suf
          ∧ Py.all_chars (λ c, Py.isspace c || Py.is_slash c) pre = true
          ∧ Py.all_chars (λ c, Py.isspace c || Py.is_slash c) suf = true
          ∧ Py.trimmed Py.is_slash (_normalize_dest_path dest) = true)
  ∧ (∀ dest : string,
        _normalize_dest_path dest = stripped_reference dest
        ↔ Py.trimmed Py.isspace (_normalize_dest_path dest) = true)
  ∧ (∀ dest : string,
        _extract_short_name_from_dest dest
        = Py.last_item (Py.split "/" (_normalize_dest_path dest)))
  ∧ (∀ prefix1 prefix2 name : string,
        Py.is_segment name = true
        → _extract_short_name_from_dest (prefix1 +:+ "/" +:+ name) = name
          ∧ _extract_short_name_from_dest (prefix2 +:+ "/" +:+ name)
            = _extract_short_name_from_dest (prefix1 +:+ "/" +:+ name)).
Proof.
  split; [by vm_compute|].
  split; [exact normalize_split|].
  split; [exact normalize_agrees_iff|].
  split.
  - intros dest. unfold _extract_short_name_from_dest.
    pose proof (split_nonempty "/" (_normalize_dest_path dest)).
    by destruct (Py.split "/" (_normalize_dest_path dest)).
  - intros prefix1 prefix2 name Hname.
    by rewrite !extract_short_name_behind_prefix.
Qed.

(** ** Rule 6 *)

Lemma rule_6_fold_scan (nodes : list node)
      (st : gmap string string * list ValidationError) :
  fold_left rule_6_step nodes st
  = fold_left rule_6_scan
      (omap (fun runnable =>
               (fun name => (name, n_path runnable))
                 <$> short_name (n_elem runnable)) nodes) st.
Proof.
  revert st. induction nodes as [|n nodes IH]; intros st; simpl; [done|].
  unfold rule_6_step at 2.
  destruct (short_name (n_elem n)) as [name|]; simpl; [|apply IH].
  rewrite IH. reflexivity.
Qed.

(** Names that are new and pairwise distinct add no finding. *)
Lemma rule_6_scan_fresh (l : list (string * string))
      (m : gmap string string) (errs : list ValidationError) :
  NoDup (l.*1)
  → (∀ k, k ∈ (l.*1) → m !! k = None)
  → ∃ m' : gmap string string,
      fold_left rule_6_scan l (m, errs) = (m', errs)
      ∧ (∀ k, k ∉ (l.*1) → m' !! k = m !! k)
      ∧ (∀ k, k ∈ (l.*1) → is_Some (m' !! k)).
Proof.
  revert m. induction l as [|[name path] l IH]; intros m Hnd Hfresh; simpl.
  - exists m. split; [done|]. split; [done|].
    intros k Hk. by apply elem_of_nil in Hk.
  - simpl in Hnd. apply NoDup_cons in Hnd as [Hname Hnd].
    unfold rule_6_scan at 2. simpl.
    rewrite (Hfresh name) by (simpl; apply elem_of_cons; by left).
    destruct (IH (<[name := path]> m) Hnd) as (m' & Hfold & Hout & Hin).
    { intros k Hk. rewrite lookup_insert_ne; [|by intros ->].
      apply Hfresh. simpl. apply elem_of_cons. by right. }
    exists m'. split; [exact Hfold|]. split.
    + intros k Hk. simpl in Hk. apply not_elem_of_cons in Hk as [Hk1 Hk2].
      rewrite (Hout k Hk2). by rewrite lookup_insert_ne.
    + intros k Hk. simpl in Hk. apply elem_of_cons in Hk as [-> | Hk].
      * rewrite (Hout name Hname). rewrite lookup_insert_eq. by eexists.
      * by apply Hin.
Qed.

(** C4. When exactly two runnables share a name and all other runnable
    names are distinct, rule 6 emits exactly one finding; it is located at
    the later of the two and its message ends with the tree path of the
    earlier one. *)
Theorem duplicate_runnable_reported_once
        (root : element) (name first later : string)
        (l1 l2 l3 : list (string * string)) :
  named_runnables root = l1 ++ (name, first) :: l2 ++ (name, later) :: l3
  → NoDup ((l1.*1) ++ name :: (l2.*1) ++ (l3.*1))
  → ∃ finding : ValidationError,
      _validate_rule_6 root = [finding]
      ∧ rule_number finding = 6%Z
      ∧ xpath finding = later
      ∧ message finding
        = "Duplicate RUNNABLE-ENTITY SHORT-NAME/@name '" +:+ name
          +:+ "' found. Previous occurrence(s) at: " +:+ first.
Proof.
  intros Hnamed Hnd.
  exists (error 6 (rule_6_msg name first) later).
  split; [|done].
  unfold _validate_rule_6. rewrite rule_6_fold_scan.
  fold (named_runnables root). rewrite Hnamed.
  apply NoDup_app in Hnd as (Hnd1 & Hdisj1 & Hnd).
  apply NoDup_cons in Hnd as (Hname23 & Hnd).
  apply NoDup_app in Hnd as (Hnd2 & Hdisj2 & Hnd3).
  apply not_elem_of_app in Hname23 as [Hname2 Hname3].
  assert (name ∉ (l1.*1)) as Hname1.
  { intros H. apply (Hdisj1 name H). apply elem_of_cons. by left. }
  (* the runnables before the first occurrence *)
  rewrite fold_left_app.
  destruct (rule_6_scan_fresh l1 ∅ [] Hnd1) as (m1 & -> & Hout1 & Hin1).
  { intros k _. apply lookup_empty. }
  simpl. unfold rule_6_scan at 2. simpl.
  rewrite (Hout1 name Hname1), lookup_empty.
  (* those between the two occurrences *)
  rewrite fold_left_app.
  destruct (rule_6_scan_fresh l2 (<[name := first]> m1) [] Hnd2)
    as (m2 & -> & Hout2 & Hin2).
  { intros k Hk. rewrite lookup_insert_ne; [|by intros ->].
    rewrite Hout1; [apply lookup_empty|].
    intros H. apply (Hdisj1 k H). apply elem_of_cons. right.
    apply elem_of_app. by left. }
  simpl. unfold rule_6_scan at 2. simpl.
  rewrite (Hout2 name Hname2), lookup_insert_eq.
  (* those after the second occurrence *)
  destruct (rule_6_scan_fresh l3 m2
              [error 6 (rule_6_msg name first) later] Hnd3)
    as (m3 & -> & _).
  { intros k Hk.
    assert (k ∉ (l2.*1)) as Hk2 by (intros H; exact (Hdisj2 k H Hk)).
    rewrite (Hout2 k Hk2).
    rewrite lookup_insert_ne; [|by intros ->].
    rewrite Hout1; [apply lookup_empty|].
    intros H. apply (Hdisj1 k H). apply elem_of_cons. right.
    apply elem_of_app. by right. }
  reflexivity.
Qed.

Lemma duplicate_runnable_reported_once_witness :
  ∃ finding : ValidationError,
    _validate_rule_6 doc_duplicate_runnable = [finding]
    ∧ rule_number finding = 6%Z
    ∧ xpath finding
      = "/AUTOSAR/APPLICATION-SW-COMPONENT-TYPE/RUNNABLE-ENTITY[3]"
    ∧ message finding
      = "Duplicate RUNNABLE-ENTITY SHORT-NAME/@name '" +:+ "Read_Run_0"
        +:+ "' found. Previous occurrence(s) at: "
        +:+ "/AUTOSAR/APPLICATION-SW-COMPONENT-TYPE/RUNNABLE-ENTITY[1]".
Proof.
  apply (duplicate_runnable_reported_once
           doc_duplicate_runnable "Read_Run_0"
           "/AUTOSAR/APPLICATION-SW-COMPONENT-TYPE/RUNNABLE-ENTITY[1]"
           "/AUTOSAR/APPLICATION-SW-COMPONENT-TYPE/RUNNABLE-ENTITY[3]"
           []
           [("Write_Run_0",
             "/AUTOSAR/APPLICATION-SW-COMPONENT-TYPE/RUNNABLE-ENTITY[2]")]
           []).
  - vm_compute. reflexivity.
  - apply (bool_decide_unpack _). vm_compute. exact I.
Defined.

(** ** Rule 5 *)

Lemma od_set_keys_NoDup (k : string) (v : nat * node) (d : ref_count) :
  NoDup (d.*1) → NoDup (od_set k v d).*1
               ∧ ∀ k', k' ∈ (od_set k v d).*1 ↔ k' = k ∨ k' ∈ (d.*1).
Proof.
  induction d as [|[k0 v0] d IH]; simpl; intros Hnd.
  - split; [apply NoDup_singleton|]. intros k'. rewrite list_elem_of_singleton.
    rewrite elem_of_nil. naive_solver.
  - apply NoDup_cons in Hnd as [Hk0 Hnd].
    destruct (String.eqb_spec k0 k) as [->|Hne]; simpl.
    + split; [by apply NoDup_cons|]. intros k'. rewrite !elem_of_cons.
      naive_solver.
    + destruct (IH Hnd) as [IH1 IH2]. split.
      * apply NoDup_cons. split; [|done]. rewrite IH2. naive_solver.
      * intros k'. rewrite !elem_of_cons, IH2. naive_solver.
Qed.

Lemma od_get_set (k k' : string) (v : nat * node) (d : ref_count) :
  od_get k' (od_set k v d) = if String.eqb k k' then Some v else od_get k' d.
Proof.
  induction d as [|[k0 v0] d IH]; simpl.
  - reflexivity.
  - destruct (String.eqb_spec k0 k) as [->|Hne]; simpl.
    + by destruct (String.eqb k k').
    + rewrite IH. destruct (String.eqb_spec k0 k') as [->|Hne'].
      * by rewrite (proj2 (String.eqb_neq k k')).
      * reflexivity.
Qed.

Lemma od_incr_keys (k : string) (d : ref_count) : (od_incr d k).*1 = (d.*1).
Proof.
  induction d as [|[k0 [c e]] d IH]; simpl; [done|].
  destruct (String.eqb k0 k); simpl; [done | by f_equal].
Qed.

Lemma od_get_incr (k k' : string) (d : ref_count) :
  NoDup (d.*1)
  → od_get k' (od_incr d k)
    = (fun v => (if String.eqb k' k then S v.1 else v.1, v.2)) <$> od_get k' d.
Proof.
  induction d as [|[k0 [c e]] d IH]; simpl; intros Hnd; [done|].
  apply NoDup_cons in Hnd as [Hk0 Hnd].
  destruct (String.eqb_spec k0 k) as [->|Hne]; simpl.
  - destruct (String.eqb_spec k k') as [->|Hne']; simpl.
    + by rewrite String.eqb_refl.
    + destruct (od_get k' d) as [[c' e']|]; simpl; [|done].
      by rewrite (proj2 (String.eqb_neq k' k)).
  - destruct (String.eqb_spec k0 k') as [->|Hne']; simpl.
    + by rewrite (proj2 (String.eqb_neq k' k)).
    + by apply IH.
Qed.

(** A key that is present splits the dictionary around its entry. *)
Lemma od_get_Some_split (k : string) (v : nat * node) (d : ref_count) :
  NoDup (d.*1)
  → od_get k d = Some v
  → ∃ pre post, d = pre ++ (k, v) :: post ∧ (k ∉ pre.*1) ∧ (k ∉ post.*1).
Proof.
  induction d as [|[k0 v0] d IH]; simpl; intros Hnd Hget; [done|].
  apply NoDup_cons in Hnd as [Hk0 Hnd].
  destruct (String.eqb_spec k0 k) as [->|Hne].
  - injection Hget as ->. exists [], d. repeat split; [apply not_elem_of_nil|done].
  - destruct (IH Hnd Hget) as (pre & post & -> & Hpre & Hpost).
    exists ((k0, v0) :: pre), post. repeat split; [|done].
    simpl. apply not_elem_of_cons. split; [done|done].
Qed.

(** The first loop, on the keyed ports. *)
Lemma rule_5_register_keyed (nodes : list node) (d : ref_count) :
  fold_left rule_5_register nodes d
  = fold_left (fun d entry => od_set entry.1 (0, entry.2) d)
      (omap (fun pport => (fun path => (path, pport)) <$> port_path pport)
            nodes) d.
Proof.
  revert d. induction nodes as [|n nodes IH]; intros d; simpl; [done|].
  unfold rule_5_register at 2.
  destruct (port_path n) as [path|]; simpl; apply IH.
Qed.

Lemma register_fold_NoDup (l : list (string * node)) (d : ref_count) :
  NoDup (d.*1)
  → NoDup (fold_left (fun d entry => od_set entry.1 (0, entry.2) d) l d).*1.
Proof.
  revert d. induction l as [|[k n] l IH]; intros d Hnd; simpl; [done|].
  apply IH. by apply od_set_keys_NoDup.
Qed.

Lemma register_fold_other (k : string) (l : list (string * node))
      (d : ref_count) :
  k ∉ (l.*1)
  → od_get k (fold_left (fun d entry => od_set entry.1 (0, entry.2) d) l d)
    = od_get k d.
Proof.
  revert d. induction l as [|[k0 n] l IH]; intros d Hk; simpl; [done|].
  simpl in Hk. apply not_elem_of_cons in Hk as [Hne Hk].
  rewrite IH by done. rewrite od_get_set.
  by rewrite (proj2 (String.eqb_neq k0 k)).
Qed.

Lemma incr_fold_NoDup (refs : list string) (d : ref_count) :
  NoDup (d.*1) → NoDup (fold_left od_incr refs d).*1.
Proof.
  revert d. induction refs as [|r refs IH]; intros d Hnd; simpl; [done|].
  apply IH. by rewrite od_incr_keys.
Qed.

Lemma incr_fold_get (k : string) (refs : list string) (d : ref_count) :
  NoDup (d.*1)
  → od_get k (fold_left od_incr refs d)
    = (fun v => (length (List.filter (String.eqb k) refs) + v.1, v.2))
        <$> od_get k d.
Proof.
  revert d. induction refs as [|r refs IH]; intros d Hnd; simpl.
  - by destruct (od_get k d) as [[c e]|].
  - rewrite IH by (by rewrite od_incr_keys).
    rewrite od_get_incr by done.
    destruct (od_get k d) as [[c e]|]; simpl; [|done].
    destruct (String.eqb k r); simpl; [|done].
    by rewrite Nat.add_succ_r.
Qed.

(** The decimal form of an integer does not start with a capital Z. *)
Lemma str_of_Z_head (z : Z) :
  ∃ (c : ascii) (r : string), Py.str_of_Z z = String c r ∧ c ≠ "Z"%char.
Proof.
  unfold Py.str_of_Z, NilZero.string_of_int.
  destruct (Z.to_int z) as [d|d]; [|by eexists _, _].
  destruct d; simpl; by eexists _, _.
Qed.

Lemma rule_5_msgs_differ (port_name path : string) (count : nat) :
  rule_5_zero_msg port_name path ≠ rule_5_many_msg port_name path count.
Proof.
  unfold rule_5_zero_msg, rule_5_many_msg, Py.str_of_nat. intros H.
  do 4 apply String.app_inj in H.
  destruct (str_of_Z_head (Z.of_nat count)) as (c & r & Hstr & Hc).
  rewrite Hstr in H. simpl in H. congruence.
Qed.

Lemma component_path_port_path (port : node) :
  component_path port = port_path port.
Proof.
  unfold component_path, port_path.
  destruct (short_name (n_elem port)) as [port_name|]; simpl; [|done].
  destruct (xpath_ancestor port "APPLICATION-SW-COMPONENT-TYPE")
    as [|swc ancestors]; simpl; [done|].
  by destruct (short_name swc).
Qed.

Lemma keyed_ports_port_path (root : element) (port_tag : string) :
  keyed_ports root port_tag
  = omap (fun port => (fun path => (path, port)) <$> port_path port)
         (xpath_all root port_tag).
Proof.
  unfold keyed_ports. generalize (xpath_all root port_tag). intros l.
  induction l as [|port l IH]; [done|].
  cbn [omap list_omap]. rewrite component_path_port_path.
  destruct (port_path port); simpl; by rewrite IH.
Qed.

(** The entry of the last port registered under a path, and what rule 5
    emits for it. *)
Lemma rule_5_last_registered
        (root : element) (pport : node) (path : string)
        (l1 l2 : list (string * node)) :
  keyed_pports root = l1 ++ (path, pport) :: l2
  → path ∉ (l2.*1)
  → ∃ (port_name : string) (pre post : ref_count)
      (findings : list ValidationError),
      short_name (n_elem pport) = Some port_name
      ∧ rule_5_table root
        = pre ++ (path, (count_refs root path, pport)) :: post
      ∧ (path ∉ pre.*1) ∧ (path ∉ post.*1)
      ∧ _validate_rule_5 root
        = flat_map rule_5_report pre ++ findings
          ++ flat_map rule_5_report post
      ∧ (count_refs root path = 1 → findings = [])
      ∧ (count_refs root path = 0
         → findings
           = [error 5 (rule_5_zero_msg port_name path) (n_path pport)])
      ∧ ((2 ≤ count_refs root path)%nat
         → findings
           = [error 5 (rule_5_many_msg port_name path
                                       (count_refs root path))
                    (n_path pport)])
      ∧ rule_5_zero_msg port_name path
        ≠ rule_5_many_msg port_name path (count_refs root path).
Proof.
  intros Hkeyed Hlast.
  assert (port_path pport = Some path) as Hpath.
  { assert ((path, pport) ∈ keyed_pports root) as Hin.
    { rewrite Hkeyed. apply elem_of_app. right. apply elem_of_cons. by left. }
    unfold keyed_pports in Hin. rewrite keyed_ports_port_path in Hin.
    apply list_elem_of_omap in Hin as (n & _ & Hn).
    destruct (port_path n) as [q|] eqn:E; simpl in Hn; [|done].
    by injection Hn as -> ->. }
  assert (∃ port_name, short_name (n_elem pport) = Some port_name)
    as (port_name & Hname).
  { unfold port_path in Hpath.
    destruct (short_name (n_elem pport)); [by eexists | done]. }
  set (table0 := fold_left rule_5_register
                           (xpath_all root "P-PORT-PROTOTYPE") []).
  assert (NoDup (table0.*1) ∧ od_get path table0 = Some (0, pport))
    as [Hnd0 Hget0].
  { subst table0. rewrite rule_5_register_keyed.
    rewrite <- keyed_ports_port_path. fold (keyed_pports root).
    rewrite Hkeyed. split.
    - apply register_fold_NoDup. apply NoDup_nil_2.
    - rewrite fold_left_app. simpl.
      rewrite register_fold_other by done.
      rewrite od_get_set. by rewrite String.eqb_refl. }
  assert (NoDup (rule_5_table root).*1) as Hnd
    by (by apply incr_fold_NoDup).
  assert (od_get path (rule_5_table root)
          = Some (count_refs root path, pport)) as Hget.
  { unfold rule_5_table. fold table0. rewrite incr_fold_get by done.
    rewrite Hget0. simpl. unfold count_refs. by rewrite Nat.add_0_r. }
  destruct (od_get_Some_split _ _ _ Hnd Hget)
    as (pre & post & Htable & Hpre & Hpost).
  exists port_name, pre, post,
    (rule_5_report (path, (count_refs root path, pport))).
  split; [done|]. split; [done|]. split; [done|]. split; [done|].
  split.
  { unfold _validate_rule_5. rewrite Htable.
    rewrite flat_map_app. simpl. reflexivity. }
  unfold rule_5_report. rewrite Hname. simpl.
  split; [by intros ->|]. split; [by intros ->|].
  split; [|apply rule_5_msgs_differ].
  intros Hge. destruct (count_refs root path) as [|[|n]]; [lia|lia|done].
Qed.

(** Where the entries of the dictionary come from. *)
Lemma od_set_elem (k k' : string) (v v' : nat * node) (d : ref_count) :
  (k', v') ∈ od_set k v d → (k', v') = (k, v) ∨ (k', v') ∈ d.
Proof.
  induction d as [|[k0 v0] d IH]; simpl.
  - rewrite list_elem_of_singleton. by left.
  - destruct (String.eqb k0 k); rewrite !elem_of_cons; naive_solver.
Qed.

Lemma register_fold_elem (l : list (string * node)) (d : ref_count)
      (k : string) (v : nat * node) :
  (k, v) ∈ fold_left (fun d entry => od_set entry.1 (0, entry.2) d) l d
  → (k, v) ∈ d ∨ (k, v.2) ∈ l.
Proof.
  revert d. induction l as [|[k0 n] l IH]; intros d; simpl; [by left|].
  intros Hin. apply IH in Hin as [Hin|Hin]; [|right; by right].
  apply od_set_elem in Hin as [[= -> ->]|Hin]; [right; by left | by left].
Qed.

Lemma od_incr_elem (r k : string) (c : nat) (n : node) (d : ref_count) :
  (k, (c, n)) ∈ od_incr d r → ∃ c0, (k, (c0, n)) ∈ d.
Proof.
  induction d as [|[k0 [c0 n0]] d IH]; simpl; [by intros ?%elem_of_nil|].
  destruct (String.eqb k0 r); rewrite elem_of_cons.
  - intros [[= -> -> ->]|Hin]; [exists c0; by left | exists c; by right].
  - intros [[= -> -> ->]|Hin]; [exists c0; by left|].
    destruct (IH Hin) as [c1 Hc1]. exists c1. by right.
Qed.

Lemma incr_fold_elem (refs : list string) (d : ref_count)
      (k : string) (c : nat) (n : node) :
  (k, (c, n)) ∈ fold_left od_incr refs d → ∃ c0, (k, (c0, n)) ∈ d.
Proof.
  revert d c. induction refs as [|r refs IH]; intros d c; simpl;
    [by exists c|].
  intros Hin. apply IH in Hin as [c1 Hin]. by apply od_incr_elem in Hin.
Qed.

Lemma incr_fold_nil (refs : list string) : fold_left od_incr refs [] = [].
Proof. by induction refs. Qed.

(** An entry of the table of rule 5 is that of a port with a path. *)
Lemma rule_5_table_elem (root : element) (path : string) (count : nat)
      (pport : node) :
  (path, (count, pport)) ∈ rule_5_table root
  → (path, pport) ∈ keyed_pports root.
Proof.
  unfold rule_5_table. intros [c0 Hin]%incr_fold_elem.
  rewrite rule_5_register_keyed, <- keyed_ports_port_path in Hin.
  by apply register_fold_elem in Hin as [?%elem_of_nil|Hin].
Qed.

(** With the references written in their normal form, the references
    that name a port are those equal to its path. *)
Lemma count_naming_canonical (root : element) (access_tag path : string) :
  canonical_refs root access_tag = true
  → count_naming root access_tag path
    = length (List.filter (String.eqb path) (port_ref_dests root access_tag)).
Proof.
  unfold canonical_refs, count_naming. intros Hall. f_equal.
  apply List.filter_ext_in. intros dest Hin.
  rewrite forallb_forall in Hall. specialize (Hall _ Hin).
  apply String.eqb_eq in Hall. unfold names_port. rewrite Hall.
  apply String.eqb_sym.
Qed.

(** C3, as the code has it. Rule 5 counts the provider ports that carry a
    name and lie in a software component that carries a name. For such a
    port whose path [/component/port] no other such port has, in a document
    whose write accesses write their port references in the normal form:
    the rule emits for the port nothing when one reference names it, one
    finding when none does, and one finding with another message when two
    or more do. Every finding of the rule is located at such a port, so a
    port outside a component (that of a hardware block) yields none. *)
Theorem provider_port_cardinality (root : element) :
  (∀ (pport : node) (path : string) (l1 l2 : list (string * node)),
     keyed_pports root = l1 ++ (path, pport) :: l2
     → (path ∉ l1.*1)
     → (path ∉ l2.*1)
     → canonical_refs root "DATA-WRITE-ACCESS" = true
     → ∃ (port_name : string) (pre post : ref_count)
         (findings : list ValidationError),
         short_name (n_elem pport) = Some port_name
         ∧ rule_5_table root
           = pre ++ (path, (count_naming root "DATA-WRITE-ACCESS" path,
                            pport)) :: post
         ∧ (path ∉ pre.*1) ∧ (path ∉ post.*1)
         ∧ _validate_rule_5 root
           = flat_map rule_5_report pre ++ findings
             ++ flat_map rule_5_report post
         ∧ (count_naming root "DATA-WRITE-ACCESS" path = 1 → findings = [])
         ∧ (count_naming root "DATA-WRITE-ACCESS" path = 0
            → findings
              = [error 5 (rule_5_zero_msg port_name path) (n_path pport)])
         ∧ ((2 ≤ count_naming root "DATA-WRITE-ACCESS" path)%nat
            → findings
              = [error 5 (rule_5_many_msg
                            port_name path
                            (count_naming root "DATA-WRITE-ACCESS" path))
                       (n_path pport)])
         ∧ rule_5_zero_msg port_name path
           ≠ rule_5_many_msg port_name path
                             (count_naming root "DATA-WRITE-ACCESS" path))
  ∧ (∀ finding,
       finding ∈ _validate_rule_5 root
       → ∃ (path : string) (pport : node),
           (path, pport) ∈ keyed_pports root
           ∧ xpath finding = n_path pport
           ∧ rule_number finding = 5%Z)
  ∧ (keyed_pports root = [] → _validate_rule_5 root = []).
Proof.
  split; [|split].
  - intros pport path l1 l2 Hkeyed _ Hl2 Hcanon.
    rewrite (count_naming_canonical _ _ _ Hcanon).
    exact (rule_5_last_registered root pport path l1 l2 Hkeyed Hl2).
  - intros finding Hin. unfold _validate_rule_5 in Hin.
    apply list_elem_of_In, in_flat_map in Hin
      as ([path [count pport]] & Hentry & Hin).
    apply list_elem_of_In, rule_5_table_elem in Hentry.
    exists path, pport. split; [done|].
    simpl in Hin. destruct count as [|[|n]]; [|done|];
      by destruct Hin as [<-|[]].
  - unfold keyed_pports, _validate_rule_5, rule_5_table.
    rewrite keyed_ports_port_path. intros Hnil.
    by rewrite rule_5_register_keyed, Hnil, incr_fold_nil.
Qed.

(** The theorem on [doc_ports]: P0, P1 and P2 are named by no, one and two
    references; the rule emits the finding of the zero case for P0, that of
    the other case for P2 and nothing for P1. *)
Lemma provider_port_cardinality_witness :
  (count_naming doc_ports "DATA-WRITE-ACCESS" "/Swc1/P0" = 0
   ∧ count_naming doc_ports "DATA-WRITE-ACCESS" "/Swc1/P1" = 1
   ∧ count_naming doc_ports "DATA-WRITE-ACCESS" "/Swc1/P2" = 2)
  ∧ _validate_rule_5 doc_ports
    = [ error 5 (rule_5_zero_msg "P0" "/Swc1/P0") (n_path (port_node "0"));
        error 5 (rule_5_many_msg "P2" "/Swc1/P2" 2)
              (n_path (port_node "2")) ]
  ∧ (∃ pre post : ref_count,
       rule_5_table doc_ports
       = pre ++ ("/Swc1/P1", (1, port_node "1")) :: post
       ∧ ("/Swc1/P1" ∉ pre.*1) ∧ ("/Swc1/P1" ∉ post.*1)
       ∧ _validate_rule_5 doc_ports
         = flat_map rule_5_report pre ++ flat_map rule_5_report post)
  ∧ (∀ finding,
       finding ∈ _validate_rule_5 doc_hwip_port
       → ∃ (path : string) (pport : node),
           (path, pport) ∈ keyed_pports doc_hwip_port
           ∧ xpath finding = n_path pport
           ∧ rule_number finding = 5%Z)
  ∧ _validate_rule_5 doc_hwip_port = [].
Proof.
  split; [by vm_compute|]. split; [by vm_compute|]. split; [|split].
  - destruct (proj1 (provider_port_cardinality doc_ports)
                (port_node "1") "/Swc1/P1"
                [("/Swc1/P0", port_node "0")] [("/Swc1/P2", port_node "2")])
      as (port_name & pre & post & findings & _ & Htable & Hpre & Hpost
          & Hout & Hone & _).
    + vm_compute. reflexivity.
    + apply (bool_decide_unpack _). vm_compute. exact I.
    + apply (bool_decide_unpack _). vm_compute. exact I.
    + vm_compute. reflexivity.
    + exists pre, post. rewrite Hone in Hout by (by vm_compute).
      repeat split; done.
  - apply (proj1 (proj2 (provider_port_cardinality doc_hwip_port))).
  - apply (proj2 (proj2 (provider_port_cardinality doc_hwip_port))).
    vm_compute. reflexivity.
Defined.

(** C3, as the specification has it, fails for the provider port of a
    hardware block: the port is named, no write access refers to it (the
    document has none), and rule 5 emits nothing. It fails as well for two
    provider ports of one component that carry one name: no write access
    refers to either, and rule 5 emits one finding, at the second. *)
Lemma rule_5_ignores_hardware_ports :
  List.map (fun pport => short_name (n_elem pport))
           (xpath_all doc_hwip_port "P-PORT-PROTOTYPE") = [Some "HwOut"]
  ∧ xpath_all doc_hwip_port "DATA-WRITE-ACCESS" = []
  ∧ _validate_rule_5 doc_hwip_port = []
  ∧ List.map (fun pport => (short_name (n_elem pport), n_path pport))
             (xpath_all (doc_swc [p_port "P0"; p_port "P0"] [])
                        "P-PORT-PROTOTYPE")
    = [ (Some "P0",
         "/AUTOSAR/APPLICATION-SW-COMPONENT-TYPE/PORTS/P-PORT-PROTOTYPE[1]");
        (Some "P0",
         "/AUTOSAR/APPLICATION-SW-COMPONENT-TYPE/PORTS/P-PORT-PROTOTYPE[2]") ]
  ∧ _validate_rule_5 (doc_swc [p_port "P0"; p_port "P0"] [])
    = [ error 5 (rule_5_zero_msg "P0" "/Swc1/P0")
              "/AUTOSAR/APPLICATION-SW-COMPONENT-TYPE/PORTS/P-PORT-PROTOTYPE[2]" ].
Proof. vm_compute. repeat split. Qed.

(** Outside the references of the theorem. A reference written without
    its leading separator names the port in its normal form, and is not
    counted: the rule compares the DEST as it is written. *)
Lemma rule_5_compares_written_form :
  normal_form "Swc1/P1" = "/Swc1/P1"
  ∧ count_naming (doc_swc [p_port "P1"] [write_access "Swc1/P1"])
                 "DATA-WRITE-ACCESS" "/Swc1/P1" = 1
  ∧ _validate_rule_5 (doc_swc [p_port "P1"] [write_access "Swc1/P1"])
    = [ error 5 (rule_5_zero_msg "P1" "/Swc1/P1")
              "/AUTOSAR/APPLICATION-SW-COMPONENT-TYPE/PORTS/P-PORT-PROTOTYPE" ].
Proof. vm_compute. repeat split. Qed.

(** ** Rule 79 *)

(** What rule 79 emits for one mapping whose core id, cluster and number
    of cores are known. *)
Lemma rule_79_mapping_known
      (root : element) (mapping : node) (cluster_ref : string)
      (refs : list string) (cluster : node) (core_id cpc : Z) :
  Py.int (Py.strip (nget_or mapping "CoreId" EmptyString)) = Some core_id
  → parent_subtree_attr mapping "ClusterRef" = cluster_ref :: refs
  → resolve cluster_ref (cluster_index root) = Some cluster
  → cores_per_cluster cluster = Some cpc
  → rule_79_mapping (cluster_index root) mapping
    = if (cpc <=? core_id)%Z
      then [error 79
                  (core_id_msg core_id
                     (_extract_short_name_from_dest cluster_ref) cpc)
                  (n_path mapping)]
      else [].
Proof.
  intros Hid Href Hcluster Hcpc. unfold rule_79_mapping.
  destruct (String.eqb_spec
              (Py.strip (nget_or mapping "CoreId" EmptyString)) EmptyString)
    as [Hempty|_].
  - rewrite Hempty in Hid. by vm_compute in Hid.
  - rewrite Hid, Href. unfold resolve in Hcluster.
    by rewrite Hcluster, Hcpc.
Qed.

(** A finding of the body of rule 79 is located at its mapping. *)
Lemma rule_79_mapping_located
      (index : gmap string node) (mapping : node) (finding : ValidationError) :
  finding ∈ rule_79_mapping index mapping
  → xpath finding = n_path mapping ∧ rule_number finding = 79%Z.
Proof.
  unfold rule_79_mapping. intros Hin.
  repeat match type of Hin with
         | _ ∈ [] => by apply elem_of_nil in Hin
         | _ ∈ [_] => apply list_elem_of_singleton in Hin; by subst finding
         | _ ∈ (if ?b then _ else _) => destruct b
         | _ ∈ (match ?x with _ => _ end) => destruct x
         end.
Qed.

(** C5, as the code has it. For a prebuilt-application mapping whose core
    id is an integer, whose cluster reference resolves to a cluster, and
    whose cluster declares its number of cores (an attribute inside the
    cluster): a core id equal to that number minus one yields no finding
    of rule 79, a core id equal to that number yields one; more generally a
    core id from 0 up to that number, excluded, yields none and a core id
    from that number on yields one. Every finding of rule 79 is located at
    a prebuilt-application mapping, so a document without such mappings
    gets none; every finding of rule 10 is located at a runnable. *)
Theorem core_id_range_boundary (root : element) :
  (∀ (mapping : node) (before after : list node)
     (cluster_ref : string) (refs : list string) (cluster : node)
     (core_id cpc : Z),
     xpath_any root ["Core-PrebuiltApplication-Mapping";
                     "CorePrebuiltAppMapping"]
     = before ++ mapping :: after
     → Py.int (Py.strip (nget_or mapping "CoreId" EmptyString)) = Some core_id
     → parent_subtree_attr mapping "ClusterRef" = cluster_ref :: refs
     → resolve cluster_ref (cluster_index root) = Some cluster
     → cores_per_cluster cluster = Some cpc
     → ∃ findings : list ValidationError,
         _validate_rule_79 root
         = flat_map (rule_79_mapping (cluster_index root)) before
           ++ findings
           ++ flat_map (rule_79_mapping (cluster_index root)) after
         ∧ (core_id = (cpc - 1)%Z → findings = [])
         ∧ (core_id = cpc
            → findings
              = [error 79
                       (core_id_msg
                          core_id (_extract_short_name_from_dest cluster_ref)
                          cpc)
                       (n_path mapping)])
         ∧ ((0 ≤ core_id < cpc)%Z → findings = [])
         ∧ ((cpc ≤ core_id)%Z
            → findings
              = [error 79
                       (core_id_msg
                          core_id (_extract_short_name_from_dest cluster_ref)
                          cpc)
                       (n_path mapping)])
         ∧ (∃ elem : element,
               elem ∈ tail (subtree (n_elem cluster))
               ∧ Py.int (get_or elem "CoresPerCluster" EmptyString)
                 = Some cpc))
  ∧ (∀ finding,
       finding ∈ _validate_rule_79 root
       → ∃ mapping : node,
           mapping ∈ xpath_any root ["Core-PrebuiltApplication-Mapping";
                                     "CorePrebuiltAppMapping"]
           ∧ xpath finding = n_path mapping
           ∧ rule_number finding = 79%Z)
  ∧ (xpath_any root ["Core-PrebuiltApplication-Mapping";
                     "CorePrebuiltAppMapping"] = []
     → _validate_rule_79 root = [])
  ∧ (∀ finding,
       finding ∈ _validate_rule_10 root
       → ∃ runnable : node,
           runnable ∈ xpath_all root "RUNNABLE-ENTITY"
           ∧ xpath finding = n_path runnable
           ∧ rule_number finding = 10%Z).
Proof.
  split; [|split; [|split]].
  - intros mapping before after cluster_ref refs cluster core_id cpc
           Hmappings Hid Href Hcluster Hcpc.
    exists (rule_79_mapping (cluster_index root) mapping).
    split.
    { unfold _validate_rule_79. rewrite Hmappings, flat_map_app.
      reflexivity. }
    rewrite (rule_79_mapping_known root mapping cluster_ref refs cluster
               core_id cpc Hid Href Hcluster Hcpc).
    split; [|split; [|split; [|split]]].
    + intros ->. destruct (Z.leb_spec cpc (cpc - 1)); [lia|done].
    + intros ->. by rewrite Z.leb_refl.
    + intros [_ Hlt]. destruct (Z.leb_spec cpc core_id); [lia|done].
    + intros Hle. destruct (Z.leb_spec cpc core_id); [done|lia].
    + unfold cores_per_cluster in Hcpc.
      destruct (desc_with_attr (n_elem cluster) "CoresPerCluster")
        as [|elem elems] eqn:E; [done|].
      exists elem. split; [|done].
      assert (elem ∈ desc_with_attr (n_elem cluster) "CoresPerCluster")
        as Hin by (rewrite E; apply elem_of_cons; by left).
      unfold desc_with_attr in Hin. apply list_elem_of_In in Hin.
      apply filter_In in Hin as [Hin _]. by apply list_elem_of_In.
  - intros finding Hin. unfold _validate_rule_79 in Hin.
    apply list_elem_of_In, in_flat_map in Hin as (mapping & Hmapping & Hin).
    exists mapping. split; [by apply list_elem_of_In|].
    by apply (rule_79_mapping_located (cluster_index root)), list_elem_of_In.
  - unfold _validate_rule_79. by intros ->.
  - intros finding Hin. unfold _validate_rule_10 in Hin.
    apply list_elem_of_In, in_flat_map in Hin as (runnable & Hrunnable & Hin).
    exists runnable. split; [by apply list_elem_of_In|].
    destruct (short_name (n_elem runnable)) as [name|]; [|done].
    destruct (1 <? _)%nat; [|done]. by destruct Hin as [<-|[]].
Qed.

(** The theorem on a cluster with four cores: a prebuilt-application
    mapping onto core 3 gets no finding of rule 79, one onto core 4 gets
    one. *)
Lemma core_id_range_boundary_witness :
  _validate_rule_79 (doc_core_id "4" "3") = []
  ∧ _validate_rule_79 (doc_core_id "4" "4")
    = [error 79 (core_id_msg 4 "Cl0" 4) (n_path (core_mapping_node "4" "4"))]
  ∧ (∃ elem : element,
        elem ∈ tail (subtree (n_elem (cluster_cl0_node "4" "4")))
        ∧ get_or elem "CoresPerCluster" EmptyString = "4").
Proof.
  split; [|split].
  - destruct (proj1 (core_id_range_boundary (doc_core_id "4" "3"))
                (core_mapping_node "4" "3") [] []
                "/Ecu/Soc/Cl0" [] (cluster_cl0_node "4" "3") 3%Z 4%Z)
      as (findings & Hout & Hbelow & _);
      [vm_compute; reflexivity ..|].
    rewrite Hout, (Hbelow eq_refl). reflexivity.
  - destruct (proj1 (core_id_range_boundary (doc_core_id "4" "4"))
                (core_mapping_node "4" "4") [] []
                "/Ecu/Soc/Cl0" [] (cluster_cl0_node "4" "4") 4%Z 4%Z)
      as (findings & Hout & _ & Hequal & _);
      [vm_compute; reflexivity ..|].
    rewrite Hout, (Hequal eq_refl). reflexivity.
  - exists (El "CortexA53" [("CoresPerCluster", "4")] [SN "Cl0"]).
    split; [|vm_compute; reflexivity].
    vm_compute. apply list_elem_of_further, list_elem_of_here.
Defined.

(** C5, as the specification has it, fails for a runnable mapping: one
    onto core 4 of a cluster with 4 cores gets no finding, neither from
    rule 79 nor from rule 10. *)
Lemma core_id_outside_range_not_reported :
  List.map (fun mapping =>
              (mapping_core_id mapping,
               mapping_cores (doc_runnable_core_id "4" "4") mapping))
           (xpath_any (doc_runnable_core_id "4" "4")
                      ["Core-Runnable-Mapping"; "CoreRunnableMapping"])
  = [(Some 4%Z, Some 4%Z)]
  ∧ xpath_any (doc_runnable_core_id "4" "4")
              ["Core-PrebuiltApplication-Mapping"; "CorePrebuiltAppMapping"]
    = []
  ∧ _validate_rule_79 (doc_runnable_core_id "4" "4") = []
  ∧ _validate_rule_10 (doc_runnable_core_id "4" "4") = [].
Proof. vm_compute. repeat split. Qed.

(** Below the interval: the rule compares a core id with the number of
    cores only, and a prebuilt-application mapping onto core -1 gets no
    finding. *)
Lemma core_id_below_zero_not_reported :
  List.map (fun mapping =>
              (mapping_core_id mapping,
               mapping_cores (doc_core_id "4" "-1") mapping))
           (xpath_any (doc_core_id "4" "-1")
                      ["Core-PrebuiltApplication-Mapping";
                       "CorePrebuiltAppMapping"])
  = [(Some (-1)%Z, Some 4%Z)]
  ∧ _validate_rule_79 (doc_core_id "4" "-1") = [].
Proof. vm_compute. repeat split. Qed.

(** ** Rule 76 (HW) *)

Lemma rule_76_hw_not_linux (clusters : list node) :
  (∀ c, c ∈ clusters → is_linux c = false)
  → flat_map rule_76_hw_cluster clusters = [].
Proof.
  induction clusters as [|c clusters IH]; intros H; simpl; [done|].
  unfold rule_76_hw_cluster at 1.
  rewrite (H c) by (apply elem_of_cons; by left). simpl.
  apply IH. intros c' Hc'. apply H, elem_of_cons. by right.
Qed.

Lemma os_node_is_linux_iff (os_node : node) :
  os_node_is_linux os_node = true
  ↔ xpath_desc os_node "Linux" ≠ []
    ∨ ∃ t : string,
        text (n_elem os_node) = Some t
        ∧ Py.contains "linux" (Py.lower t) = true.
Proof.
  unfold os_node_is_linux.
  destruct (xpath_desc os_node "Linux") as [|l ls]; [|split; [by left|done]].
  destruct (text (n_elem os_node)) as [t|].
  - split.
    + intros [_ H]%andb_true_iff. right. by exists t.
    + intros [?|(t' & [= <-] & H)]; [done|].
      apply andb_true_iff. split; [|done].
      destruct t; [by vm_compute in H | done].
  - split; [done|]. by intros [?|(t' & ? & _)].
Qed.

(** The test of the rule is that a cluster declares Linux. *)
Lemma is_linux_declares (cluster : node) :
  is_linux cluster = true ↔ declares_linux cluster.
Proof.
  unfold is_linux, declares_linux.
  rewrite orb_true_iff, !existsb_exists. split.
  - intros [(os_node & Hin & Hos)|(m & Hin & Hm)]; [left | right].
    + exists os_node. split; [by apply list_elem_of_In|].
      by apply os_node_is_linux_iff.
    + exists m. split; [by apply list_elem_of_In|].
      by apply orb_true_iff.
  - intros [(os_node & Hin & Hos)|(m & Hin & Hm)]; [left | right].
    + exists os_node. split; [by apply list_elem_of_In|].
      by apply os_node_is_linux_iff.
    + exists m. split; [by apply list_elem_of_In|].
      by apply orb_true_iff.
Qed.

(** The value the rule reads from a Frequency element. *)
Lemma freq_value_of_written (freq_node : node) (raw : string) :
  frequency_written freq_node raw → freq_value_of freq_node = Py.strip raw.
Proof.
  unfold frequency_written, freq_value_of, nget_or, get_or, nget. cbv zeta.
  intros [[Hvalue Hstrip]|[Hblank Htext]].
  - rewrite Hvalue. simpl. by rewrite (proj2 (String.eqb_neq _ _) Hstrip).
  - rewrite Hblank, Htext. by rewrite String.eqb_refl.
Qed.

(** C7. A document holds one cluster that declares Linux in its
    operating-system subtree (an operating-system element with a Linux
    element below it), no other cluster declares Linux, and the cluster has
    a single Frequency element, which gives a value. When the value is an
    integer other than 1000000000 the rule emits exactly one finding, at
    the Frequency element; when it is 1000000000 the rule emits nothing.
    (A value that is not blank and no integer also yields exactly one
    finding.) *)
Theorem linux_frequency_policy
        (root : element) (cluster os_node freq_node : node)
        (before after : list node) (raw : string) :
  xpath_any root ["CPU_Cluster"; "CPU-Cluster"; "CPUCluster"]
  = before ++ cluster :: after
  → (∀ c, c ∈ before ++ after → ¬ declares_linux c)
  → os_node ∈ xpath_desc_any cluster
                 ["Operating-System"; "OS"; "OperatingSystem"]
  → xpath_desc os_node "Linux" ≠ []
  → xpath_desc cluster "Frequency" = [freq_node]
  → frequency_written freq_node raw
  → (∀ v : Z,
        Py.int (Py.strip raw) = Some v
        → v ≠ 1000000000%Z
        → _validate_rule_76_hw_frequency root
          = [error 76 (freq_invalid_msg (cluster_display_name cluster) v)
                   (n_path freq_node)])
    ∧ (Py.int (Py.strip raw) = Some 1000000000%Z
       → _validate_rule_76_hw_frequency root = [])
    ∧ (Py.int (Py.strip raw) = None
       → Py.strip raw ≠ EmptyString
       → _validate_rule_76_hw_frequency root
         = [error 76
                  (freq_not_numeric_msg (cluster_display_name cluster)
                                        (Py.strip raw))
                  (n_path freq_node)]).
Proof.
  intros Hclusters Hothers Hos Hlinux Hfreq Hraw.
  assert (is_linux cluster = true) as Hl.
  { apply is_linux_declares. left. exists os_node. split; [done|by left]. }
  assert (∀ c, c ∈ before ++ after → is_linux c = false) as Hothers'.
  { intros c Hc. destruct (is_linux c) eqn:E; [|done].
    exfalso. by apply (Hothers c Hc), is_linux_declares. }
  assert (_validate_rule_76_hw_frequency root
          = check_frequency (cluster_display_name cluster) freq_node) as ->.
  { unfold _validate_rule_76_hw_frequency.
    rewrite Hclusters, flat_map_app. simpl.
    rewrite !rule_76_hw_not_linux.
    - unfold rule_76_hw_cluster. rewrite Hl, Hfreq. simpl.
      by rewrite ?List.app_nil_r.
    - intros c Hc. apply Hothers', elem_of_app. by right.
    - intros c Hc. apply Hothers', elem_of_app. by left. }
  unfold check_frequency. rewrite (freq_value_of_written _ _ Hraw).
  split; [|split].
  - intros v Hv Hne. rewrite Hv.
    destruct (String.eqb_spec (Py.strip raw) EmptyString) as [He|_].
    { rewrite He in Hv. by vm_compute in Hv. }
    by rewrite (proj2 (Z.eqb_neq v required_frequency) Hne).
  - intros Hv. rewrite Hv.
    destruct (String.eqb_spec (Py.strip raw) EmptyString) as [He|_]; done.
  - intros Hv Hne. by rewrite Hv, (proj2 (String.eqb_neq _ _) Hne).
Qed.

(** The theorem on a document with one Linux cluster, named Cl0: the
    frequency 800000000 yields one finding, 1000000000 none, and a word one
    finding. *)
Lemma linux_frequency_policy_witness :
  _validate_rule_76_hw_frequency (doc_linux "800000000")
  = [error 76 (freq_invalid_msg "Cl0" 800000000)
           "/AUTOSAR/CPU_Cluster/ARMV8-Family/CortexA72/Frequency"]
  ∧ _validate_rule_76_hw_frequency (doc_linux "1000000000") = []
  ∧ _validate_rule_76_hw_frequency (doc_linux "fast")
    = [error 76 (freq_not_numeric_msg "Cl0" "fast")
             "/AUTOSAR/CPU_Cluster/ARMV8-Family/CortexA72/Frequency"].
Proof.
  split; [|split].
  - destruct (linux_frequency_policy
                (doc_linux "800000000") (linux_cluster_node "800000000")
                (operating_system_node "800000000")
                (frequency_node "800000000") [] [] "800000000")
      as (Hother & _ & _).
    + vm_compute. reflexivity.
    + intros c Hc. simpl in Hc. by apply elem_of_nil in Hc.
    + vm_compute. apply list_elem_of_here.
    + vm_compute. discriminate.
    + vm_compute. reflexivity.
    + left. split; [vm_compute; reflexivity | vm_compute; discriminate].
    + rewrite (Hother 800000000%Z); [reflexivity | by vm_compute | done].
  - destruct (linux_frequency_policy
                (doc_linux "1000000000") (linux_cluster_node "1000000000")
                (operating_system_node "1000000000")
                (frequency_node "1000000000") [] [] "1000000000")
      as (_ & Hsame & _).
    + vm_compute. reflexivity.
    + intros c Hc. simpl in Hc. by apply elem_of_nil in Hc.
    + vm_compute. apply list_elem_of_here.
    + vm_compute. discriminate.
    + vm_compute. reflexivity.
    + left. split; [vm_compute; reflexivity | vm_compute; discriminate].
    + apply Hsame. vm_compute. reflexivity.
  - destruct (linux_frequency_policy
                (doc_linux "fast") (linux_cluster_node "fast")
                (operating_system_node "fast")
                (frequency_node "fast") [] [] "fast")
      as (_ & _ & Hword).
    + vm_compute. reflexivity.
    + intros c Hc. simpl in Hc. by apply elem_of_nil in Hc.
    + vm_compute. apply list_elem_of_here.
    + vm_compute. discriminate.
    + vm_compute. reflexivity.
    + left. split; [vm_compute; reflexivity | vm_compute; discriminate].
    + rewrite Hword; [reflexivity | by vm_compute | by vm_compute].
Defined.

(** ** Rules 22, 23 and 63 *)







(** ** Identifier naming *)

Lemma lstrip_with_empty (p : ascii → bool) (s : string) :
  Py.lstrip_with p s = EmptyString ↔ Py.all_chars p s = true.
Proof.
  induction s as [|c s IH]; simpl; [done|].
  destruct (p c); simpl; [exact IH | done].
Qed.

Lemma lstrip_with_last_char (p : ascii → bool) (s : string) (c : ascii) :
  Py.lstrip_with p s = String c EmptyString → Py.last_char s = Some c.
Proof.
  induction s as [|d s IH]; simpl; [done|].
  destruct (p d).
  - intros H. specialize (IH H). destruct s; [done | exact IH].
  - by intros [= -> ->].
Qed.

(** On a name that does not end with a newline the helper decides as the
    specification says. *)
Lemma validate_c_identifier_agrees (name : string) :
  Py.last_char name ≠ Some Py.nl
  → (_validate_c_identifier name).1 = spec_accepts_identifier name.
Proof.
  intros Hlast.
  assert (c_identifier_pattern_match name = spec_identifier_shape name) as H.
  { destruct name as [|c rest]; simpl; [done|]. f_equal.
    destruct (Py.all_chars ident_char rest) eqn:Hall.
    - apply lstrip_with_empty in Hall. by rewrite Hall.
    - destruct (String.eqb_spec (Py.lstrip_with ident_char rest) EmptyString)
        as [He|_]; [apply lstrip_with_empty in He; congruence|].
      destruct (String.eqb_spec (Py.lstrip_with ident_char rest)
                                (String Py.nl EmptyString)) as [Hn|_]; [|done].
      apply lstrip_with_last_char in Hn. exfalso. apply Hlast.
      simpl. destruct rest; [done | exact Hn]. }
  unfold _validate_c_identifier, spec_accepts_identifier. rewrite H.
  destruct (spec_identifier_shape name); simpl; [|done].
  by destruct (bool_decide (name ∈ c_keywords)).
Qed.

(** Every naming rule reports an element exactly when the helper rejects
    its name. *)
Lemma name_findings_by_helper (rule : Z) (what : string) (n : node) :
  name_findings rule what n = []
  ↔ match short_name (n_elem n) with
    | Some name => (_validate_c_identifier name).1 = true
    | None => True
    end.
Proof.
  unfold name_findings. destruct (short_name (n_elem n)) as [name|]; [|done].
  destruct (_validate_c_identifier name) as [[|] msg]; simpl; done.
Qed.

(** C9, where the code departs from it. A name that ends with a newline
    does not match the identifier pattern in full, and the specification
    rejects it; the helper accepts it, because [$] in the pattern also
    matches before a final newline, and so do the naming rules for
    runnables and SoCs. The same holds for a keyword followed by a
    newline. *)
Theorem c_identifier_accepts_trailing_newline :
  spec_accepts_identifier name_nl = false
  ∧ _validate_c_identifier name_nl = (true, EmptyString)
  ∧ _validate_rule_7 doc_newline_name = []
  ∧ _validate_rule_46 doc_newline_name = []
  ∧ spec_accepts_identifier ("int" +:+ String Py.nl EmptyString) = false
  ∧ _validate_c_identifier ("int" +:+ String Py.nl EmptyString)
    = (true, EmptyString)
  ∧ _validate_c_identifier "int" = (false, c_keyword_msg).
Proof. vm_compute. repeat split. Qed.

(** * Further properties *)

(** ** Stages and verdicts *)

Section StageVerdicts.

Variable W : World.
Variable self : ValidationPipeline.

Lemma validate_xsd_decides (xml_file : string) :
  decides (_validate_xsd self xml_file).
Proof.
  unfold decides, _validate_xsd.
  destruct (xsd_schema self) as [schema|]; [|by eexists _, _, _].
  destruct (schema_truth schema); simpl; [|by eexists _, _, _].
  destruct (schema_is_valid schema xml_file) as [[|]|e]; simpl;
    try by eexists _, _, _.
  destruct (schema_iter_errors schema xml_file) as [[|err errs]|e]; simpl;
    by eexists _, _, _.
Qed.

Lemma or_else_not_nil (errors : list string) (alt : string) :
  or_else errors [alt] ≠ [].
Proof. by destruct errors. Qed.

Lemma schematron_verdict_decides (result : CompletedProcess) :
  (schematron_verdict W result).1 = true
  ↔ (schematron_verdict W result).2 = [].
Proof.
  unfold schematron_verdict.
  repeat match goal with |- context [if ?b then _ else _] => destruct b end;
    simpl; try done.
  split; [done|]. intros H. by apply or_else_not_nil in H.
Qed.

Lemma validate_schematron_decides (xml_file : string) :
  decides (_validate_schematron W self xml_file).
Proof.
  unfold decides, _validate_schematron.
  destruct (venv_exists W) as [venv|e]; simpl.
  - match goal with |- context [subprocess_run W ?cmd] =>
      destruct (subprocess_run W cmd) as [result|e] end; simpl.
    + pose proof (schematron_verdict_decides result) as Hd.
      destruct (schematron_verdict W result) as [passed errors].
      by eexists _, _, _.
    + destruct (is_timeout e); by eexists _, _, _.
  - destruct (is_timeout e); by eexists _, _, _.
Qed.

Lemma validate_python_decides (xml_file : string) :
  decides (_validate_python W self xml_file).
Proof.
  unfold decides, _validate_python.
  destruct (python_validate_file W xml_file (check_filesystem self))
    as [[|err errors]|e]; simpl; by eexists _, _, _.
Qed.

Lemma validate_file_verdicts (xml_file : string) :
  ∃ (r : ValidationResult) (evs : list event),
    validate_file W self xml_file = (Returned r, evs)
    ∧ file_path r = xml_file
    ∧ (xsd_passed r = true ↔ xsd_errors r = [])
    ∧ (schematron_passed r = true ↔ schematron_errors r = [])
    ∧ (python_passed r = true ↔ python_errors r = [])
    ∧ (is_valid r = true ↔ total_errors r = 0).
Proof.
  destruct (validate_xsd_decides xml_file) as (xp & xe & evx & Hx & Hxe).
  destruct (validate_schematron_decides xml_file)
    as (sp & se & evs & Hs & Hse).
  destruct (validate_python_decides xml_file) as (pp & pe & evp & Hp & Hpe).
  assert (∃ evs',
             validate_file W self xml_file
             = (Returned (mkValidationResult xml_file xp xe sp se pp pe), evs'))
    as [evs' Hrun].
  { unfold validate_file. rewrite Hx, Hs, Hp. simpl.
    destruct pe as [|e pe]; simpl; [by eexists|].
    destruct pp; [by destruct Hpe as [Hpe _]; specialize (Hpe eq_refl)|].
    by eexists. }
  eexists _, _. split; [exact Hrun|]. simpl.
  split; [done|]. split; [done|]. split; [done|]. split; [done|].
  unfold is_valid, total_errors. simpl. split.
  - intros H. apply andb_prop in H as [H Hpp]. apply andb_prop in H as [Hxp Hsp].
    apply Hxe in Hxp. apply Hse in Hsp. apply Hpe in Hpp. by subst.
  - intros H.
    destruct xe, se, pe; simpl in H; try lia.
    by rewrite (proj2 Hxe), (proj2 Hse), (proj2 Hpe).
Qed.

Lemma validate_file_result (xml_file : string) :
  ∃ evs : list event,
    validate_file W self xml_file = (Returned (result_of W self xml_file), evs).
Proof.
  destruct (validate_file_verdicts xml_file) as (r & evs & Hrun & _).
  unfold result_of. rewrite Hrun. by eexists.
Qed.

(** [validate_file] returns a result for the file it was given, whatever
    the tools answer. In that result a stage is marked passed exactly when
    its error list is empty; so the file is valid exactly when the total
    number of errors is zero. *)
Theorem stage_passed_iff_no_errors (xml_file : string) :
  ∃ (r : ValidationResult) (evs : list event),
    validate_file W self xml_file = (Returned r, evs)
    ∧ file_path r = xml_file
    ∧ (xsd_passed r = true ↔ xsd_errors r = [])
    ∧ (schematron_passed r = true ↔ schematron_errors r = [])
    ∧ (python_passed r = true ↔ python_errors r = [])
    ∧ (is_valid r = true ↔ total_errors r = 0).
Proof. exact (validate_file_verdicts xml_file). Qed.

(** The Schematron stage passes exactly when the subprocess ran, returned
    status 0, and its output carries neither failure mark; the pass marks
    play no role. *)
Theorem schematron_passes_iff (xml_file : string) :
  ∃ (passed : bool) (errors : list string) (evs : list event),
    _validate_schematron W self xml_file = (Returned (passed, errors), evs)
    ∧ (passed = true
       ↔ ∃ (venv : bool) (result : CompletedProcess),
           venv_exists W = Returned venv
           ∧ subprocess_run W
               [if venv then ".venv/Scripts/python.exe" else "python";
                validator_path self; schematron_file self; xml_file]
             = Returned result
           ∧ returncode result = 0%Z
           ∧ has_failed_token (process_output result) = false).
Proof.
  assert (∀ result,
             (schematron_verdict W result).1 = true
             ↔ returncode result = 0%Z
               ∧ has_failed_token (process_output result) = false) as Hv.
  { intros result. unfold schematron_verdict.
    fold (process_output result). fold (has_failed_token (process_output result)).
    destruct (Z.eqb_spec (returncode result) 0) as [Hrc|Hrc];
      destruct (has_failed_token (process_output result));
      destruct (Py.contains "[PASS]" (process_output result)
                || Py.contains "PASSED" (process_output result));
      simpl; split; try done; intros [? ?]; done. }
  unfold _validate_schematron.
  destruct (venv_exists W) as [venv|e] eqn:Hvenv; simpl.
  - match goal with |- context [subprocess_run W ?cmd] =>
      destruct (subprocess_run W cmd) as [result|e] eqn:Hrun end; simpl.
    + destruct (schematron_verdict W result) as [passed errors] eqn:Hverdict.
      eexists _, _, _. split; [reflexivity|].
      specialize (Hv result). rewrite Hverdict in Hv. simpl in Hv.
      rewrite Hv. split.
      * intros [Hrc Htok]. by exists venv, result.
      * intros (venv' & result' & [= <-] & Hrun' & Hrc & Htok).
        rewrite Hrun in Hrun'. by injection Hrun' as <-.
    + destruct (is_timeout e); eexists _, _, _; (split; [reflexivity|]);
        (split; [done|]);
        intros (venv' & result' & [= <-] & Hrun' & _); congruence.
  - destruct (is_timeout e); eexists _, _, _; (split; [reflexivity|]);
      (split; [done|]); intros (venv' & result' & [=] & _).
Qed.

(** The loop over the files of a directory returns; afterwards every file
    of the list has its result stored, and the other entries are as they
    were. *)
Lemma validate_files_returns (xml_files : list string)
      (results : gmap string ValidationResult) :
  ∃ evs : list event,
    validate_files W self xml_files results
    = (Returned
         (fold_left (fun m f => <[f := result_of W self f]> m)
                    xml_files results),
       evs).
Proof.
  revert results. induction xml_files as [|f files IH]; intros results; simpl.
  - by eexists.
  - destruct (validate_file_result f) as [evs Hf].
    unfold mbind, M_bind. rewrite Hf.
    destruct (IH (<[f := result_of W self f]> results)) as [evs' ->].
    by eexists.
Qed.

Lemma stored_results_lookup (xml_files : list string)
      (results : gmap string ValidationResult) (f : string) :
  fold_left (fun m f => <[f := result_of W self f]> m) xml_files results !! f
  = if bool_decide (f ∈ xml_files) then Some (result_of W self f)
    else results !! f.
Proof.
  revert results.
  induction xml_files as [|g files IH]; intros results; cbn [fold_left].
  - case_bool_decide; [|done]. by apply elem_of_nil in H.
  - rewrite IH. repeat case_bool_decide; try done.
    + exfalso. apply H0, elem_of_cons. by right.
    + apply elem_of_cons in H0 as [->|?]; [|done].
      by rewrite lookup_insert_eq.
    + rewrite lookup_insert_ne; [done|].
      intros <-. apply H0, elem_of_cons. by left.
Qed.

(** A run over the files of a directory, started with no results, stores a
    result for exactly the files of the list, and the exit status computed
    from the results is 0 exactly when no stage of any file reported an
    error. *)
Theorem exit_status_zero_iff_no_errors (xml_files : list string) :
  ∃ (results : gmap string ValidationResult) (evs : list event),
    validate_files W self xml_files ∅ = (Returned results, evs)
    ∧ (∀ f, results !! f
            = if bool_decide (f ∈ xml_files) then Some (result_of W self f)
              else None)
    ∧ (exit_status results = 0%Z
       ↔ ∀ f, f ∈ xml_files → total_errors (result_of W self f) = 0).
Proof.
  destruct (validate_files_returns xml_files ∅) as [evs Hrun].
  eexists _, _. split; [exact Hrun|].
  assert (∀ f,
             fold_left (fun m f => <[f := result_of W self f]> m) xml_files
                       (∅ : gmap string ValidationResult)
             !! f
             = if bool_decide (f ∈ xml_files) then Some (result_of W self f)
               else None) as Hlookup.
  { intros f. rewrite stored_results_lookup. by rewrite lookup_empty. }
  split; [exact Hlookup|].
  assert (∀ f, is_valid (result_of W self f) = true
               ↔ total_errors (result_of W self f) = 0) as Hvalid.
  { intros f.
    destruct (validate_file_verdicts f) as (r & evs' & Hr & _ & _ & _ & _ & H).
    unfold result_of. by rewrite Hr. }
  unfold exit_status. split.
  - intros H f Hf. apply Hvalid.
    destruct (bool_decide _) eqn:Hall in H; [|done].
    apply bool_decide_eq_true_1 in Hall.
    apply (Hall f). rewrite Hlookup. by rewrite bool_decide_eq_true_2.
  - intros H. rewrite bool_decide_eq_true_2; [done|].
    intros f r Hfr. rewrite Hlookup in Hfr.
    destruct (decide (f ∈ xml_files)) as [Hin|Hin].
    + rewrite bool_decide_eq_true_2 in Hfr by done.
      injection Hfr as <-. by apply Hvalid, H.
    + by rewrite bool_decide_eq_false_2 in Hfr.
Qed.

End StageVerdicts.

(** ** References and indices *)

Lemma split_segments_no_sep (sep : ascii) (s : string) :
  Forall (fun seg => Py.all_chars (fun c => negb (Ascii.eqb c sep)) seg = true)
         (Py.split sep s).
Proof.
  induction s as [|c s IH]; simpl.
  - by repeat constructor.
  - destruct (Ascii.eqb c sep) eqn:Hc.
    + by constructor.
    + destruct (Py.split sep s) as [|seg rest].
      * constructor; [|done]. simpl. by rewrite Hc.
      * apply Forall_cons in IH as [Hseg Hrest].
        constructor; [|done]. simpl. by rewrite Hc, Hseg.
Qed.

Lemma last_item_elem (l : list string) : l ≠ [] → Py.last_item l ∈ l.
Proof.
  unfold Py.last_item. induction l as [|x l IH]; [done|]. intros _.
  destruct l as [|y l]; [apply list_elem_of_here|].
  apply elem_of_cons. right. by apply IH.
Qed.

Lemma last_item_split_empty (sep : ascii) (s : string) :
  Py.last_item (Py.split sep s) = EmptyString
  → s = EmptyString ∨ Py.last_char s = Some sep.
Proof.
  unfold Py.last_item. induction s as [|c s IH]; [by left|].
  simpl. destruct (Ascii.eqb_spec c sep) as [->|Hne].
  - pose proof (split_nonempty sep s) as Hs.
    destruct (Py.split sep s) as [|seg rest] eqn:E; [done|].
    intros H. right. destruct (IH H) as [->|Hl]; [done|].
    by destruct s.
  - pose proof (split_nonempty sep s) as Hs.
    destruct (Py.split sep s) as [|seg rest] eqn:E; [done|].
    destruct rest as [|seg' rest]; [done|].
    intros H. right. destruct (IH H) as [->|Hl]; [done|].
    by destruct s.
Qed.

Lemma strip_with_all (p : ascii → bool) (s : string) :
  Py.all_chars p s = true ↔ Py.strip_with p s = EmptyString.
Proof.
  split.
  - intros H. unfold Py.strip_with.
    by rewrite (proj2 (lstrip_with_empty p s) H).
  - intros H. destruct (strip_with_split p s) as (pre & suf & Hs & Hpre & Hsuf & _).
    rewrite H in Hs. simpl in Hs. rewrite Hs, all_chars_app.
    by rewrite Hpre, Hsuf.
Qed.

Lemma first_last_char_nonempty (s : string) :
  s ≠ EmptyString
  → ∃ a b, Py.first_char s = Some a ∧ Py.last_char s = Some b.
Proof.
  induction s as [|c s IH]; [done|]. intros _.
  destruct s as [|d s]; [by exists c, c|].
  destruct IH as (a & b & _ & Hb); [done|]. by exists c, b.
Qed.

Lemma extract_shape (dest : string) :
  Py.all_chars (fun c => negb (Py.is_slash c))
               (_extract_short_name_from_dest dest) = true
  ∧ (_extract_short_name_from_dest dest = EmptyString
     ↔ Py.all_chars Py.is_slash (Py.strip dest) = true).
Proof.
  assert (_extract_short_name_from_dest dest
          = Py.last_item (Py.split "/" (_normalize_dest_path dest))) as ->.
  { unfold _extract_short_name_from_dest.
    pose proof (split_nonempty "/" (_normalize_dest_path dest)).
    by destruct (Py.split "/" (_normalize_dest_path dest)). }
  assert (∀ s, Py.all_chars (λ c, Py.mem_char c "/") s
               = Py.all_chars Py.is_slash s) as Hslash.
  { intros s. induction s as [|c s IH]; [done|].
    cbn [Py.all_chars]. rewrite IH. unfold Py.is_slash. simpl.
    by rewrite orb_false_r. }
  split.
  - pose proof (split_segments_no_sep "/" (_normalize_dest_path dest)) as Hall.
    rewrite Forall_forall in Hall. apply Hall.
    apply last_item_elem, split_nonempty.
  - unfold _normalize_dest_path, Py.strip_chars.
    rewrite <- Hslash, strip_with_all. split.
    + intros H. apply last_item_split_empty in H as [H|H]; [done|].
      destruct (strip_with_split (λ c, Py.mem_char c "/") (Py.strip dest))
        as (_ & _ & _ & _ & _ & Htrim).
      destruct (Py.strip_with _ (Py.strip dest)) as [|c s] eqn:E; [done|].
      destruct (first_last_char_nonempty (String c s)) as (a & b & Ha & Hb);
        [done|].
      unfold Py.trimmed in Htrim. rewrite Ha, Hb in Htrim.
      rewrite H in Hb. injection Hb as <-. simpl in Htrim.
      by rewrite andb_false_r in Htrim.
    + by intros ->.
Qed.

Lemma strip_with_idempotent (p : ascii → bool) (s : string) :
  Py.strip_with p (Py.strip_with p s) = Py.strip_with p s.
Proof.
  destruct (strip_with_split p s) as (_ & _ & _ & _ & _ & Htrim).
  destruct (Py.strip_with p s) as [|c t] eqn:E; [done|].
  destruct (first_last_char_nonempty (String c t)) as (a & b & Ha & Hb);
    [done|].
  unfold Py.trimmed in Htrim. rewrite Ha, Hb in Htrim.
  apply andb_prop in Htrim as [Hpa Hpb].
  apply negb_true_iff in Hpa, Hpb.
  unfold Py.strip_with at 1.
  rewrite (lstrip_with_first p (String c t)) by (by rewrite Ha).
  apply rstrip_with_last. by rewrite Hb.
Qed.

Lemma extract_strip (dest : string) :
  _extract_short_name_from_dest (Py.strip dest)
  = _extract_short_name_from_dest dest.
Proof.
  unfold _extract_short_name_from_dest, _normalize_dest_path, Py.strip.
  by rewrite strip_with_idempotent.
Qed.

(** What [_extract_short_name_from_dest] returns never holds a separator;
    it is empty exactly when the reference, white space at its ends aside,
    consists of separators only (a blank reference included); and white
    space around the reference does not change it. *)
Theorem extracted_short_name_shape (dest : string) :
  Py.all_chars (fun c => negb (Py.is_slash c))
               (_extract_short_name_from_dest dest) = true
  ∧ (_extract_short_name_from_dest dest = EmptyString
     ↔ Py.all_chars Py.is_slash (Py.strip dest) = true)
  ∧ _extract_short_name_from_dest (Py.strip dest)
    = _extract_short_name_from_dest dest.
Proof.
  destruct (extract_shape dest) as [H1 H2].
  split; [exact H1|]. split; [exact H2|]. apply extract_strip.
Qed.

Lemma cluster_index_fold (clusters : list node) (index : gmap string node)
      (name : string) :
  fold_left
    (fun index cluster =>
       match desc_attr (n_elem cluster) "SHORT-NAME" "name" with
       | name :: _ => <[name := cluster]> index
       | [] => index
       end) clusters index !! name
  = match last (List.filter
                  (fun cluster => bool_decide (cluster_name cluster = Some name))
                  clusters) with
    | Some cluster => Some cluster
    | None => index !! name
    end.
Proof.
  revert index. induction clusters as [|c clusters IH]; intros index;
    cbn [fold_left List.filter]; [done|].
  rewrite IH. case_bool_decide as Hn; unfold cluster_name in Hn.
  - destruct (desc_attr (n_elem c) "SHORT-NAME" "name") as [|n names];
      [done|].
    injection Hn as ->. rewrite last_cons.
    destruct (last _); [done|]. by rewrite lookup_insert_eq.
  - destruct (last _); [done|].
    destruct (desc_attr (n_elem c) "SHORT-NAME" "name") as [|n names];
      [done|].
    rewrite lookup_insert_ne; [done|]. by intros ->.
Qed.

Lemma cluster_index_last (root : element) (name : string) :
  cluster_index root !! name = last (clusters_named root name).
Proof.
  unfold cluster_index, clusters_named. rewrite cluster_index_fold.
  rewrite lookup_empty. by destruct (last _).
Qed.

(** The cluster index maps a name to the last CPU_Cluster of the document
    that carries it as its first SHORT-NAME: a later cluster replaces an
    earlier one of the same name, and a name that no cluster carries is not
    in the index. *)
Theorem cluster_index_lookup (root : element) (name : string) :
  cluster_index root !! name = last (clusters_named root name)
  ∧ (cluster_index root !! name = None
     ↔ ∀ cluster,
         cluster ∈ xpath_all root "CPU_Cluster"
         → cluster_name cluster ≠ Some name).
Proof.
  split; [apply cluster_index_last|].
  rewrite cluster_index_last. unfold clusters_named.
  generalize (xpath_all root "CPU_Cluster"). intros l.
  induction l as [|c l IH]; cbn [List.filter].
  - split; [|done]. intros _ c Hc. by apply elem_of_nil in Hc.
  - case_bool_decide as Hn.
    + rewrite last_cons. split.
      * by destruct (last _).
      * intros H. exfalso. apply (H c); [apply list_elem_of_here|done].
    + rewrite IH. split.
      * intros H c' [->|Hc']%elem_of_cons; [done|]. by apply H.
      * intros H c' Hc'. apply H, elem_of_cons. by right.
Qed.

Lemma last_is_Some_iff {A} (l : list A) : is_Some (last l) ↔ l ≠ [].
Proof.
  destruct l as [|x l]; simpl.
  - split; [by intros [? ?] | done].
  - split; [done|]. intros _. rewrite last_cons. destruct (last l); by eexists.
Qed.

(** Rule 76b is silent exactly when every HW-SW-MAPPING with a cluster
    reference that is not blank names, by the last segment of the
    reference, a cluster of the document; a mapping without reference is
    passed over, and every finding carries the number 76. *)
Theorem cluster_refs_resolve_iff_silent (root : element) :
  (_validate_rule_76b root = []
   ↔ ∀ mapping,
       mapping ∈ xpath_all root "HW-SW-MAPPING"
       → mapping_cluster_ref mapping ≠ EmptyString
       → clusters_named
           root (_extract_short_name_from_dest (mapping_cluster_ref mapping))
         ≠ [])
  ∧ (∀ finding,
        finding ∈ _validate_rule_76b root → rule_number finding = 76%Z).
Proof.
  assert (∀ mapping,
             rule_76b_mapping (cluster_index root) mapping = []
             ↔ (mapping_cluster_ref mapping ≠ EmptyString
                → clusters_named
                    root
                    (_extract_short_name_from_dest (mapping_cluster_ref mapping))
                  ≠ [])) as Hone.
  { intros mapping. unfold rule_76b_mapping. fold (mapping_cluster_ref mapping).
    destruct (String.eqb_spec (mapping_cluster_ref mapping) EmptyString)
      as [He|Hne]; [done|].
    rewrite cluster_index_last. case_bool_decide as Hl.
    - apply last_is_Some_iff in Hl. done.
    - split; [done|]. intros H. exfalso. apply Hl, last_is_Some_iff. by apply H. }
  split.
  - unfold _validate_rule_76b. rewrite flat_map_nil_iff.
    split; intros H mapping Hin; [by apply Hone, H | by apply Hone, H].
  - intros finding Hin. unfold _validate_rule_76b in Hin.
    apply list_elem_of_In, in_flat_map in Hin as (mapping & _ & Hin).
    unfold rule_76b_mapping in Hin.
    destruct (String.eqb _ _); [done|].
    destruct (bool_decide _); [done|].
    by destruct Hin as [<-|[]].
Qed.

Lemma rule_79_mapping_cases (root : element) (mapping : node) :
  rule_79_mapping (cluster_index root) mapping
  = match mapping_core_id mapping, mapping_cores root mapping with
    | Some core_id, Some cpc =>
        if (cpc <=? core_id)%Z
        then match parent_subtree_attr mapping "ClusterRef" with
             | cluster_ref :: _ =>
                 [error 79
                        (core_id_msg core_id
                           (_extract_short_name_from_dest cluster_ref) cpc)
                        (n_path mapping)]
             | [] => []
             end
        else []
    | _, _ => []
    end.
Proof.
  unfold rule_79_mapping, mapping_core_id, mapping_cores, resolve.
  destruct (String.eqb_spec (Py.strip (nget_or mapping "CoreId" EmptyString))
                            EmptyString) as [->|_].
  - by vm_compute.
  - destruct (Py.int _) as [core_id|]; [|done].
    destruct (parent_subtree_attr mapping "ClusterRef") as [|ref refs];
      [done|].
    destruct (cluster_index root !! _) as [cluster|]; simpl; [|done].
    destruct (cores_per_cluster cluster) as [cpc|]; [|done].
    by destruct (cpc <=? core_id)%Z.
Qed.

(** Rule 79 emits at most one finding for a mapping, and none for a mapping
    whose core id is missing, blank or no integer, or whose cluster
    reference is missing, does not resolve, or resolves to a cluster
    without an integer number of cores. The rule is silent exactly when
    every mapping that has both a core id and a number of cores has its
    core id below that number. *)
Theorem core_id_rule_silent_iff (root : element) :
  (∀ mapping,
      (length (rule_79_mapping (cluster_index root) mapping) ≤ 1)%nat
      ∧ (mapping_core_id mapping = None
         → rule_79_mapping (cluster_index root) mapping = [])
      ∧ (mapping_cores root mapping = None
         → rule_79_mapping (cluster_index root) mapping = []))
  ∧ (_validate_rule_79 root = []
     ↔ ∀ mapping core_id cpc,
         mapping ∈ xpath_any root ["Core-PrebuiltApplication-Mapping";
                                   "CorePrebuiltAppMapping"]
         → mapping_core_id mapping = Some core_id
         → mapping_cores root mapping = Some cpc
         → (core_id < cpc)%Z).
Proof.
  split.
  - intros mapping. rewrite rule_79_mapping_cases.
    destruct (mapping_core_id mapping) as [core_id|];
      destruct (mapping_cores root mapping) as [cpc|]; simpl;
      repeat split; try done; try lia.
    destruct (cpc <=? core_id)%Z; simpl; [|lia].
    destruct (parent_subtree_attr mapping "ClusterRef"); simpl; lia.
  - unfold _validate_rule_79. rewrite flat_map_nil_iff. split.
    + intros H mapping core_id cpc Hin Hid Hcpc.
      specialize (H mapping Hin). rewrite rule_79_mapping_cases in H.
      rewrite Hid, Hcpc in H.
      destruct (Z.leb_spec cpc core_id); [|done].
      unfold mapping_cores in Hcpc.
      by destruct (parent_subtree_attr mapping "ClusterRef").
    + intros H mapping Hin. rewrite rule_79_mapping_cases.
      destruct (mapping_core_id mapping) as [core_id|] eqn:Hid; [|done].
      destruct (mapping_cores root mapping) as [cpc|] eqn:Hcpc; [|done].
      specialize (H mapping core_id cpc Hin Hid Hcpc).
      destruct (Z.leb_spec cpc core_id); [lia|done].
Qed.

(** ** Rule 6 on arbitrary documents *)

Lemma first_path_app (name : string) (l l' : list (string * string)) :
  first_path name (l ++ l')
  = match first_path name l with
    | Some path => Some path
    | None => first_path name l'
    end.
Proof.
  induction l as [|[n path] l IH]; simpl; [done|].
  by destruct (String.eqb n name).
Qed.

Lemma first_path_None (name : string) (l : list (string * string)) :
  first_path name l = None ↔ name ∉ l.*1.
Proof.
  induction l as [|[n path] l IH]; simpl.
  - split; [|done]. intros _ H. by apply elem_of_nil in H.
  - rewrite not_elem_of_cons, <- IH.
    destruct (String.eqb_spec n name) as [->|Hne]; [naive_solver|].
    split; [by intros H; split; [congruence|] | by intros [_ H]].
Qed.

(** After the loop of rule 6 has read [l], [name_to_paths] maps a name to
    the path of its first entry, and reading one more entry adds a finding
    exactly when its name is in the map. *)
Lemma rule_6_scan_snoc (l : list (string * string)) :
  (∀ name, (fold_left rule_6_scan l (∅, [])).1 !! name = first_path name l)
  ∧ ∀ name path,
      (fold_left rule_6_scan (l ++ [(name, path)]) (∅, [])).2
      = (fold_left rule_6_scan l (∅, [])).2
        ++ match first_path name l with
           | Some previous => [error 6 (rule_6_msg name previous) path]
           | None => []
           end.
Proof.
  induction l as [|[n p] l [IHm IHe]] using rev_ind.
  - split; [done|]. intros name path. by cbn.
  - assert (∀ name,
               (fold_left rule_6_scan (l ++ [(n, p)]) (∅, [])).1 !! name
               = first_path name (l ++ [(n, p)])) as Hm.
    { intros name. rewrite fold_left_app, first_path_app. cbn [fold_left].
      unfold rule_6_scan at 1. cbn [fst snd].
      rewrite (IHm n). specialize (IHm name).
      destruct (first_path n l) as [prev|] eqn:E; cbn [fst].
      - rewrite IHm. destruct (first_path name l) eqn:E'; [done|].
        simpl. destruct (String.eqb_spec n name) as [->|]; [congruence|done].
      - simpl. destruct (String.eqb_spec n name) as [->|Hne].
        + by rewrite lookup_insert_eq, E.
        + rewrite lookup_insert_ne by done. rewrite IHm.
          by destruct (first_path name l). }
    split; [exact Hm|]. intros name path.
    rewrite (fold_left_app _ (l ++ [(n, p)])). cbn [fold_left].
    unfold rule_6_scan at 1. cbn [fst snd]. rewrite Hm.
    destruct (first_path name (l ++ [(n, p)])); cbn [snd]; [done|].
    by rewrite app_nil_r.
Qed.

(** Rule 6 is silent exactly when the names of the runnables that carry one
    are pairwise distinct; runnables without a name never matter. *)
Theorem runnable_names_distinct_iff_silent (root : element) :
  _validate_rule_6 root = [] ↔ NoDup (named_runnables root).*1.
Proof.
  unfold _validate_rule_6, named_runnables. rewrite rule_6_fold_scan.
  generalize (omap (λ runnable,
                      (λ name, (name, n_path runnable))
                        <$> short_name (n_elem runnable))
                   (xpath_all root "RUNNABLE-ENTITY")).
  intros l. induction l as [|[n p] l IH] using rev_ind.
  - split; [intros _; constructor | done].
  - rewrite (proj2 (rule_6_scan_snoc l)), fmap_app, NoDup_app. simpl.
    split.
    + intros [Hl Hn]%app_eq_nil. split; [by apply IH|]. split.
      * intros x Hx [Hxn|Hx']%elem_of_cons; [|by apply elem_of_nil in Hx'].
        subst x. apply (first_path_None n l); [|done].
        by destruct (first_path n l).
      * apply NoDup_singleton.
    + intros (Hl & Hn & _). rewrite (proj2 IH Hl). simpl.
      rewrite (proj2 (first_path_None n l)); [done|].
      intros Hin. apply (Hn n Hin). apply list_elem_of_here.
Qed.

(** The findings of rule 6 are exactly these: one for every named runnable
    whose name an earlier runnable carries, reported at the later runnable
    and quoting the path of the first runnable of that name, also when the
    name occurs three times or more. *)
Theorem duplicate_runnable_quotes_first_occurrence
        (root : element) (finding : ValidationError) :
  finding ∈ _validate_rule_6 root
  ↔ ∃ (before after : list (string * string)) (name path previous : string),
      named_runnables root = before ++ (name, path) :: after
      ∧ first_path name before = Some previous
      ∧ finding = error 6 (rule_6_msg name previous) path.
Proof.
  unfold _validate_rule_6, named_runnables. rewrite rule_6_fold_scan.
  generalize (omap (λ runnable,
                      (λ name, (name, n_path runnable))
                        <$> short_name (n_elem runnable))
                   (xpath_all root "RUNNABLE-ENTITY")).
  intros l. induction l as [|[n p] l IH] using rev_ind.
  - split.
    + intros H. by apply elem_of_nil in H.
    + intros (before & after & name & path & previous & Hl & _).
      by destruct before.
  - rewrite (proj2 (rule_6_scan_snoc l)), elem_of_app. split.
    + intros [Hin|Hin].
      * apply IH in Hin
          as (before & after & name & path & previous & -> & Hf & ->).
        exists before, (after ++ [(n, p)]), name, path, previous.
        by rewrite <- app_assoc.
      * destruct (first_path n l) as [previous|] eqn:E;
          [|by apply elem_of_nil in Hin].
        apply list_elem_of_singleton in Hin as ->.
        by exists l, [], n, p, previous.
    + intros (before & after & name & path & previous & Hl & Hf & ->).
      destruct after as [|a after _] using rev_ind.
      * apply app_inj_tail in Hl as [-> [= -> ->]].
        right. rewrite Hf. apply list_elem_of_here.
      * rewrite app_comm_cons, app_assoc in Hl.
        apply app_inj_tail in Hl as [-> _].
        left. apply IH. by exists before, after, name, path, previous.
Qed.

(** ** Rules 9 and 10: runnables and their mappings *)

Lemma mapping_counts_fold (mappings : list node) (counts : gmap string nat)
      (name : string) :
  default 0
    (fold_left
       (fun counts mapping =>
          let runnable_ref :=
            Py.strip (default EmptyString (nget mapping "RunnableRef")) in
          if String.eqb runnable_ref EmptyString then counts
          else
            let short := _extract_short_name_from_dest runnable_ref in
            if String.eqb short EmptyString then counts
            else <[short := S (default 0 (counts !! short))]> counts)
       mappings counts !! name)
  = (default 0 (counts !! name)
     + length (List.filter
                 (fun mapping =>
                    bool_decide (mapping_target mapping = Some name))
                 mappings))%nat.
Proof.
  revert counts. induction mappings as [|m mappings IH]; intros counts;
    cbn [fold_left List.filter]; [simpl; lia|].
  rewrite IH. cbv zeta.
  set (ref := Py.strip (default EmptyString (nget m "RunnableRef"))).
  assert (mapping_target m
          = if String.eqb ref EmptyString then None
            else if String.eqb (_extract_short_name_from_dest ref) EmptyString
                 then None
                 else Some (_extract_short_name_from_dest ref)) as -> by done.
  destruct (String.eqb ref EmptyString).
  { by rewrite bool_decide_eq_false_2. }
  destruct (String.eqb (_extract_short_name_from_dest ref) EmptyString).
  { by rewrite bool_decide_eq_false_2. }
  case_bool_decide as Hn.
  - injection Hn as <-. rewrite lookup_insert_eq. simpl. lia.
  - rewrite lookup_insert_ne; [done|]. congruence.
Qed.

Lemma mapping_counts_lookup (root : element) (name : string) :
  default 0 (runnable_mapping_counts root !! name) = times_mapped root name.
Proof.
  unfold runnable_mapping_counts, times_mapped.
  rewrite mapping_counts_fold. by rewrite lookup_empty.
Qed.

(** Rule 10 counts, for a runnable name, the mappings whose RunnableRef is
    not blank and ends in that name. Every runnable whose name is counted
    twice or more is reported with that count, once for each runnable that
    carries the name, and the rule is silent exactly when no named runnable
    is counted more than once. *)
Theorem runnable_mapped_twice_reported (root : element) :
  (∀ runnable name,
      runnable ∈ xpath_all root "RUNNABLE-ENTITY"
      → short_name (n_elem runnable) = Some name
      → (2 ≤ times_mapped root name)%nat
      → error 10 (rule_10_msg name (times_mapped root name))
              (n_path runnable)
        ∈ _validate_rule_10 root)
  ∧ (_validate_rule_10 root = []
     ↔ ∀ runnable name,
         runnable ∈ xpath_all root "RUNNABLE-ENTITY"
         → short_name (n_elem runnable) = Some name
         → (times_mapped root name ≤ 1)%nat).
Proof.
  assert (_validate_rule_10 root
          = flat_map (rule_10_runnable (runnable_mapping_counts root))
                     (xpath_all root "RUNNABLE-ENTITY")) as -> by done.
  split.
  - intros runnable name Hin Hname Hcount.
    apply list_elem_of_In, in_flat_map. exists runnable.
    split; [by apply list_elem_of_In|].
    unfold rule_10_runnable. rewrite Hname, mapping_counts_lookup.
    destruct (Nat.ltb_spec 1 (times_mapped root name)); [|lia].
    by left.
  - rewrite flat_map_nil_iff. split.
    + intros H runnable name Hin Hname. specialize (H runnable Hin).
      unfold rule_10_runnable in H.
      rewrite Hname, mapping_counts_lookup in H.
      by destruct (Nat.ltb_spec 1 (times_mapped root name)).
    + intros H runnable Hin. unfold rule_10_runnable.
      destruct (short_name (n_elem runnable)) as [name|] eqn:Hname; [|done].
      rewrite mapping_counts_lookup. specialize (H runnable name Hin Hname).
      destruct (Nat.ltb_spec 1 (times_mapped root name)); [lia|done].
Qed.

Lemma runnable_index_fold (runnables : list node) (index : gmap string node)
      (name : string) :
  is_Some
    (fold_left
       (fun index runnable =>
          match index_name (n_elem runnable) with
          | Some name => <[name := runnable]> index
          | None => index
          end) runnables index !! name)
  ↔ is_Some (index !! name)
    ∨ ∃ runnable,
        runnable ∈ runnables ∧ index_name (n_elem runnable) = Some name.
Proof.
  revert index. induction runnables as [|r runnables IH]; intros index;
    cbn [fold_left].
  - split; [by left|]. intros [H|(r & Hr & _)]; [done|].
    by apply elem_of_nil in Hr.
  - rewrite IH. split.
    + intros [H|(r' & Hr' & Hn)].
      * destruct (index_name (n_elem r)) as [n|] eqn:E; [|by left].
        destruct (decide (n = name)) as [->|Hne].
        -- right. exists r. split; [apply list_elem_of_here|done].
        -- rewrite lookup_insert_ne in H by done. by left.
      * right. exists r'. split; [|done]. apply elem_of_cons. by right.
    + intros [H|(r' & [->|Hr']%elem_of_cons & Hn)].
      * left. destruct (index_name (n_elem r)) as [n|]; [|done].
        destruct (decide (n = name)) as [->|Hne].
        -- rewrite lookup_insert_eq. by eexists.
        -- by rewrite lookup_insert_ne.
      * left. rewrite Hn, lookup_insert_eq. by eexists.
      * right. by exists r'.
Qed.

Lemma rule_9_collect_step (index : gmap string node)
      (st : gset string * list string) (mapping : node) :
  rule_9_collect index st mapping
  = (match mapping_target mapping with
     | Some name =>
         if bool_decide (is_Some (index !! name)) then {[name]} ∪ st.1
         else st.1
     | None => st.1
     end,
     st.2 ++ match mapping_ref mapping with
             | Some runnable_ref => [runnable_ref]
             | None => []
             end).
Proof.
  unfold rule_9_collect, mapping_target, mapping_ref. cbv zeta.
  destruct st as [mapped refs]. cbn [fst snd].
  destruct (String.eqb _ EmptyString); [by rewrite app_nil_r|].
  destruct (String.eqb _ EmptyString); cbn [negb andb]; [done|].
  by destruct (bool_decide _).
Qed.

Lemma rule_9_collect_fold (index : gmap string node) (mappings : list node)
      (st : gset string * list string) :
  (∀ name,
      name ∈ (fold_left (rule_9_collect index) mappings st).1
      ↔ name ∈ st.1
        ∨ (is_Some (index !! name)
           ∧ ∃ mapping,
               mapping ∈ mappings ∧ mapping_target mapping = Some name))
  ∧ (fold_left (rule_9_collect index) mappings st).2
    = st.2 ++ omap mapping_ref mappings.
Proof.
  revert st. induction mappings as [|m mappings IH]; intros st;
    cbn [fold_left omap].
  - split; [|by rewrite app_nil_r]. intros name.
    split; [by left|]. intros [H|(_ & m & Hm & _)]; [done|].
    by apply elem_of_nil in Hm.
  - destruct (IH (rule_9_collect index st m)) as [IHm IHr].
    rewrite rule_9_collect_step in IHm, IHr. cbn [fst snd] in IHm, IHr.
    split.
    + intros name. rewrite rule_9_collect_step, IHm.
      destruct (mapping_target m) as [n|] eqn:Ht.
      * case_bool_decide as Hi.
        -- rewrite elem_of_union, elem_of_singleton. split.
           ++ intros [[->|H]|(Hi' & m' & Hm' & Ht')]; [|by left|].
              ** right. split; [done|]. exists m.
                 split; [apply list_elem_of_here|done].
              ** right. split; [done|]. exists m'. split; [|done].
                 apply elem_of_cons. by right.
           ++ intros [H|(Hi' & m' & [->|Hm']%elem_of_cons & Ht')].
              ** left. by right.
              ** left. left. congruence.
              ** right. split; [done|]. by exists m'.
        -- split.
           ++ intros [H|(Hi' & m' & Hm' & Ht')]; [by left|].
              right. split; [done|]. exists m'. split; [|done].
              apply elem_of_cons. by right.
           ++ intros [H|(Hi' & m' & [->|Hm']%elem_of_cons & Ht')];
                [by left| |].
              ** exfalso. apply Hi. congruence.
              ** right. split; [done|]. by exists m'.
      * split.
        -- intros [H|(Hi' & m' & Hm' & Ht')]; [by left|].
           right. split; [done|]. exists m'. split; [|done].
           apply elem_of_cons. by right.
        -- intros [H|(Hi' & m' & [->|Hm']%elem_of_cons & Ht')];
             [by left|congruence|].
           right. split; [done|]. by exists m'.
    + rewrite rule_9_collect_step, IHr.
      rewrite <- app_assoc. f_equal. cbn [omap list_omap].
      by destruct (mapping_ref m).
Qed.

Lemma times_mapped_pos (root : element) (name : string) :
  (1 ≤ times_mapped root name)%nat
  ↔ ∃ mapping,
      mapping ∈ xpath_any root ["Core-Runnable-Mapping"; "CoreRunnableMapping"]
      ∧ mapping_target mapping = Some name.
Proof.
  unfold times_mapped.
  generalize (xpath_any root ["Core-Runnable-Mapping"; "CoreRunnableMapping"]).
  intros l. induction l as [|m l IH]; cbn [List.filter].
  - simpl. split; [lia|]. intros (m & Hm & _). by apply elem_of_nil in Hm.
  - case_bool_decide as Hm.
    + simpl. split; [|lia]. intros _. exists m.
      split; [apply list_elem_of_here|done].
    + rewrite IH. split.
      * intros (m' & Hm' & Ht). exists m'. split; [|done].
        apply elem_of_cons. by right.
      * intros (m' & [->|Hm']%elem_of_cons & Ht); [done|]. by exists m'.
Qed.

Lemma rule_9_mapped (root : element) (name : string) :
  name ∈ (fold_left (rule_9_collect (runnable_index root))
                    (xpath_any root ["Core-Runnable-Mapping";
                                     "CoreRunnableMapping"])
                    (∅, [])).1
  ↔ (1 ≤ times_mapped root name)%nat
    ∧ ∃ runnable,
        runnable ∈ xpath_all root "RUNNABLE-ENTITY"
        ∧ index_name (n_elem runnable) = Some name.
Proof.
  rewrite (proj1 (rule_9_collect_fold _ _ _)), times_mapped_pos.
  unfold runnable_index. rewrite runnable_index_fold, lookup_empty.
  split.
  - intros [H|([H|H] & Hm)]; [by apply elem_of_empty in H| |done].
    by destruct H.
  - intros [Hm Hr]. right. split; [by right|done].
Qed.

(** Rule 9 takes a runnable as mapped when a mapping's RunnableRef, not
    blank, ends in its SHORT-NAME and some runnable is indexed under that
    name (by its own name attribute when it has one, else by its
    SHORT-NAME). Every other named runnable is reported, with the first ten
    references of the document in the message; the rule is silent exactly
    when every named runnable is mapped in this sense. *)
Theorem unmapped_runnable_reported (root : element) :
  (∀ runnable name,
      runnable ∈ xpath_all root "RUNNABLE-ENTITY"
      → short_name (n_elem runnable) = Some name
      → ¬ is_mapped root name
      → error 9 (rule_9_msg name (rule_9_found_refs (mapping_refs root)))
              (n_path runnable)
        ∈ _validate_rule_9 root)
  ∧ (_validate_rule_9 root = []
     ↔ ∀ runnable name,
         runnable ∈ xpath_all root "RUNNABLE-ENTITY"
         → short_name (n_elem runnable) = Some name
         → is_mapped root name).
Proof.
  unfold _validate_rule_9, is_mapped. split.
  - intros runnable name Hin Hname Hnot.
    apply list_elem_of_In, in_flat_map. exists runnable.
    split; [by apply list_elem_of_In|].
    unfold rule_9_runnable. rewrite Hname.
    rewrite bool_decide_eq_false_2 by (by rewrite rule_9_mapped).
    rewrite (proj2 (rule_9_collect_fold _ _ _)). by left.
  - rewrite flat_map_nil_iff. split.
    + intros H runnable name Hin Hname. specialize (H runnable Hin).
      unfold rule_9_runnable in H. rewrite Hname in H.
      case_bool_decide as Hm; [|done]. by apply rule_9_mapped in Hm.
    + intros H runnable Hin. unfold rule_9_runnable.
      destruct (short_name (n_elem runnable)) as [name|] eqn:Hname; [|done].
      rewrite bool_decide_eq_true_2; [done|].
      apply rule_9_mapped. by apply (H runnable).
Qed.

(** A runnable that the index holds under its SHORT-NAME, as every runnable
    without a name attribute of its own is, never contributes both a
    finding of rule 9 (not mapped) and a finding of rule 10 (mapped more
    than once). *)
Theorem unmapped_and_mapped_twice_exclude (root : element) (runnable : node) :
  runnable ∈ xpath_all root "RUNNABLE-ENTITY"
  → index_name (n_elem runnable) = short_name (n_elem runnable)
  → rule_9_runnable (rule_9_state root).1 (rule_9_state root).2 runnable = []
    ∨ rule_10_runnable (runnable_mapping_counts root) runnable = [].
Proof.
  intros Hin Hindex. unfold rule_9_runnable, rule_10_runnable.
  destruct (short_name (n_elem runnable)) as [name|] eqn:Hname; [|by left].
  rewrite mapping_counts_lookup.
  destruct (Nat.ltb_spec 1 (times_mapped root name)) as [Hc|Hc]; [|by right].
  left. rewrite bool_decide_eq_true_2; [done|].
  apply rule_9_mapped. split; [lia|]. by exists runnable.
Qed.

Lemma unmapped_and_mapped_twice_exclude_witness :
  rule_9_runnable (rule_9_state (doc_runnable_core_id "4" "0")).1
                  (rule_9_state (doc_runnable_core_id "4" "0")).2
                  (node_at (doc_runnable_core_id "4" "0") 7) = []
  ∨ rule_10_runnable (runnable_mapping_counts (doc_runnable_core_id "4" "0"))
                     (node_at (doc_runnable_core_id "4" "0") 7) = [].
Proof.
  apply (unmapped_and_mapped_twice_exclude
           (doc_runnable_core_id "4" "0")
           (node_at (doc_runnable_core_id "4" "0") 7)).
  - vm_compute. apply list_elem_of_here.
  - vm_compute. reflexivity.
Defined.

(** ** Indices keyed by a name, and the references they resolve *)

Lemma index_fold_is_Some (key : node → option string) (nodes : list node)
      (index : gmap string node) (name : string) :
  is_Some
    (fold_left
       (fun index n =>
          match key n with
          | Some k => <[k := n]> index
          | None => index
          end) nodes index !! name)
  ↔ is_Some (index !! name) ∨ ∃ n, n ∈ nodes ∧ key n = Some name.
Proof.
  revert index. induction nodes as [|r nodes IH]; intros index;
    cbn [fold_left].
  - split; [by left|]. intros [H|(r & Hr & _)]; [done|].
    by apply elem_of_nil in Hr.
  - rewrite IH. split.
    + intros [H|(r' & Hr' & Hn)].
      * destruct (key r) as [n|] eqn:E; [|by left].
        destruct (decide (n = name)) as [->|Hne].
        -- right. exists r. split; [apply list_elem_of_here|done].
        -- rewrite lookup_insert_ne in H by done. by left.
      * right. exists r'. split; [|done]. apply elem_of_cons. by right.
    + intros [H|(r' & [->|Hr']%elem_of_cons & Hn)].
      * left. destruct (key r) as [n|]; [|done].
        destruct (decide (n = name)) as [->|Hne].
        -- rewrite lookup_insert_eq. by eexists.
        -- by rewrite lookup_insert_ne.
      * left. rewrite Hn, lookup_insert_eq. by eexists.
      * right. by exists r'.
Qed.

Lemma index_is_Some (key : node → option string) (nodes : list node)
      (name : string) :
  is_Some
    (fold_left
       (fun index n =>
          match key n with
          | Some k => <[k := n]> index
          | None => index
          end) nodes (∅ : gmap string node) !! name)
  ↔ ∃ n, n ∈ nodes ∧ key n = Some name.
Proof.
  rewrite index_fold_is_Some, lookup_empty. split; [|by right].
  intros [H|H]; [by destruct H | done].
Qed.

Lemma rule_3_dest_nil (index : gmap string node) (port : node)
      (dest : string) :
  rule_3_dest index port dest = []
  ↔ _extract_short_name_from_dest dest ≠ EmptyString
    ∧ is_Some (index !! _extract_short_name_from_dest dest).
Proof.
  unfold rule_3_dest. cbv zeta.
  destruct (String.eqb_spec (_extract_short_name_from_dest dest) EmptyString)
    as [He|Hne]; cbn [negb andb].
  - split; [done | by intros [? _]].
  - case_bool_decide as Hi; cbn [negb]; split; try done. by intros [_ ?].
Qed.

(** Rule 3 is silent exactly when every interface reference of every port
    (the DEST of a PROVIDED-INTERFACE-TREF or REQUIRED-INTERFACE-TREF below
    a provider or require port, in a component or a hardware block) ends
    in a segment that is not empty and under which a
    SENDER-RECEIVER-INTERFACE is indexed; a reference whose last segment
    names no interface is reported with that segment, and a reference that
    is blank or made of separators only is reported as empty or invalid. *)
Theorem interface_refs_resolve_iff_silent (root : element) :
  (_validate_rule_3 root = []
   ↔ ∀ port dest,
       port ∈ xpath_any root ["P-PORT-PROTOTYPE"; "R-PORT-PROTOTYPE"]
       → dest ∈ desc_attr (n_elem port) "PROVIDED-INTERFACE-TREF" "DEST"
                ++ desc_attr (n_elem port) "REQUIRED-INTERFACE-TREF" "DEST"
       → _extract_short_name_from_dest dest ≠ EmptyString
         ∧ ∃ sri,
             sri ∈ xpath_all root "SENDER-RECEIVER-INTERFACE"
             ∧ index_name (n_elem sri)
               = Some (_extract_short_name_from_dest dest))
  ∧ (∀ port dest,
        port ∈ xpath_any root ["P-PORT-PROTOTYPE"; "R-PORT-PROTOTYPE"]
        → dest ∈ desc_attr (n_elem port) "PROVIDED-INTERFACE-TREF" "DEST"
                 ++ desc_attr (n_elem port) "REQUIRED-INTERFACE-TREF" "DEST"
        → _extract_short_name_from_dest dest ≠ EmptyString
        → (∀ sri,
              sri ∈ xpath_all root "SENDER-RECEIVER-INTERFACE"
              → index_name (n_elem sri)
                ≠ Some (_extract_short_name_from_dest dest))
        → error 3 (rule_3_unresolved_msg
                     dest (_extract_short_name_from_dest dest))
                (n_path port)
          ∈ _validate_rule_3 root)
  ∧ (∀ port dest,
        port ∈ xpath_any root ["P-PORT-PROTOTYPE"; "R-PORT-PROTOTYPE"]
        → dest ∈ desc_attr (n_elem port) "PROVIDED-INTERFACE-TREF" "DEST"
                 ++ desc_attr (n_elem port) "REQUIRED-INTERFACE-TREF" "DEST"
        → Py.all_chars Py.is_slash (Py.strip dest) = true
        → error 3 rule_3_empty_msg (n_path port) ∈ _validate_rule_3 root).
Proof.
  assert (∀ port dest finding,
             port ∈ xpath_any root ["P-PORT-PROTOTYPE"; "R-PORT-PROTOTYPE"]
             → dest ∈ desc_attr (n_elem port) "PROVIDED-INTERFACE-TREF" "DEST"
                      ++ desc_attr (n_elem port)
                                   "REQUIRED-INTERFACE-TREF" "DEST"
             → finding ∈ rule_3_dest (sri_index root) port dest
             → finding ∈ _validate_rule_3 root) as Hcontains.
  { intros port dest finding Hport Hdest Hfinding.
    apply list_elem_of_In, in_flat_map. exists port.
    split; [by apply list_elem_of_In|].
    apply in_flat_map. exists dest. split; by apply list_elem_of_In. }
  split; [|split].
  - unfold _validate_rule_3. rewrite flat_map_nil_iff. split.
    + intros H port dest Hport Hdest.
      specialize (H port Hport). rewrite flat_map_nil_iff in H.
      apply H, rule_3_dest_nil in Hdest as [Hne Hi]. split; [done|].
      unfold sri_index in Hi.
      by apply (index_is_Some (λ n, index_name (n_elem n))) in Hi.
    + intros H port Hport. rewrite flat_map_nil_iff. intros dest Hdest.
      apply rule_3_dest_nil. destruct (H port dest Hport Hdest) as [Hne Hi].
      split; [done|]. unfold sri_index.
      by apply (index_is_Some (λ n, index_name (n_elem n))).
  - intros port dest Hport Hdest Hne Hnone.
    apply (Hcontains port dest); [done|done|].
    unfold rule_3_dest. cbv zeta.
    rewrite (proj2 (String.eqb_neq _ _) Hne). cbn [negb andb].
    rewrite bool_decide_eq_false_2; [apply list_elem_of_here|].
    intros Hi. unfold sri_index in Hi.
    apply (index_is_Some (λ n, index_name (n_elem n))) in Hi
      as (sri & Hsri & Hname).
    by apply (Hnone sri).
  - intros port dest Hport Hdest Hblank.
    apply (Hcontains port dest); [done|done|].
    unfold rule_3_dest. cbv zeta.
    rewrite (proj2 (proj2 (extract_shape dest)) Hblank).
    apply list_elem_of_here.
Qed.

(** The theorem on two documents with the interface If1: a component whose
    ports refer to [/Ifs/If1], where the rule is silent, and one whose
    require port refers to an interface that does not exist and whose
    provider port has a reference of separators only. *)
Lemma interface_refs_resolve_iff_silent_witness :
  (_validate_rule_3
     (doc_interface_refs [p_port_with "P1" "/Ifs/If1";
                          r_port_with "R1" "/Other/If1"]) = []
   ∧ ∀ port dest,
       port ∈ xpath_any
                (doc_interface_refs [p_port_with "P1" "/Ifs/If1";
                                     r_port_with "R1" "/Other/If1"])
                ["P-PORT-PROTOTYPE"; "R-PORT-PROTOTYPE"]
       → dest ∈ desc_attr (n_elem port) "PROVIDED-INTERFACE-TREF" "DEST"
                ++ desc_attr (n_elem port) "REQUIRED-INTERFACE-TREF" "DEST"
       → _extract_short_name_from_dest dest ≠ EmptyString
         ∧ ∃ sri,
             sri ∈ xpath_all
                     (doc_interface_refs [p_port_with "P1" "/Ifs/If1";
                                          r_port_with "R1" "/Other/If1"])
                     "SENDER-RECEIVER-INTERFACE"
             ∧ index_name (n_elem sri)
               = Some (_extract_short_name_from_dest dest))
  ∧ _validate_rule_3
      (doc_interface_refs [p_port_with "P1" "//";
                           r_port_with "R1" "/Ifs/Missing"])
    = [ error 3 rule_3_empty_msg
              "/AUTOSAR/APPLICATION-SW-COMPONENT-TYPE/PORTS/P-PORT-PROTOTYPE";
        error 3 (rule_3_unresolved_msg "/Ifs/Missing" "Missing")
              "/AUTOSAR/APPLICATION-SW-COMPONENT-TYPE/PORTS/R-PORT-PROTOTYPE" ]
  ∧ List.map (fun port =>
                desc_attr (n_elem port) "PROVIDED-INTERFACE-TREF" "DEST"
                ++ desc_attr (n_elem port) "REQUIRED-INTERFACE-TREF" "DEST")
             (xpath_any
                (doc_interface_refs [p_port_with "P1" "//";
                                     r_port_with "R1" "/Ifs/Missing"])
                ["P-PORT-PROTOTYPE"; "R-PORT-PROTOTYPE"])
    = [["//"]; ["/Ifs/Missing"]].
Proof.
  split; [|by vm_compute].
  split; [by vm_compute|].
  apply (proj1 (interface_refs_resolve_iff_silent
                  (doc_interface_refs [p_port_with "P1" "/Ifs/If1";
                                       r_port_with "R1" "/Other/If1"]))).
  vm_compute. reflexivity.
Defined.

Lemma check_mapping_ref_nil (rule : Z) (kind attr target : string)
      (index : gmap string node) (mapping : node) :
  check_mapping_ref rule kind attr target index mapping = []
  ↔ Py.strip (nget_or mapping attr EmptyString) ≠ EmptyString
    ∧ is_Some (index !! _extract_short_name_from_dest
                          (nget_or mapping attr EmptyString)).
Proof.
  unfold check_mapping_ref. cbv zeta. rewrite extract_strip.
  destruct (String.eqb_spec (Py.strip (nget_or mapping attr EmptyString))
                            EmptyString) as [He|Hne].
  - split; [done | by intros [? _]].
  - case_bool_decide as Hi; split; try done. by intros [_ ?].
Qed.

Lemma check_mapping_ref_number (rule : Z) (kind attr target : string)
      (index : gmap string node) (mapping : node)
      (finding : ValidationError) :
  finding ∈ check_mapping_ref rule kind attr target index mapping
  → rule_number finding = rule.
Proof.
  unfold check_mapping_ref. cbv zeta.
  destruct (String.eqb _ EmptyString).
  - by intros ->%list_elem_of_singleton.
  - destruct (bool_decide _); [by intros ?%elem_of_nil|].
    by intros ->%list_elem_of_singleton.
Qed.

(** [_validate_rule_76] is silent exactly when every core-runnable mapping
    has a RunnableRef that is not blank and whose last segment is a name
    under which a runnable is indexed. Its findings carry the number 78,
    the number of the findings of [_validate_rule_78], not 76. *)
Theorem runnable_refs_resolve_iff_silent (root : element) :
  (_validate_rule_76 root = []
   ↔ ∀ mapping,
       mapping ∈ xpath_any root ["Core-Runnable-Mapping";
                                 "CoreRunnableMapping"]
       → Py.strip (nget_or mapping "RunnableRef" EmptyString) ≠ EmptyString
         ∧ ∃ runnable,
             runnable ∈ xpath_all root "RUNNABLE-ENTITY"
             ∧ index_name (n_elem runnable)
               = Some (_extract_short_name_from_dest
                         (nget_or mapping "RunnableRef" EmptyString)))
  ∧ (∀ finding,
        finding ∈ _validate_rule_76 root → rule_number finding = 78%Z)
  ∧ (∀ finding,
        finding ∈ _validate_rule_78 root → rule_number finding = 78%Z).
Proof.
  unfold _validate_rule_76, _validate_rule_78. split; [|split].
  - rewrite flat_map_nil_iff. split.
    + intros H mapping Hin.
      apply H, check_mapping_ref_nil in Hin as [Hne Hi]. split; [done|].
      unfold runnable_index in Hi.
      by apply (index_is_Some (λ n, index_name (n_elem n))) in Hi.
    + intros H mapping Hin. apply check_mapping_ref_nil.
      destruct (H mapping Hin) as [Hne Hi]. split; [done|].
      unfold runnable_index.
      by apply (index_is_Some (λ n, index_name (n_elem n))).
  - intros finding Hin.
    apply list_elem_of_In, in_flat_map in Hin as (mapping & _ & Hin).
    by apply list_elem_of_In, check_mapping_ref_number in Hin.
  - intros finding Hin.
    apply list_elem_of_In, in_flat_map in Hin as (mapping & _ & Hin).
    by apply list_elem_of_In, check_mapping_ref_number in Hin.
Qed.

(** Rule 80 gives a core mapping of a prebuilt application at most one
    finding, and is silent exactly when every such mapping has a
    PrebuiltApplicationRef that is not blank and whose last segment is the
    first SHORT-NAME of a PRE-BUILT-APPLICATION; a name attribute of the
    application does not count here. *)
Theorem prebuilt_refs_resolve_iff_silent (root : element) :
  (_validate_rule_80_prebuilt root = []
   ↔ ∀ mapping,
       mapping ∈ xpath_any root ["Core-PrebuiltApplication-Mapping";
                                 "CorePrebuiltAppMapping"]
       → Py.strip (nget_or mapping "PrebuiltApplicationRef" EmptyString)
         ≠ EmptyString
         ∧ ∃ app,
             app ∈ xpath_all root "PRE-BUILT-APPLICATION"
             ∧ short_name (n_elem app)
               = Some (_extract_short_name_from_dest
                         (nget_or mapping "PrebuiltApplicationRef"
                                  EmptyString)))
  ∧ (∀ mapping,
        (length (check_mapping_ref 80 "Core-PrebuiltApplication-Mapping"
                                   "PrebuiltApplicationRef"
                                   "PRE-BUILT-APPLICATION"
                                   (prebuilt_index root) mapping) ≤ 1)%nat).
Proof.
  unfold _validate_rule_80_prebuilt. split.
  - rewrite flat_map_nil_iff. split.
    + intros H mapping Hin.
      apply H, check_mapping_ref_nil in Hin as [Hne Hi]. split; [done|].
      unfold prebuilt_index in Hi.
      by apply (index_is_Some (λ n, short_name (n_elem n))) in Hi.
    + intros H mapping Hin. apply check_mapping_ref_nil.
      destruct (H mapping Hin) as [Hne Hi]. split; [done|].
      unfold prebuilt_index.
      by apply (index_is_Some (λ n, short_name (n_elem n))).
  - intros mapping. unfold check_mapping_ref. cbv zeta.
    destruct (String.eqb _ EmptyString); [simpl; lia|].
    destruct (bool_decide _); simpl; lia.
Qed.

(** Rules 78 and 81 check the same mappings, rule 78 against the index
    [_build_indices] made and rule 81 against an index of its own. When no
    PRE-BUILT-APPLICATION is indexed under a name attribute of its own, the
    two rules report the same mappings with the same messages: every
    cluster mapping that does not resolve is reported twice, once as 78 and
    once as 81. *)
Theorem cluster_prebuilt_reported_twice (root : element) :
  (∀ app,
      app ∈ xpath_all root "PRE-BUILT-APPLICATION"
      → index_name (n_elem app) = short_name (n_elem app))
  → finding_text <$> _validate_rule_78 root
    = finding_text <$> _validate_rule_81_prebuilt root
    ∧ Forall (fun finding => rule_number finding = 78%Z)
             (_validate_rule_78 root)
    ∧ Forall (fun finding => rule_number finding = 81%Z)
             (_validate_rule_81_prebuilt root).
Proof.
  intros Hname.
  assert (∀ name,
             is_Some (prebuilt_app_index root !! name)
             ↔ is_Some (prebuilt_index root !! name)) as Hindex.
  { intros name. unfold prebuilt_app_index, prebuilt_index.
    rewrite (index_is_Some (λ n, index_name (n_elem n))).
    rewrite (index_is_Some (λ n, short_name (n_elem n))).
    split; intros (app & Hin & Hkey); exists app; (split; [done|]).
    - by rewrite <- (Hname app Hin).
    - by rewrite (Hname app Hin). }
  unfold _validate_rule_78, _validate_rule_81_prebuilt. split; [|split].
  - generalize (xpath_any root ["Cluster-PrebuiltApplication-Mapping";
                                "ClusterPrebuiltAppMapping"]).
    intros l. induction l as [|m l IH]; [done|].
    cbn [flat_map]. rewrite !fmap_app, IH. f_equal.
    unfold check_mapping_ref. cbv zeta.
    destruct (String.eqb _ EmptyString); [done|].
    rewrite (bool_decide_ext _ _ (Hindex _)).
    by destruct (bool_decide _).
  - apply Forall_forall. intros finding Hin.
    apply list_elem_of_In, in_flat_map in Hin as (mapping & _ & Hin).
    by apply list_elem_of_In, check_mapping_ref_number in Hin.
  - apply Forall_forall. intros finding Hin.
    apply list_elem_of_In, in_flat_map in Hin as (mapping & _ & Hin).
    by apply list_elem_of_In, check_mapping_ref_number in Hin.
Qed.

Lemma cluster_prebuilt_reported_twice_witness :
  finding_text <$> _validate_rule_78 (doc_cluster_prebuilt "/Apps/Other")
  = finding_text
      <$> _validate_rule_81_prebuilt (doc_cluster_prebuilt "/Apps/Other")
  ∧ Forall (fun finding => rule_number finding = 78%Z)
           (_validate_rule_78 (doc_cluster_prebuilt "/Apps/Other"))
  ∧ Forall (fun finding => rule_number finding = 81%Z)
           (_validate_rule_81_prebuilt (doc_cluster_prebuilt "/Apps/Other")).
Proof.
  apply (cluster_prebuilt_reported_twice (doc_cluster_prebuilt "/Apps/Other")).
  intros app Happ. vm_compute in Happ.
  apply list_elem_of_singleton in Happ. subst app. reflexivity.
Defined.

(** ** Rule 75: clusters that run Nucleus *)

Lemma filter_parts_prefix (pre t : string) :
  Py.all_chars Py.is_slash pre = true
  → List.filter (fun p => negb (String.eqb p EmptyString))
                (Py.split "/" (pre +:+ t))
    = List.filter (fun p => negb (String.eqb p EmptyString)) (Py.split "/" t).
Proof.
  induction pre as [|c pre IH]; [done|].
  cbn [Py.all_chars]. intros [Hc Hpre]%andb_prop.
  unfold Py.is_slash in Hc. cbn [String.append Py.split]. rewrite Hc.
  cbn [List.filter]. simpl (negb _). by apply IH.
Qed.

Lemma filter_parts_suffix (t suf : string) :
  Py.all_chars Py.is_slash suf = true
  → List.filter (fun p => negb (String.eqb p EmptyString))
                (Py.split "/" (t +:+ suf))
    = List.filter (fun p => negb (String.eqb p EmptyString)) (Py.split "/" t).
Proof.
  destruct suf as [|c suf].
  - intros _. assert (t +:+ EmptyString = t) as ->; [|done].
    induction t as [|x t IH]; simpl; [done | by rewrite IH].
  - cbn [Py.all_chars]. intros [Hc Hsuf]%andb_prop.
    unfold Py.is_slash in Hc. apply Ascii.eqb_eq in Hc as ->.
    rewrite split_app_sep, List.filter_app.
    pose proof (filter_parts_prefix suf EmptyString Hsuf) as H.
    assert (suf +:+ EmptyString = suf) as Hnil.
    { clear. induction suf as [|x t IH]; simpl; [done | by rewrite IH]. }
    rewrite Hnil in H. rewrite H. simpl. by rewrite app_nil_r.
Qed.

Lemma last_filter_last_item (P : string → bool) (l : list string) :
  l ≠ [] → P (Py.last_item l) = true
  → last (List.filter P l) = Some (Py.last_item l).
Proof.
  unfold Py.last_item. induction l as [|x l IH]; [done|]. intros _.
  destruct l as [|y l].
  - simpl. by intros ->.
  - intros H.
    change (List.last (x :: y :: l) EmptyString)
      with (List.last (y :: l) EmptyString) in *.
    specialize (IH ltac:(done) H).
    change (List.filter P (x :: y :: l))
      with (if P x then x :: List.filter P (y :: l)
            else List.filter P (y :: l)).
    destruct (P x); [|done]. rewrite last_cons. by rewrite IH.
Qed.

(** The last part that is not empty, as rule 75 reads a reference, is the
    segment [_extract_short_name_from_dest] returns. *)
Lemma last_part_extract (ref : string) :
  last_part (Py.strip ref)
  = if String.eqb (_extract_short_name_from_dest ref) EmptyString then None
    else Some (_extract_short_name_from_dest ref).
Proof.
  assert (_extract_short_name_from_dest ref
          = Py.last_item (Py.split "/" (_normalize_dest_path ref))) as ->.
  { unfold _extract_short_name_from_dest.
    pose proof (split_nonempty "/" (_normalize_dest_path ref)).
    by destruct (Py.split "/" (_normalize_dest_path ref)). }
  unfold last_part, _normalize_dest_path, Py.strip_chars.
  set (t := Py.strip ref).
  destruct (strip_with_split (λ c, Py.mem_char c "/") t)
    as (pre & suf & Ht & Hpre & Hsuf & Htrim).
  set (core := Py.strip_with (λ c, Py.mem_char c "/") t) in *.
  assert (∀ s, Py.all_chars (λ c, Py.mem_char c "/") s = true
               → Py.all_chars Py.is_slash s = true) as Hslash.
  { intros s. apply all_chars_impl. intros c. simpl. unfold Py.is_slash.
    by rewrite orb_false_r. }
  rewrite Ht at 1.
  rewrite filter_parts_prefix by (by apply Hslash).
  rewrite filter_parts_suffix by (by apply Hslash).
  destruct (String.eqb_spec (Py.last_item (Py.split "/" core)) EmptyString)
    as [He|Hne].
  - apply last_item_split_empty in He as [He|He].
    + by rewrite He.
    + destruct core as [|c s]; [done|].
      destruct (first_last_char_nonempty (String c s)) as (a & b & Ha & Hb);
        [done|].
      unfold Py.trimmed in Htrim. rewrite Ha, Hb in Htrim.
      rewrite He in Hb. injection Hb as <-. simpl in Htrim.
      by rewrite andb_false_r in Htrim.
  - apply last_filter_last_item; [apply split_nonempty|].
    by destruct (String.eqb_spec (Py.last_item (Py.split "/" core))
                                 EmptyString).
Qed.

Lemma rule_75_collect_step (mapped : gset string) (hw_sw_mapping : node) :
  rule_75_collect mapped hw_sw_mapping
  = match (if holds_runnable_mapping hw_sw_mapping
           then last_part (mapping_cluster_ref hw_sw_mapping) else None) with
    | Some part => {[part]} ∪ mapped
    | None => mapped
    end.
Proof.
  unfold rule_75_collect, holds_runnable_mapping, mapping_cluster_ref.
  cbv zeta.
  destruct (String.eqb_spec
              (Py.strip (default EmptyString (nget hw_sw_mapping "ClusterRef")))
              EmptyString) as [->|Hne].
  - by destruct (List.filter _ _).
  - by destruct (List.filter _ _).
Qed.

Lemma rule_75_collect_fold (mappings : list node) (mapped : gset string)
      (name : string) :
  name ∈ fold_left rule_75_collect mappings mapped
  ↔ name ∈ mapped
    ∨ ∃ m, m ∈ mappings
           ∧ holds_runnable_mapping m = true
           ∧ last_part (mapping_cluster_ref m) = Some name.
Proof.
  revert mapped. induction mappings as [|m mappings IH]; intros mapped;
    cbn [fold_left].
  - split; [by left|]. intros [H|(m & Hm & _)]; [done|].
    by apply elem_of_nil in Hm.
  - rewrite IH, rule_75_collect_step. split.
    + intros [H|(m' & Hm' & Hh & Hl)].
      * destruct (holds_runnable_mapping m) eqn:Hh; [|by left].
        destruct (last_part (mapping_cluster_ref m)) as [part|] eqn:Hl;
          [|by left].
        apply elem_of_union in H as [->%elem_of_singleton|H]; [|by left].
        right. exists m. split; [apply list_elem_of_here|done].
      * right. exists m'. split; [|done]. apply elem_of_cons. by right.
    + intros [H|(m' & [->|Hm']%elem_of_cons & Hh & Hl)].
      * left. destruct (holds_runnable_mapping m); [|done].
        destruct (last_part (mapping_cluster_ref m)); [|done].
        apply elem_of_union. by right.
      * left. rewrite Hh, Hl. apply elem_of_union. left.
        by apply elem_of_singleton.
      * right. by exists m'.
Qed.

Lemma mapped_cluster_names_spec (root : element) (name : string) :
  name ∈ mapped_cluster_names root
  ↔ name ≠ EmptyString
    ∧ ∃ m, m ∈ xpath_all root "HW-SW-MAPPING"
           ∧ holds_runnable_mapping m = true
           ∧ _extract_short_name_from_dest
               (default EmptyString (nget m "ClusterRef")) = name.
Proof.
  unfold mapped_cluster_names. rewrite rule_75_collect_fold.
  assert (∀ m, last_part (mapping_cluster_ref m) = Some name
               ↔ name ≠ EmptyString
                 ∧ _extract_short_name_from_dest
                     (default EmptyString (nget m "ClusterRef")) = name)
    as Hpart.
  { intros m. unfold mapping_cluster_ref. rewrite last_part_extract.
    destruct (String.eqb_spec
                (_extract_short_name_from_dest
                   (default EmptyString (nget m "ClusterRef")))
                EmptyString) as [He|Hne].
    - split; [done|]. intros [Hn Hx]. congruence.
    - split; [intros [= <-]; by split | by intros [_ ->]]. }
  split.
  - intros [H|(m & Hm & Hh & Hl)]; [by apply elem_of_empty in H|].
    apply Hpart in Hl as [Hne Hx]. split; [done|]. exists m.
    split; [|done]. by apply list_elem_of_In, filter_In in Hm as [?%list_elem_of_In _].
  - intros (Hne & m & Hm & Hh & Hx). right. exists m.
    split; [|split; [done | by apply Hpart]].
    apply list_elem_of_In, filter_In. split; [by apply list_elem_of_In|].
    apply bool_decide_eq_true.
    destruct (nget m "ClusterRef") as [v|] eqn:E; [by eexists|].
    exfalso. apply Hne. rewrite <- Hx. by vm_compute.
Qed.

(** The predicate of the XPath expression of rule 75. *)
Lemma runs_nucleus_iff (cluster : node) :
  runs_nucleus cluster = true ↔ has_nucleus_child cluster.
Proof.
  unfold runs_nucleus, has_nucleus_child. rewrite existsb_exists. split.
  - intros (os & Hos & [Htag (nucleus & Hn & Hntag)%existsb_exists]%andb_prop).
    exists os, nucleus. unfold has_tag in *.
    apply String.eqb_eq in Htag, Hntag.
    repeat split; try done; by apply list_elem_of_In.
  - intros (os & nucleus & Hos & Htag & Hn & Hntag).
    exists os. split; [by apply list_elem_of_In|].
    apply andb_true_intro. split; [by apply String.eqb_eq|].
    apply existsb_exists. exists nucleus.
    split; [by apply list_elem_of_In | by apply String.eqb_eq].
Qed.

(** Rule 75 reads a cluster reference by its last part that is not empty,
    which is the segment [_extract_short_name_from_dest] returns, so it
    resolves references as rule 76b does. It is silent exactly when every
    CPU_Cluster that has a Nucleus_RTOS below an Operating-System child and
    carries a name has that name, not empty, as the last segment of the
    ClusterRef of a HW-SW-MAPPING with a core-runnable mapping as a
    child; such a cluster whose name no such mapping refers to is
    reported. *)
Theorem nucleus_cluster_mapped_iff_silent (root : element) :
  (∀ ref,
      last_part (Py.strip ref)
      = if String.eqb (_extract_short_name_from_dest ref) EmptyString
        then None else Some (_extract_short_name_from_dest ref))
  ∧ (_validate_rule_75 root = []
     ↔ ∀ cluster name,
         cluster ∈ xpath_all root "CPU_Cluster"
         → has_nucleus_child cluster
         → cluster_name cluster = Some name
         → name ≠ EmptyString
           ∧ ∃ m, m ∈ xpath_all root "HW-SW-MAPPING"
                  ∧ holds_runnable_mapping m = true
                  ∧ _extract_short_name_from_dest
                      (default EmptyString (nget m "ClusterRef")) = name)
  ∧ (∀ cluster name,
        cluster ∈ xpath_all root "CPU_Cluster"
        → has_nucleus_child cluster
        → cluster_name cluster = Some name
        → (∀ m, m ∈ xpath_all root "HW-SW-MAPPING"
                → holds_runnable_mapping m = true
                → _extract_short_name_from_dest
                    (default EmptyString (nget m "ClusterRef")) ≠ name)
        → error 75 (rule_75_msg name) (n_path cluster)
          ∈ _validate_rule_75 root).
Proof.
  split; [apply last_part_extract|].
  assert (∀ cluster,
             rule_75_cluster (mapped_cluster_names root) cluster = []
             ↔ ∀ name, cluster_name cluster = Some name
                       → name ∈ mapped_cluster_names root) as Hone.
  { intros cluster. unfold rule_75_cluster, cluster_name.
    destruct (desc_attr (n_elem cluster) "SHORT-NAME" "name") as [|n names];
      simpl.
    - split; [by intros _ name | done].
    - case_bool_decide as Hin.
      + split; [|done]. by intros _ name [= <-].
      + split; [done|]. intros H. exfalso. by apply Hin, H. }
  split.
  - unfold _validate_rule_75. rewrite flat_map_nil_iff. split.
    + intros H cluster name Hin Hrun Hname.
      apply mapped_cluster_names_spec. apply (Hone cluster); [|done].
      apply H. apply list_elem_of_In, filter_In.
      split; [by apply list_elem_of_In | by apply runs_nucleus_iff].
    + intros H cluster Hin.
      apply list_elem_of_In, filter_In in Hin as [Hin%list_elem_of_In Hrun].
      apply Hone. intros name Hname.
      apply mapped_cluster_names_spec. apply (H cluster); [done| |done].
      by apply runs_nucleus_iff.
  - intros cluster name Hin Hrun Hname Hnone.
    unfold _validate_rule_75. apply list_elem_of_In, in_flat_map.
    exists cluster. split.
    { apply filter_In. split; [by apply list_elem_of_In|].
      by apply runs_nucleus_iff. }
    unfold rule_75_cluster. unfold cluster_name in Hname.
    destruct (desc_attr (n_elem cluster) "SHORT-NAME" "name") as [|n names];
      [done|]. injection Hname as ->.
    rewrite bool_decide_eq_false_2; [by left|].
    intros (_ & m & Hm & Hholds & Hx)%mapped_cluster_names_spec.
    by apply (Hnone m).
Qed.

(** The theorem on a cluster Cl0 that runs Nucleus: it is reported when
    the HW-SW-MAPPING onto it holds a prebuilt-application mapping only,
    and the rule is silent when the mapping holds a core-runnable
    mapping. *)
Lemma nucleus_cluster_mapped_iff_silent_witness :
  _validate_rule_75 (doc_nucleus false)
  = [error 75 (rule_75_msg "Cl0") "/AUTOSAR/CPU_Cluster"]
  ∧ error 75 (rule_75_msg "Cl0") "/AUTOSAR/CPU_Cluster"
    ∈ _validate_rule_75 (doc_nucleus false)
  ∧ _validate_rule_75 (doc_nucleus true) = []
  ∧ (∀ cluster name,
        cluster ∈ xpath_all (doc_nucleus true) "CPU_Cluster"
        → has_nucleus_child cluster
        → cluster_name cluster = Some name
        → name ≠ EmptyString
          ∧ ∃ m, m ∈ xpath_all (doc_nucleus true) "HW-SW-MAPPING"
                 ∧ holds_runnable_mapping m = true
                 ∧ _extract_short_name_from_dest
                     (default EmptyString (nget m "ClusterRef")) = name).
Proof.
  split; [by vm_compute|]. split; [|split; [by vm_compute|]].
  - apply (proj2 (proj2 (nucleus_cluster_mapped_iff_silent
                           (doc_nucleus false)))
             (node_at (doc_nucleus false) 1) "Cl0").
    + vm_compute. apply list_elem_of_here.
    + exists (El "Operating-System" [] [ El "Nucleus_RTOS" [] [] ]),
        (El "Nucleus_RTOS" [] []).
      repeat split; vm_compute; apply list_elem_of_here.
    + vm_compute. reflexivity.
    + intros m Hm Hholds. exfalso.
      assert (xpath_all (doc_nucleus false) "HW-SW-MAPPING"
              = [node_at (doc_nucleus false) 7]) as Heq
        by (vm_compute; reflexivity).
      rewrite Heq in Hm. apply list_elem_of_singleton in Hm. subst m.
      by vm_compute in Hholds.
  - apply (proj1 (proj2 (nucleus_cluster_mapped_iff_silent
                           (doc_nucleus true)))).
    vm_compute. reflexivity.
Defined.

(** ** Rule 62: operations of hardware blocks *)

Lemma rule_62_access_nil (op hwip_name : string) (op_elem : node) :
  rule_62_access op hwip_name op_elem = [] ↔ access_well_formed op_elem.
Proof.
  unfold rule_62_access, access_well_formed. cbv zeta.
  destruct (find_child op_elem "IREF") as [iref|].
  - destruct (String.eqb_spec (Py.strip (nget_or iref "DEST" EmptyString))
                              EmptyString) as [He|Hne].
    + split; [done|]. by intros (? & [= <-] & ?).
    + split; [by exists iref | done].
  - split; [done|]. by intros (? & ? & _).
Qed.

Lemma some_dimension_zero_false (height width channels : string) :
  some_dimension_zero height width channels = Some false
  ↔ ∃ h w c,
      Py.int height = Some h ∧ Py.int width = Some w
      ∧ Py.int channels = Some c ∧ h ≠ 0%Z ∧ w ≠ 0%Z ∧ c ≠ 0%Z.
Proof.
  unfold some_dimension_zero.
  destruct (Py.int height) as [h|]; simpl;
    [|split; [done | by intros (? & ? & ? & ? & _)]].
  destruct (Z.eqb_spec h 0) as [->|Hh];
    [split; [done | by intros (? & ? & ? & [= <-] & _ & _ & ? & _)]|].
  destruct (Py.int width) as [w|]; simpl;
    [|split; [done | by intros (? & ? & ? & _ & ? & _)]].
  destruct (Z.eqb_spec w 0) as [->|Hw];
    [split; [done | by intros (? & ? & ? & _ & [= <-] & _ & _ & ? & _)]|].
  destruct (Py.int channels) as [c|]; simpl;
    [|split; [done | by intros (? & ? & ? & _ & _ & ? & _)]].
  destruct (Z.eqb_spec c 0) as [->|Hc].
  - split; [done|]. by intros (? & ? & ? & _ & _ & [= <-] & _ & _ & ?).
  - split; [|done]. intros _. by exists h, w, c.
Qed.

Lemma rule_62_ml_op_nil (ml_op_name hwip_name : string) (elem : node) :
  rule_62_ml_op ml_op_name hwip_name elem = [] ↔ dimensions_nonzero elem.
Proof.
  unfold rule_62_ml_op, dimensions_nonzero. cbv zeta.
  rewrite <- some_dimension_zero_false.
  by destruct (some_dimension_zero _ _ _) as [[|]|].
Qed.

Lemma rule_62_value_nil (msg : string) (elem : node) :
  rule_62_value msg elem = [] ↔ value_nonzero elem.
Proof.
  unfold rule_62_value, value_nonzero. cbv zeta.
  destruct (Py.int (nget_or elem "value" "0")) as [[| |]|]; split; done.
Qed.

Lemma app_nil_iff {A} (l1 l2 : list A) :
  l1 ++ l2 = [] ↔ l1 = [] ∧ l2 = [].
Proof.
  split; [apply app_eq_nil|]. by intros [-> ->].
Qed.

(** What rule 62 emits for an operation of a named hardware block is part
    of what it emits for the document. *)
Lemma rule_62_contains
      (root : element) (hwip_name : string) (operation : node)
      (finding : ValidationError) :
  named_hwip_operation root hwip_name operation
  → finding ∈ rule_62_operation hwip_name operation
  → finding ∈ _validate_rule_62 root.
Proof.
  intros (hwip & Hhwip & Hname & Hop) Hfinding.
  unfold _validate_rule_62. apply list_elem_of_In, in_flat_map.
  exists hwip. split; [by apply list_elem_of_In|].
  rewrite Hname. apply in_flat_map.
  exists operation. split; by apply list_elem_of_In.
Qed.

Lemma rule_62_silent_operations (root : element) :
  _validate_rule_62 root = []
  ↔ ∀ hwip_name operation,
      named_hwip_operation root hwip_name operation
      → rule_62_operation hwip_name operation = [].
Proof.
  unfold _validate_rule_62. rewrite flat_map_nil_iff. split.
  - intros H hwip_name operation (hwip & Hhwip & Hname & Hop).
    specialize (H hwip Hhwip). rewrite Hname, flat_map_nil_iff in H.
    by apply H.
  - intros H hwip Hhwip.
    destruct (short_name (n_elem hwip)) as [hwip_name|] eqn:Hname; [|done].
    apply flat_map_nil_iff. intros operation Hop.
    apply H. by exists hwip.
Qed.

Lemma rule_62_operation_nil (hwip_name : string) (operation : node) :
  rule_62_operation hwip_name operation = []
  ↔ (∀ op op_elem,
        op ∈ ["WRITE"; "READ"]
        → op_elem ∈ xpath_child operation op
        → access_well_formed op_elem)
    ∧ (∀ ml_op_name elem,
          ml_op_name ∈ ["CONVOLUTION"; "BATCH-NORMALIZATION"; "HARDMAX";
                        "LOG-SOFTMAX"; "MAX-POOL"; "AVG-POOL";
                        "TRANSPOSED-CONVOLUTION"]
          → elem ∈ xpath_child operation ml_op_name
          → dimensions_nonzero elem)
    ∧ (∀ op elem,
          op ∈ ["LATENCY"; "LOAD"]
          → elem ∈ xpath_child operation op
          → value_nonzero elem).
Proof.
  unfold rule_62_operation. rewrite !app_nil_iff, !flat_map_nil_iff.
  split.
  - intros (Hw & Hr & Hml & Hlat & Hload). split; [|split].
    + intros op op_elem Hop Hin.
      apply elem_of_cons in Hop as [->|Hop];
        [by apply (rule_62_access_nil "WRITE" hwip_name), Hw|].
      apply list_elem_of_singleton in Hop as ->.
      by apply (rule_62_access_nil "READ" hwip_name), Hr.
    + intros ml_op_name elem Hop Hin.
      specialize (Hml ml_op_name Hop). rewrite flat_map_nil_iff in Hml.
      by apply (rule_62_ml_op_nil ml_op_name hwip_name), Hml.
    + intros op elem Hop Hin.
      apply elem_of_cons in Hop as [->|Hop];
        [by apply (rule_62_value_nil (rule_62_latency_msg hwip_name)), Hlat|].
      apply list_elem_of_singleton in Hop as ->.
      by apply (rule_62_value_nil (rule_62_load_msg hwip_name)), Hload.
  - intros (Hacc & Hml & Hval). repeat split.
    + intros op_elem Hin. apply rule_62_access_nil.
      apply (Hacc "WRITE"); [apply list_elem_of_here | done].
    + intros op_elem Hin. apply rule_62_access_nil.
      apply (Hacc "READ");
        [apply list_elem_of_further, list_elem_of_here | done].
    + intros ml_op_name Hop. apply flat_map_nil_iff. intros elem Hin.
      apply rule_62_ml_op_nil. by apply (Hml ml_op_name).
    + intros elem Hin. apply rule_62_value_nil.
      apply (Hval "LATENCY"); [apply list_elem_of_here | done].
    + intros elem Hin. apply rule_62_value_nil.
      apply (Hval "LOAD");
        [apply list_elem_of_further, list_elem_of_here | done].
Qed.

(** The findings of the parts of the loop body are findings of the
    body. *)
Lemma rule_62_operation_access (op hwip_name : string)
      (operation op_elem : node) (finding : ValidationError) :
  op ∈ ["WRITE"; "READ"]
  → op_elem ∈ xpath_child operation op
  → finding ∈ rule_62_access op hwip_name op_elem
  → finding ∈ rule_62_operation hwip_name operation.
Proof.
  intros Hop Hin Hfinding. unfold rule_62_operation.
  apply elem_of_cons in Hop as [->|Hop].
  - apply elem_of_app. left. apply list_elem_of_In, in_flat_map.
    exists op_elem. split; by apply list_elem_of_In.
  - apply list_elem_of_singleton in Hop as ->.
    apply elem_of_app. right. apply elem_of_app. left.
    apply list_elem_of_In, in_flat_map.
    exists op_elem. split; by apply list_elem_of_In.
Qed.

Lemma rule_62_operation_ml_op (ml_op_name hwip_name : string)
      (operation elem : node) (finding : ValidationError) :
  ml_op_name ∈ ["CONVOLUTION"; "BATCH-NORMALIZATION"; "HARDMAX";
                "LOG-SOFTMAX"; "MAX-POOL"; "AVG-POOL";
                "TRANSPOSED-CONVOLUTION"]
  → elem ∈ xpath_child operation ml_op_name
  → finding ∈ rule_62_ml_op ml_op_name hwip_name elem
  → finding ∈ rule_62_operation hwip_name operation.
Proof.
  intros Hop Hin Hfinding. unfold rule_62_operation.
  apply elem_of_app. right. apply elem_of_app. right.
  apply elem_of_app. left. apply list_elem_of_In, in_flat_map.
  exists ml_op_name. split; [by apply list_elem_of_In|].
  apply in_flat_map. exists elem. split; by apply list_elem_of_In.
Qed.

Lemma rule_62_operation_value (hwip_name : string)
      (operation elem : node) (finding : ValidationError) :
  (elem ∈ xpath_child operation "LATENCY"
   ∧ finding ∈ rule_62_value (rule_62_latency_msg hwip_name) elem)
  ∨ (elem ∈ xpath_child operation "LOAD"
     ∧ finding ∈ rule_62_value (rule_62_load_msg hwip_name) elem)
  → finding ∈ rule_62_operation hwip_name operation.
Proof.
  intros H. unfold rule_62_operation.
  do 3 (apply elem_of_app; right).
  apply elem_of_app.
  destruct H as [[Hin Hfinding]|[Hin Hfinding]]; [left | right];
    apply list_elem_of_In, in_flat_map; exists elem;
    split; by apply list_elem_of_In.
Qed.

(** A finding of the check of rule 63 is located at its element, which
    is well formed. *)
Lemma check_hwip_operation_located
      (op own_kind other_kind hwip_name : string)
      (own other : gmap string node) (op_elem : node)
      (finding : ValidationError) :
  finding ∈ check_hwip_operation op own_kind other_kind hwip_name
                                 own other op_elem
  → access_well_formed op_elem
    ∧ xpath finding = n_path op_elem
    ∧ rule_number finding = 63%Z.
Proof.
  unfold check_hwip_operation, access_well_formed. cbv zeta.
  destruct (find_child op_elem "IREF") as [iref|];
    [|by intros ?%elem_of_nil].
  destruct (String.eqb_spec (Py.strip (nget_or iref "DEST" EmptyString))
                            EmptyString) as [He|Hne];
    [by intros ?%elem_of_nil|].
  destruct (bool_decide _); [by intros ?%elem_of_nil|].
  destruct (bool_decide _); intros ->%list_elem_of_singleton;
    (split; [by exists iref | done]).
Qed.

(** Rule 62 on the READ and WRITE elements of the operations of a hardware
    block that carries a name. An element without an IREF child, or whose
    IREF has a blank DEST, is reported; when the rule is silent every such
    element is well formed. A hardware block without a name is passed
    over: a document whose hardware blocks have none gets no finding. The
    well-formed elements are those rule 63 reports on: every finding of
    rule 63 is located at a READ or WRITE element, of an operation of a
    named hardware block, that is well formed. *)
Theorem hwip_access_reported_by_one_rule (root : element) :
  (∀ hwip_name operation op op_elem,
      named_hwip_operation root hwip_name operation
      → op ∈ ["WRITE"; "READ"]
      → op_elem ∈ xpath_child operation op
      → (find_child op_elem "IREF" = None
         → error 62 (rule_62_no_iref_msg op hwip_name) (n_path op_elem)
           ∈ _validate_rule_62 root)
        ∧ (∀ iref,
              find_child op_elem "IREF" = Some iref
              → Py.strip (nget_or iref "DEST" EmptyString) = EmptyString
              → error 62 (rule_62_empty_dest_msg op hwip_name)
                      (n_path op_elem)
                ∈ _validate_rule_62 root)
        ∧ (_validate_rule_62 root = [] → access_well_formed op_elem))
  ∧ ((∀ hwip, hwip ∈ xpath_all root "Generic_Hardware"
              → short_name (n_elem hwip) = None)
     → _validate_rule_62 root = [])
  ∧ (∀ finding,
        finding ∈ _validate_rule_63 root
        → ∃ hwip_name operation op op_elem,
            named_hwip_operation root hwip_name operation
            ∧ op ∈ ["WRITE"; "READ"]
            ∧ op_elem ∈ xpath_child operation op
            ∧ access_well_formed op_elem
            ∧ xpath finding = n_path op_elem
            ∧ rule_number finding = 63%Z).
Proof.
  split; [|split].
  - intros hwip_name operation op op_elem Hnamed Hop Hin.
    split; [|split].
    + intros Hiref. apply (rule_62_contains root hwip_name operation); [done|].
      apply (rule_62_operation_access op hwip_name operation op_elem);
        [done|done|].
      unfold rule_62_access. rewrite Hiref. apply list_elem_of_here.
    + intros iref Hiref Hdest.
      apply (rule_62_contains root hwip_name operation); [done|].
      apply (rule_62_operation_access op hwip_name operation op_elem);
        [done|done|].
      unfold rule_62_access. rewrite Hiref. cbv zeta.
      rewrite Hdest. apply list_elem_of_here.
    + intros Hsilent.
      pose proof (proj1 (rule_62_silent_operations root) Hsilent
                    hwip_name operation Hnamed) as Hnil.
      apply rule_62_operation_nil in Hnil as (Hacc & _).
      by apply (Hacc op).
  - intros Hunnamed. unfold _validate_rule_62. apply flat_map_nil_iff.
    intros hwip Hin. by rewrite (Hunnamed hwip Hin).
  - intros finding Hin. unfold _validate_rule_63 in Hin.
    apply list_elem_of_In, in_flat_map in Hin as (hwip & Hhwip & Hin).
    unfold rule_63_hwip in Hin.
    destruct (short_name (n_elem hwip)) as [hwip_name|] eqn:Hname; [|done].
    cbv zeta in Hin.
    apply in_flat_map in Hin as (operation & Hop & Hin).
    assert (named_hwip_operation root hwip_name operation) as Hnamed.
    { exists hwip. split; [by apply list_elem_of_In|].
      split; [done | by apply list_elem_of_In]. }
    apply in_app_or in Hin as [Hin|Hin];
      apply in_flat_map in Hin as (op_elem & Helem & Hin);
      apply list_elem_of_In, check_hwip_operation_located in Hin
        as (Hwf & Hxpath & Hrule).
    + exists hwip_name, operation, "WRITE", op_elem.
      repeat split; try done;
        [apply list_elem_of_here | by apply list_elem_of_In].
    + exists hwip_name, operation, "READ", op_elem.
      repeat split; try done;
        [apply list_elem_of_further, list_elem_of_here
        | by apply list_elem_of_In].
Qed.

(** The theorem on a hardware block Hw1 whose operation holds a WRITE
    without IREF and a READ whose IREF has a blank DEST: both are reported
    by rule 62 and neither by rule 63, and nothing is when the block has no
    name; a READ that is well formed and names a port that does not exist
    is reported by rule 63 and not by rule 62. *)
Lemma hwip_access_reported_by_one_rule_witness :
  (_validate_rule_63 (doc_hwip_ops true ops_ill_formed) = []
   ∧ _validate_rule_62 (doc_hwip_read "/Hw1/Nowhere") = []
   ∧ _validate_rule_63 (doc_hwip_read "/Hw1/Nowhere")
     = [error 63 (op_no_port_msg "READ" "Hw1" "Nowhere" "/Hw1/Nowhere")
              "/AUTOSAR/Generic_Hardware/INTERNAL-BEHAVIOR/OPERATIONS-SEQUENCE/OPERATION/READ"])
  ∧
  error 62 (rule_62_no_iref_msg "WRITE" "Hw1")
        "/AUTOSAR/Generic_Hardware/INTERNAL-BEHAVIOR/OPERATIONS-SEQUENCE/OPERATION/WRITE"
  ∈ _validate_rule_62 (doc_hwip_ops true ops_ill_formed)
  ∧ error 62 (rule_62_empty_dest_msg "READ" "Hw1")
          "/AUTOSAR/Generic_Hardware/INTERNAL-BEHAVIOR/OPERATIONS-SEQUENCE/OPERATION/READ"
    ∈ _validate_rule_62 (doc_hwip_ops true ops_ill_formed)
  ∧ _validate_rule_62 (doc_hwip_ops false ops_ill_formed) = []
  ∧ _validate_rule_62 (doc_hwip_ops true ops_well_formed) = []
  ∧ access_well_formed (node_at (doc_hwip_ops true ops_well_formed) 6).
Proof.
  assert (named_hwip_operation
            (doc_hwip_ops true ops_ill_formed) "Hw1"
            (node_at (doc_hwip_ops true ops_ill_formed) 5)) as Hill.
  { exists (node_at (doc_hwip_ops true ops_ill_formed) 1).
    repeat split; vm_compute; solve [reflexivity | apply list_elem_of_here]. }
  assert (named_hwip_operation
            (doc_hwip_ops true ops_well_formed) "Hw1"
            (node_at (doc_hwip_ops true ops_well_formed) 5)) as Hwell.
  { exists (node_at (doc_hwip_ops true ops_well_formed) 1).
    repeat split; vm_compute; solve [reflexivity | apply list_elem_of_here]. }
  split; [by vm_compute|].
  split; [|split; [|split; [|split]]].
  - apply (proj1 (hwip_access_reported_by_one_rule
                    (doc_hwip_ops true ops_ill_formed))
             "Hw1" (node_at (doc_hwip_ops true ops_ill_formed) 5)
             "WRITE" (node_at (doc_hwip_ops true ops_ill_formed) 6)).
    + exact Hill.
    + apply list_elem_of_here.
    + vm_compute. apply list_elem_of_here.
    + vm_compute. reflexivity.
  - apply (proj1 (proj2 (proj1 (hwip_access_reported_by_one_rule
                                  (doc_hwip_ops true ops_ill_formed))
                           "Hw1"
                           (node_at (doc_hwip_ops true ops_ill_formed) 5)
                           "READ"
                           (node_at (doc_hwip_ops true ops_ill_formed) 7)
                           Hill
                           (list_elem_of_further _ _ _
                              (list_elem_of_here _ _))
                           ltac:(vm_compute; apply list_elem_of_here)))
             (node_at (doc_hwip_ops true ops_ill_formed) 8)).
    + vm_compute. reflexivity.
    + vm_compute. reflexivity.
  - apply (proj1 (proj2 (hwip_access_reported_by_one_rule
                           (doc_hwip_ops false ops_ill_formed)))).
    intros hwip Hin.
    assert (xpath_all (doc_hwip_ops false ops_ill_formed) "Generic_Hardware"
            = [node_at (doc_hwip_ops false ops_ill_formed) 1]) as Heq
      by (vm_compute; reflexivity).
    rewrite Heq in Hin. apply list_elem_of_singleton in Hin. subst hwip.
    vm_compute. reflexivity.
  - vm_compute. reflexivity.
  - apply (proj2 (proj2 (proj1 (hwip_access_reported_by_one_rule
                                  (doc_hwip_ops true ops_well_formed))
                           "Hw1"
                           (node_at (doc_hwip_ops true ops_well_formed) 5)
                           "WRITE"
                           (node_at (doc_hwip_ops true ops_well_formed) 6)
                           Hwell
                           (list_elem_of_here _ _)
                           ltac:(vm_compute; apply list_elem_of_here)))).
    vm_compute. reflexivity.
Defined.

(** Rule 62 on the whole document. It is silent exactly when, in every
    operation of every hardware block that carries a name, the READ and
    WRITE elements are well formed, the machine-learning operations have
    dimensions (height, width and channels, a missing one standing for
    1024, 1024 and 3) that are integers other than zero, and the LATENCY and
    LOAD elements have a value that is not the integer zero. The dimensions
    are read from the left, so a zero height is reported as an invalid
    dimension even when the width is no number, and a height that is no
    number as non-numeric. A LATENCY or LOAD whose value is the integer
    zero is reported; a missing value stands for zero, and a value that is
    no integer is passed over. *)
Theorem operation_numbers_checked (root : element) :
  (_validate_rule_62 root = []
   ↔ ∀ hwip_name operation,
       named_hwip_operation root hwip_name operation
       → (∀ op op_elem,
             op ∈ ["WRITE"; "READ"]
             → op_elem ∈ xpath_child operation op
             → access_well_formed op_elem)
         ∧ (∀ ml_op_name elem,
               ml_op_name ∈ ["CONVOLUTION"; "BATCH-NORMALIZATION"; "HARDMAX";
                             "LOG-SOFTMAX"; "MAX-POOL"; "AVG-POOL";
                             "TRANSPOSED-CONVOLUTION"]
               → elem ∈ xpath_child operation ml_op_name
               → dimensions_nonzero elem)
         ∧ (∀ op elem,
               op ∈ ["LATENCY"; "LOAD"]
               → elem ∈ xpath_child operation op
               → value_nonzero elem))
  ∧ (∀ hwip_name operation ml_op_name elem,
        named_hwip_operation root hwip_name operation
        → ml_op_name ∈ ["CONVOLUTION"; "BATCH-NORMALIZATION"; "HARDMAX";
                        "LOG-SOFTMAX"; "MAX-POOL"; "AVG-POOL";
                        "TRANSPOSED-CONVOLUTION"]
        → elem ∈ xpath_child operation ml_op_name
        → (Py.int (nget_or elem "height" "1024") = Some 0%Z
           → error 62
                   (rule_62_dims_msg ml_op_name hwip_name
                                     (nget_or elem "height" "1024")
                                     (nget_or elem "width" "1024")
                                     (nget_or elem "channels" "3"))
                   (n_path elem)
             ∈ _validate_rule_62 root)
          ∧ (Py.int (nget_or elem "height" "1024") = None
             → error 62 (rule_62_non_numeric_msg ml_op_name hwip_name)
                     (n_path elem)
               ∈ _validate_rule_62 root)
          ∧ (nget elem "height" = None → nget elem "width" = None
             → nget elem "channels" = None
             → dimensions_nonzero elem))
  ∧ (∀ hwip_name operation elem,
        named_hwip_operation root hwip_name operation
        → (elem ∈ xpath_child operation "LATENCY"
           → Py.int (nget_or elem "value" "0") = Some 0%Z
           → error 62 (rule_62_latency_msg hwip_name) (n_path elem)
             ∈ _validate_rule_62 root)
          ∧ (elem ∈ xpath_child operation "LOAD"
             → Py.int (nget_or elem "value" "0") = Some 0%Z
             → error 62 (rule_62_load_msg hwip_name) (n_path elem)
               ∈ _validate_rule_62 root)
          ∧ (nget elem "value" = None
             → Py.int (nget_or elem "value" "0") = Some 0%Z)).
Proof.
  split; [|split].
  - rewrite rule_62_silent_operations. split.
    + intros H hwip_name operation Hnamed.
      apply (proj1 (rule_62_operation_nil hwip_name operation)).
      by apply H.
    + intros H hwip_name operation Hnamed.
      apply (proj2 (rule_62_operation_nil hwip_name operation)).
      exact (H hwip_name operation Hnamed).
  - intros hwip_name operation ml_op_name elem Hnamed Hop Hin.
    split; [|split].
    + intros Hheight.
      apply (rule_62_contains root hwip_name operation); [done|].
      apply (rule_62_operation_ml_op ml_op_name hwip_name operation elem);
        [done|done|].
      unfold rule_62_ml_op, some_dimension_zero. cbv zeta.
      rewrite Hheight. apply list_elem_of_here.
    + intros Hheight.
      apply (rule_62_contains root hwip_name operation); [done|].
      apply (rule_62_operation_ml_op ml_op_name hwip_name operation elem);
        [done|done|].
      unfold rule_62_ml_op, some_dimension_zero. cbv zeta.
      rewrite Hheight. apply list_elem_of_here.
    + unfold dimensions_nonzero, nget_or, get_or, nget.
      intros -> -> ->. by exists 1024%Z, 1024%Z, 3%Z.
  - intros hwip_name operation elem Hnamed. split; [|split].
    + intros Hin Hvalue.
      apply (rule_62_contains root hwip_name operation); [done|].
      apply (rule_62_operation_value hwip_name operation elem).
      left. split; [done|]. unfold rule_62_value. cbv zeta.
      rewrite Hvalue. apply list_elem_of_here.
    + intros Hin Hvalue.
      apply (rule_62_contains root hwip_name operation); [done|].
      apply (rule_62_operation_value hwip_name operation elem).
      right. split; [done|]. unfold rule_62_value. cbv zeta.
      rewrite Hvalue. apply list_elem_of_here.
    + unfold nget_or, get_or, nget. by intros ->.
Qed.

(** The theorem on the hardware block Hw1: the operations of
    [ops_ill_formed] are reported, but for the LOAD whose value is no
    integer, and those of [ops_well_formed] are passed. *)
Lemma operation_numbers_checked_witness :
  _validate_rule_62 (doc_hwip_ops true ops_ill_formed)
  = [ error 62 (rule_62_no_iref_msg "WRITE" "Hw1")
            "/AUTOSAR/Generic_Hardware/INTERNAL-BEHAVIOR/OPERATIONS-SEQUENCE/OPERATION/WRITE";
      error 62 (rule_62_empty_dest_msg "READ" "Hw1")
            "/AUTOSAR/Generic_Hardware/INTERNAL-BEHAVIOR/OPERATIONS-SEQUENCE/OPERATION/READ";
      error 62 (rule_62_dims_msg "CONVOLUTION" "Hw1" "0" "wide" "3")
            "/AUTOSAR/Generic_Hardware/INTERNAL-BEHAVIOR/OPERATIONS-SEQUENCE/OPERATION/CONVOLUTION";
      error 62 (rule_62_non_numeric_msg "MAX-POOL" "Hw1")
            "/AUTOSAR/Generic_Hardware/INTERNAL-BEHAVIOR/OPERATIONS-SEQUENCE/OPERATION/MAX-POOL";
      error 62 (rule_62_latency_msg "Hw1")
            "/AUTOSAR/Generic_Hardware/INTERNAL-BEHAVIOR/OPERATIONS-SEQUENCE/OPERATION/LATENCY";
      error 62 (rule_62_load_msg "Hw1")
            "/AUTOSAR/Generic_Hardware/INTERNAL-BEHAVIOR/OPERATIONS-SEQUENCE/OPERATION/LOAD[2]" ]
  ∧ _validate_rule_62 (doc_hwip_ops true ops_well_formed) = []
  ∧ (∀ hwip_name operation,
        named_hwip_operation (doc_hwip_ops true ops_well_formed)
                             hwip_name operation
        → (∀ op op_elem,
              op ∈ ["WRITE"; "READ"]
              → op_elem ∈ xpath_child operation op
              → access_well_formed op_elem)
          ∧ (∀ ml_op_name elem,
                ml_op_name ∈ ["CONVOLUTION"; "BATCH-NORMALIZATION";
                              "HARDMAX"; "LOG-SOFTMAX"; "MAX-POOL";
                              "AVG-POOL"; "TRANSPOSED-CONVOLUTION"]
                → elem ∈ xpath_child operation ml_op_name
                → dimensions_nonzero elem)
          ∧ (∀ op elem,
                op ∈ ["LATENCY"; "LOAD"]
                → elem ∈ xpath_child operation op
                → value_nonzero elem))
  ∧ error 62 (rule_62_dims_msg "CONVOLUTION" "Hw1" "0" "wide" "3")
          "/AUTOSAR/Generic_Hardware/INTERNAL-BEHAVIOR/OPERATIONS-SEQUENCE/OPERATION/CONVOLUTION"
    ∈ _validate_rule_62 (doc_hwip_ops true ops_ill_formed).
Proof.
  split; [by vm_compute|]. split; [by vm_compute|]. split.
  - apply (proj1 (proj1 (operation_numbers_checked
                            (doc_hwip_ops true ops_well_formed)))).
    vm_compute. reflexivity.
  - apply (proj1 (proj1 (proj2 (operation_numbers_checked
                                   (doc_hwip_ops true ops_ill_formed)))
                    "Hw1" (node_at (doc_hwip_ops true ops_ill_formed) 5)
                    "CONVOLUTION"
                    (node_at (doc_hwip_ops true ops_ill_formed) 9)
                    ltac:(exists (node_at (doc_hwip_ops true ops_ill_formed)
                                          1);
                          repeat split; vm_compute;
                          solve [reflexivity | apply list_elem_of_here])
                    (list_elem_of_here _ _)
                    ltac:(vm_compute; apply list_elem_of_here))).
    vm_compute. reflexivity.
Defined.

(** ** Rule 5 on the whole document *)

Lemma register_fold_keys (l : list (string * node)) (d : ref_count)
      (k : string) :
  NoDup (d.*1)
  → k ∈ (fold_left (fun d entry => od_set entry.1 (0, entry.2) d) l d).*1
    ↔ k ∈ (d.*1) ∨ k ∈ (l.*1).
Proof.
  revert d. induction l as [|[k0 n] l IH]; intros d Hnd; simpl.
  - rewrite elem_of_nil. naive_solver.
  - destruct (od_set_keys_NoDup k0 (0, n) d Hnd) as [Hnd' Hkeys].
    rewrite (IH _ Hnd'), Hkeys, elem_of_cons. naive_solver.
Qed.

Lemma register_fold_zero (l : list (string * node)) (d : ref_count) :
  (∀ k v, od_get k d = Some v → v.1 = 0)
  → ∀ k v,
      od_get k (fold_left (fun d entry => od_set entry.1 (0, entry.2) d) l d)
      = Some v
      → v.1 = 0.
Proof.
  revert d. induction l as [|[k0 n] l IH]; intros d Hd; simpl; [done|].
  apply IH. intros k v. rewrite od_get_set. simpl.
  destruct (String.eqb k0 k); [by intros [= <-] | apply Hd].
Qed.

Lemma od_get_elem (k : string) (v : nat * node) (d : ref_count) :
  NoDup (d.*1) → (k, v) ∈ d ↔ od_get k d = Some v.
Proof.
  induction d as [|[k0 v0] d IH]; simpl; intros Hnd.
  - by rewrite elem_of_nil.
  - apply NoDup_cons in Hnd as [Hk0 Hnd]. rewrite elem_of_cons.
    destruct (String.eqb_spec k0 k) as [->|Hne].
    + split; [|intros [= ->]; by left].
      intros [[= ->]|Hin]; [done|]. exfalso. apply Hk0.
      apply list_elem_of_fmap. by exists (k, v).
    + rewrite <- (IH Hnd). split; [|by right].
      intros [[= -> ->]|Hin]; done.
Qed.

Lemma od_get_is_Some (k : string) (d : ref_count) :
  k ∈ (d.*1) ↔ is_Some (od_get k d).
Proof.
  induction d as [|[k0 v0] d IH]; simpl.
  - rewrite elem_of_nil. split; [done | by intros [? ?]].
  - rewrite elem_of_cons, IH.
    destruct (String.eqb_spec k0 k) as [->|Hne]; [naive_solver|].
    split; [by intros [?|?] | by right].
Qed.

Lemma incr_fold_keys (refs : list string) (d : ref_count) :
  (fold_left od_incr refs d).*1 = (d.*1).
Proof.
  revert d. induction refs as [|r refs IH]; intros d; simpl; [done|].
  by rewrite IH, od_incr_keys.
Qed.

Lemma port_table_silent_iff
      (report : string * (nat * node) → list ValidationError)
      (ports : list node) (refs : list string) :
  (∀ path count port, report (path, (count, port)) = [] ↔ count = 1)
  → flat_map report
             (fold_left od_incr refs (fold_left rule_5_register ports []))
    = []
    ↔ ∀ path,
        path ∈ (omap (λ port, (λ path, (path, port)) <$> port_path port)
                     ports).*1
        → length (List.filter (String.eqb path) refs) = 1.
Proof.
  intros Hreport. rewrite rule_5_register_keyed.
  set (keyed := omap (λ port, (λ path, (path, port)) <$> port_path port)
                     ports).
  set (table0 := fold_left (λ d entry, od_set entry.1 (0, entry.2) d)
                           keyed []).
  assert (NoDup (table0.*1)) as Hnd0
    by (apply register_fold_NoDup; constructor).
  assert (NoDup ((fold_left od_incr refs table0).*1)) as Hnd
    by (by apply incr_fold_NoDup).
  assert (∀ k v, od_get k table0 = Some v → v.1 = 0) as Hzero
    by (by apply register_fold_zero).
  assert (∀ k, k ∈ (table0.*1) ↔ k ∈ (keyed.*1)) as Hkeys.
  { intros k. unfold table0. rewrite register_fold_keys by constructor.
    simpl. rewrite elem_of_nil. naive_solver. }
  rewrite flat_map_nil_iff. split.
  - intros H path Hpath. apply Hkeys, od_get_is_Some in Hpath as [[c0 e] Hget].
    pose proof (Hzero _ _ Hget) as Hc0. simpl in Hc0. subst c0.
    pose proof (incr_fold_get path refs table0 Hnd0) as Hcount.
    rewrite Hget in Hcount. simpl in Hcount.
    apply od_get_elem in Hcount; [|done].
    specialize (H _ Hcount). apply Hreport in H. lia.
  - intros H [k [c e]] Hin. apply od_get_elem in Hin; [|done].
    rewrite incr_fold_get in Hin by done.
    destruct (od_get k table0) as [[c0 e0]|] eqn:Hget; [|done].
    simpl in Hin. injection Hin as <- <-.
    pose proof (Hzero _ _ Hget) as Hc0. simpl in Hc0. subst c0.
    apply Hreport. rewrite H; [lia|].
    apply Hkeys, od_get_is_Some. by eexists.
Qed.

(** Rule 5 is silent exactly when every path [/component/port] of a named
    provider port in a named component is the DEST of exactly one port
    reference below the write accesses of the document. Ports outside a
    component, ports without a name and references that are no such path
    never matter. *)
Theorem provider_ports_written_once_iff_silent (root : element) :
  _validate_rule_5 root = []
  ↔ ∀ path, path ∈ (keyed_pports root).*1 → count_refs root path = 1.
Proof.
  unfold keyed_pports, count_refs. rewrite keyed_ports_port_path.
  apply (port_table_silent_iff rule_5_report
           (xpath_all root "P-PORT-PROTOTYPE")
           (port_ref_dests root "DATA-WRITE-ACCESS")).
  intros path count port. simpl.
  destruct count as [|[|n]]; split; done.
Qed.

(** The theorem on two documents: a component whose one provider port is
    written once, where the rule is silent, and [doc_ports], where the
    ports are written by no, one and two accesses. *)
Lemma provider_ports_written_once_iff_silent_witness :
  (_validate_rule_5 (doc_swc [p_port "P1"] [write_access "/Swc1/P1"]) = []
   ∧ (keyed_pports (doc_swc [p_port "P1"] [write_access "/Swc1/P1"])).*1
     = ["/Swc1/P1"]
   ∧ ∀ path,
       path ∈ (keyed_pports
                 (doc_swc [p_port "P1"] [write_access "/Swc1/P1"])).*1
       → count_refs (doc_swc [p_port "P1"] [write_access "/Swc1/P1"]) path
         = 1)
  ∧ ((keyed_pports doc_ports).*1 = ["/Swc1/P0"; "/Swc1/P1"; "/Swc1/P2"]
     ∧ List.map (count_refs doc_ports) (keyed_pports doc_ports).*1
       = [0; 1; 2]
     ∧ _validate_rule_5 doc_ports
       = [ error 5 (rule_5_zero_msg "P0" "/Swc1/P0")
                 (n_path (port_node "0"));
           error 5 (rule_5_many_msg "P2" "/Swc1/P2" 2)
                 (n_path (port_node "2")) ]).
Proof.
  split; [|by vm_compute].
  split; [by vm_compute|]. split; [by vm_compute|].
  apply (provider_ports_written_once_iff_silent
           (doc_swc [p_port "P1"] [write_access "/Swc1/P1"])).
  vm_compute. reflexivity.
Defined.

(** ** Rule 4 *)

(** Rule 4 treats require ports and read accesses as rule 5 treats provider
    ports and write accesses. It is silent exactly when every path
    [/component/port] of a named require port in a named component is the
    DEST of exactly one port reference below the read accesses of the
    document; its findings carry the number 4, one for an entry at most. *)
Theorem require_ports_read_once_iff_silent (root : element) :
  (_validate_rule_4 root = []
   ↔ ∀ path, path ∈ (keyed_rports root).*1 → count_read_refs root path = 1)
  ∧ (∀ finding, finding ∈ _validate_rule_4 root → rule_number finding = 4%Z)
  ∧ (∀ entry, (length (rule_4_report entry) ≤ 1)%nat).
Proof.
  split; [|split].
  - unfold keyed_rports, count_read_refs. rewrite keyed_ports_port_path.
    apply (port_table_silent_iff rule_4_report
             (xpath_all root "R-PORT-PROTOTYPE")
             (port_ref_dests root "DATA-READ-ACCESS")).
    intros path count port. simpl.
    destruct count as [|[|n]]; split; done.
  - intros finding Hin. unfold _validate_rule_4 in Hin.
    apply list_elem_of_In, in_flat_map in Hin as ([path [count port]] & _ & Hin).
    simpl in Hin. destruct count as [|[|n]]; [|done|];
      by destruct Hin as [<-|[]].
  - intros [path [count port]]. simpl. destruct count as [|[|n]]; simpl; lia.
Qed.

(** The theorem on two documents: a component whose one require port is
    read once, where the rule is silent, and a component with three require
    ports, read by no, one and two accesses. *)
Lemma require_ports_read_once_iff_silent_witness :
  (_validate_rule_4 (doc_swc [r_port "R1"] [read_access "/Swc1/R1"]) = []
   ∧ (keyed_rports (doc_swc [r_port "R1"] [read_access "/Swc1/R1"])).*1
     = ["/Swc1/R1"]
   ∧ ∀ path,
       path ∈ (keyed_rports
                 (doc_swc [r_port "R1"] [read_access "/Swc1/R1"])).*1
       → count_read_refs (doc_swc [r_port "R1"] [read_access "/Swc1/R1"])
                         path
         = 1)
  ∧ ((keyed_rports
        (doc_swc [r_port "R0"; r_port "R1"; r_port "R2"]
                 [read_access "/Swc1/R1"; read_access "/Swc1/R2";
                  read_access "/Swc1/R2"])).*1
     = ["/Swc1/R0"; "/Swc1/R1"; "/Swc1/R2"]
     ∧ List.map (count_read_refs
                   (doc_swc [r_port "R0"; r_port "R1"; r_port "R2"]
                            [read_access "/Swc1/R1"; read_access "/Swc1/R2";
                             read_access "/Swc1/R2"]))
                ["/Swc1/R0"; "/Swc1/R1"; "/Swc1/R2"]
       = [0; 1; 2]
     ∧ _validate_rule_4
         (doc_swc [r_port "R0"; r_port "R1"; r_port "R2"]
                  [read_access "/Swc1/R1"; read_access "/Swc1/R2";
                   read_access "/Swc1/R2"])
       = [ error 4 (rule_4_zero_msg "R0" "/Swc1/R0")
                 "/AUTOSAR/APPLICATION-SW-COMPONENT-TYPE/PORTS/R-PORT-PROTOTYPE[1]";
           error 4 (rule_4_many_msg "R2" "/Swc1/R2" 2)
                 "/AUTOSAR/APPLICATION-SW-COMPONENT-TYPE/PORTS/R-PORT-PROTOTYPE[3]" ]).
Proof.
  split; [|by vm_compute].
  split; [by vm_compute|]. split; [by vm_compute|].
  apply (proj1 (require_ports_read_once_iff_silent
                  (doc_swc [r_port "R1"] [read_access "/Swc1/R1"]))).
  vm_compute. reflexivity.
Defined.

(** ** Naming rules *)

Lemma c_identifier_pattern_match_iff (name : string) :
  c_identifier_pattern_match name = true
  ↔ ∃ id, spec_identifier_shape id = true
          ∧ (name = id ∨ name = id +:+ String Py.nl EmptyString).
Proof.
  split.
  - destruct name as [|c rest]; [done|]. cbn [c_identifier_pattern_match].
    cbv zeta. intros [Hc Hr]%andb_prop.
    destruct (lstrip_with_split ident_char rest) as (pre & Hrest & Hpre & _).
    apply orb_prop in Hr as [Hr|Hr].
    + apply String.eqb_eq in Hr. exists (String c rest).
      split; [|by left]. simpl. rewrite Hc. simpl.
      by apply lstrip_with_empty.
    + apply String.eqb_eq in Hr. rewrite Hr in Hrest.
      exists (String c pre). split; [simpl; by rewrite Hc, Hpre|].
      right. simpl. by rewrite Hrest.
  - intros (id & Hid & [->| ->]).
    + destruct id as [|c rest]; [done|]. simpl in Hid.
      apply andb_prop in Hid as [Hc Hrest]. cbn [c_identifier_pattern_match].
      cbv zeta. rewrite Hc. apply lstrip_with_empty in Hrest.
      by rewrite Hrest.
    + destruct id as [|c rest]; [done|]. simpl in Hid.
      apply andb_prop in Hid as [Hc Hrest].
      cbn [String.append c_identifier_pattern_match]. cbv zeta.
      rewrite Hc, lstrip_with_append_all by done. by vm_compute.
Qed.

(** The helper for names accepts exactly the names that are no C keyword
    and are an identifier (a letter or underscore, then letters, digits and
    underscores), alone or followed by one newline; a name it rejects comes
    with a reason. A naming rule, here the rule for runnables and the rule
    for interfaces, is silent exactly when the helper accepts every name it
    reads, elements without a name being passed over. *)
Theorem naming_rule_silent_iff (root : element) :
  (∀ name,
      _validate_c_identifier name = (true, EmptyString)
      ↔ (name ∉ c_keywords)
        ∧ ∃ id, spec_identifier_shape id = true
                ∧ (name = id ∨ name = id +:+ String Py.nl EmptyString))
  ∧ (∀ name,
        (_validate_c_identifier name).1 = false
        → (_validate_c_identifier name).2 ≠ EmptyString)
  ∧ (_validate_rule_7 root = []
     ↔ ∀ runnable name,
         runnable ∈ xpath_all root "RUNNABLE-ENTITY"
         → short_name (n_elem runnable) = Some name
         → _validate_c_identifier name = (true, EmptyString))
  ∧ (_validate_rule_28 root = []
     ↔ ∀ sri name,
         sri ∈ xpath_all root "SENDER-RECEIVER-INTERFACE"
         → short_name (n_elem sri) = Some name
         → _validate_c_identifier name = (true, EmptyString)).
Proof.
  assert (∀ name,
             (_validate_c_identifier name).1 = true
             ↔ _validate_c_identifier name = (true, EmptyString)) as Hfst.
  { intros name. unfold _validate_c_identifier.
    destruct (negb _); [done|]. by destruct (bool_decide _). }
  assert (∀ rule what nodes,
             flat_map (name_findings rule what) nodes = []
             ↔ ∀ n name,
                 n ∈ nodes → short_name (n_elem n) = Some name
                 → _validate_c_identifier name = (true, EmptyString))
    as Hrule.
  { intros rule what nodes. rewrite flat_map_nil_iff. split.
    - intros H n name Hin Hname. apply Hfst.
      apply H, name_findings_by_helper in Hin. by rewrite Hname in Hin.
    - intros H n Hin. apply name_findings_by_helper.
      destruct (short_name (n_elem n)) as [name|] eqn:Hname; [|done].
      apply Hfst. by apply (H n). }
  split; [|split; [|split]].
  - intros name. rewrite <- c_identifier_pattern_match_iff.
    unfold _validate_c_identifier.
    destruct (c_identifier_pattern_match name); simpl.
    + case_bool_decide as Hk; split; try done.
      * by intros [? _].
    + split; [done | by intros [_ ?]].
  - intros name. unfold _validate_c_identifier.
    destruct (negb _); [done|]. by destruct (bool_decide _).
  - apply Hrule.
  - apply Hrule.
Qed.

(** ** Rule 74: runnable and prebuilt mappings of a cluster *)

Lemma add_kind_holds (kind k : string) (d : cluster_map)
      (kind' k' : string) :
  holds_kind (add_kind kind k d) kind' k'
  ↔ holds_kind d kind' k' ∨ (kind' = kind ∧ k' = k).
Proof.
  unfold holds_kind. induction d as [|[k0 t0] d IH]; simpl.
  - split.
    + intros (types & [= -> ->]%list_elem_of_singleton & Hin).
      apply elem_of_singleton in Hin. by right.
    + intros [(types & Hin & _)|[-> ->]]; [by apply elem_of_nil in Hin|].
      exists {[kind]}. split; [apply list_elem_of_here|].
      by apply elem_of_singleton.
  - destruct (String.eqb_spec k0 k) as [->|Hne].
    + split.
      * intros (types & [[= -> ->]|Hin]%elem_of_cons & Hk).
        -- apply elem_of_union in Hk as [Hk%elem_of_singleton|Hk];
             [by right|].
           left. exists t0. split; [apply list_elem_of_here|done].
        -- left. exists types. split; [|done]. apply elem_of_cons. by right.
      * intros [(types & [[= -> ->]|Hin]%elem_of_cons & Hk)|[-> ->]].
        -- exists ({[kind]} ∪ t0). split; [apply list_elem_of_here|].
           apply elem_of_union. by right.
        -- exists types. split; [|done]. apply elem_of_cons. by right.
        -- exists ({[kind]} ∪ t0). split; [apply list_elem_of_here|].
           apply elem_of_union. left. by apply elem_of_singleton.
    + split.
      * intros (types & [[= -> ->]|Hin]%elem_of_cons & Hk).
        -- left. exists t0. split; [apply list_elem_of_here|done].
        -- destruct (proj1 IH) as [(t & Ht & Hkt)|Hnew];
             [by exists types | | by right].
           left. exists t. split; [|done]. apply elem_of_cons. by right.
      * intros [(types & [[= -> ->]|Hin]%elem_of_cons & Hk)|[-> ->]].
        -- exists t0. split; [apply list_elem_of_here|done].
        -- destruct (proj2 IH) as (t & Ht & Hkt).
           { left. by exists types. }
           exists t. split; [|done]. apply elem_of_cons. by right.
        -- destruct (proj2 IH) as (t & Ht & Hkt); [by right|].
           exists t. split; [|done]. apply elem_of_cons. by right.
Qed.

Lemma add_kind_keys (kind k : string) (d : cluster_map) :
  NoDup (d.*1)
  → NoDup (add_kind kind k d).*1
    ∧ ∀ k', k' ∈ (add_kind kind k d).*1 ↔ k' = k ∨ k' ∈ (d.*1).
Proof.
  induction d as [|[k0 t0] d IH]; simpl; intros Hnd.
  - split; [apply NoDup_singleton|]. intros k'.
    rewrite list_elem_of_singleton, elem_of_nil. naive_solver.
  - apply NoDup_cons in Hnd as [Hk0 Hnd].
    destruct (String.eqb_spec k0 k) as [->|Hne]; simpl.
    + split; [by apply NoDup_cons|]. intros k'. rewrite !elem_of_cons.
      naive_solver.
    + destruct (IH Hnd) as [IH1 IH2]. split.
      * apply NoDup_cons. split; [|done]. rewrite IH2. naive_solver.
      * intros k'. rewrite !elem_of_cons, IH2. naive_solver.
Qed.

Lemma collect_kind_fold (kind : string) (cluster_of : node → option string)
      (mappings : list node) (d : cluster_map) :
  NoDup (d.*1)
  → NoDup (fold_left (collect_kind kind cluster_of) mappings d).*1
    ∧ ∀ kind' k',
        holds_kind (fold_left (collect_kind kind cluster_of) mappings d)
                   kind' k'
        ↔ holds_kind d kind' k'
          ∨ (kind' = kind
             ∧ ∃ mapping,
                 mapping ∈ mappings ∧ cluster_of mapping = Some k').
Proof.
  revert d. induction mappings as [|m mappings IH]; intros d Hnd;
    cbn [fold_left].
  - split; [done|]. intros kind' k'. split; [by left|].
    intros [H|(_ & m & Hm & _)]; [done|]. by apply elem_of_nil in Hm.
  - assert (NoDup (collect_kind kind cluster_of d m).*1) as Hnd'.
    { unfold collect_kind. destruct (cluster_of m); [|done].
      by apply add_kind_keys. }
    destruct (IH _ Hnd') as [IH1 IH2]. split; [done|].
    intros kind' k'. rewrite IH2. unfold collect_kind at 1.
    destruct (cluster_of m) as [k|] eqn:Hk.
    + rewrite add_kind_holds. split.
      * intros [[H|[-> ->]]|(-> & m' & Hm' & Hc)]; [by left| |].
        -- right. split; [done|]. exists m.
           split; [apply list_elem_of_here|done].
        -- right. split; [done|]. exists m'. split; [|done].
           apply elem_of_cons. by right.
      * intros [H|(-> & m' & [->|Hm']%elem_of_cons & Hc)].
        -- left. by left.
        -- left. right. split; [done|]. congruence.
        -- right. split; [done|]. by exists m'.
    + split.
      * intros [H|(-> & m' & Hm' & Hc)]; [by left|].
        right. split; [done|]. exists m'. split; [|done].
        apply elem_of_cons. by right.
      * intros [H|(-> & m' & [->|Hm']%elem_of_cons & Hc)];
          [by left|congruence|].
        right. split; [done|]. by exists m'.
Qed.

Lemma rule_74_map_spec (root : element) :
  NoDup (rule_74_map root).*1
  ∧ ∀ kind name,
      holds_kind (rule_74_map root) kind name
      ↔ kind_justified root kind name.
Proof.
  unfold rule_74_map.
  destruct (collect_kind_fold "runnable" parent_cluster
              (core_runnable_mappings root) []) as [Hnd1 H1];
    [constructor|].
  destruct (collect_kind_fold "prebuilt" parent_cluster
              (core_prebuilt_mappings root) _ Hnd1) as [Hnd2 H2].
  destruct (collect_kind_fold "prebuilt" own_or_parent_cluster
              (cluster_prebuilt_mappings root) _ Hnd2) as [Hnd3 H3].
  split; [done|]. intros kind name. rewrite H3, H2, H1.
  unfold kind_justified, collects_runnable, collects_prebuilt, holds_kind.
  split.
  - intros [[[(t & Ht & _)|[-> H]]|[-> H]]|[-> H]].
    + by apply elem_of_nil in Ht.
    + by left.
    + right. split; [done|]. by left.
    + right. split; [done|]. by right.
  - intros [[-> H]|[-> [H|H]]].
    + left. left. by right.
    + left. by right.
    + by right.
Qed.

Lemma NoDup_fst_agree {A B} (l : list (A * B)) (x : A) (y1 y2 : B) :
  NoDup (l.*1) → (x, y1) ∈ l → (x, y2) ∈ l → y1 = y2.
Proof.
  induction l as [|[a b] l IH]; simpl; intros Hnd H1 H2.
  - by apply elem_of_nil in H1.
  - apply NoDup_cons in Hnd as [Ha Hnd].
    apply elem_of_cons in H1 as [H1|H1];
      apply elem_of_cons in H2 as [H2|H2].
    + congruence.
    + injection H1 as -> ->.
      exfalso. apply Ha, list_elem_of_fmap. by exists (a, y2).
    + injection H2 as -> ->.
      exfalso. apply Ha, list_elem_of_fmap. by exists (a, y1).
    + by apply IH.
Qed.

Lemma rule_74_matches_elem (cluster_of : node → option string)
      (name : string) (mappings : list node) (mapping : node) :
  mapping ∈ mappings → cluster_of mapping = Some name
  → error 74 (rule_74_msg name) (n_path mapping)
    ∈ rule_74_matches cluster_of name mappings.
Proof.
  intros Hin Hc. apply list_elem_of_In, in_flat_map. exists mapping.
  split; [by apply list_elem_of_In|].
  rewrite bool_decide_eq_true_2 by done. by left.
Qed.

(** The two ways in which rule 74 reads the cluster of a mapping. *)
Lemma parent_cluster_refers (mapping : node) (name : string) :
  parent_cluster mapping = Some name ↔ refers_through_parent mapping name.
Proof.
  unfold parent_cluster, refers_through_parent.
  destruct (parent_subtree_attr mapping "ClusterRef") as [|ref refs]; simpl.
  - split; [done|]. by intros (? & ? & _).
  - split.
    + intros [= <-]. by exists ref.
    + by intros (? & [= <-] & ->).
Qed.

Lemma own_or_parent_cluster_refers (mapping : node) (name : string) :
  own_or_parent_cluster mapping = Some name
  ↔ refers_by_own_or_parent mapping name.
Proof.
  unfold own_or_parent_cluster, refers_by_own_or_parent, nget_or, get_or,
    nget.
  cbv zeta.
  destruct (get (n_elem mapping) "ClusterRef") as [own|] eqn:Hown;
    cbn [from_option id].
  - destruct (String.eqb_spec (Py.strip own) EmptyString) as [He|Hne].
    + destruct (parent_subtree_attr mapping "ClusterRef") as [|ref refs];
        cbn [head].
      * rewrite He. cbn [String.eqb]. split; [done|].
        by intros (r & Hr & _ & [[= <-]|[_ ?]]).
      * destruct (String.eqb_spec (Py.strip ref) EmptyString) as [He'|Hne'].
        -- split; [done|].
           by intros (r & Hr & _ & [[= <-]|[_ [= <-]]]).
        -- rewrite extract_strip. split.
           ++ intros [= <-]. exists ref. split; [done|]. split; [done|].
              by right.
           ++ intros (r & Hr & Hx & [[= <-]|[_ [= <-]]]); [done|].
              by rewrite Hx.
    + rewrite (proj2 (String.eqb_neq _ _) Hne), extract_strip. split.
      * intros [= <-]. exists own. split; [done|]. split; [done|]. by left.
      * intros (r & Hr & Hx & [[= <-]|[? _]]); [by rewrite Hx | done].
  - assert (Py.strip EmptyString = EmptyString) as Hs by (by vm_compute).
    rewrite Hs. cbn [String.eqb].
    destruct (parent_subtree_attr mapping "ClusterRef") as [|ref refs];
      cbn [head].
    + cbn [String.eqb]. split; [done|].
      by intros (r & Hr & _ & [?|[_ ?]]).
    + destruct (String.eqb_spec (Py.strip ref) EmptyString) as [He'|Hne'].
      * split; [done|]. by intros (r & Hr & _ & [?|[_ [= <-]]]).
      * rewrite extract_strip. split.
        -- intros [= <-]. exists ref. split; [done|]. split; [done|].
           by right.
        -- intros (r & Hr & Hx & [?|[_ [= <-]]]); [done|]. by rewrite Hx.
Qed.

Lemma collects_runnable_refers (root : element) (name : string) :
  collects_runnable root name ↔ refers_runnable root name.
Proof.
  unfold collects_runnable, refers_runnable, core_runnable_mappings.
  split; intros (m & Hm & Hc); exists m; split; try done;
    by apply parent_cluster_refers.
Qed.

Lemma collects_prebuilt_refers (root : element) (name : string) :
  collects_prebuilt root name ↔ refers_prebuilt root name.
Proof.
  unfold collects_prebuilt, refers_prebuilt, core_prebuilt_mappings,
    cluster_prebuilt_mappings.
  split; (intros [(m & Hm & Hc)|(m & Hm & Hc)]; [left | right]);
    exists m; split; try done;
    solve [by apply parent_cluster_refers
          | by apply own_or_parent_cluster_refers].
Qed.

(** Rule 74 is silent exactly when no cluster name is referred to both by
    a core-runnable mapping and by a prebuilt-application mapping (of a
    core, through the first ClusterRef at or below its parent, or of a
    cluster, through its own ClusterRef or else its parent's). When a name
    is referred to by both, every mapping of the three kinds that refers
    to it is reported. *)
Theorem cluster_kinds_exclusive_iff_silent (root : element) :
  (_validate_rule_74 root = []
   ↔ ∀ name, ¬ (refers_runnable root name ∧ refers_prebuilt root name))
  ∧ (∀ name mapping,
        refers_runnable root name → refers_prebuilt root name
        → (mapping ∈ xpath_any root ["Core-Runnable-Mapping";
                                     "CoreRunnableMapping"]
           ∧ refers_through_parent mapping name)
          ∨ (mapping ∈ xpath_any root ["Core-PrebuiltApplication-Mapping";
                                       "CorePrebuiltAppMapping"]
             ∧ refers_through_parent mapping name)
          ∨ (mapping ∈ xpath_any root ["Cluster-PrebuiltApplication-Mapping";
                                       "ClusterPrebuiltAppMapping"]
             ∧ refers_by_own_or_parent mapping name)
        → error 74 (rule_74_msg name) (n_path mapping)
          ∈ _validate_rule_74 root).
Proof.
  destruct (rule_74_map_spec root) as [Hnd Hspec].
  assert (∀ name,
             collects_runnable root name → collects_prebuilt root name
             → ∃ types, (name, types) ∈ rule_74_map root
                        ∧ "runnable" ∈ types ∧ "prebuilt" ∈ types) as Hboth.
  { intros name Hr Hp.
    destruct (proj2 (Hspec "runnable" name)) as (t1 & Ht1 & Hk1);
      [left; by split|].
    destruct (proj2 (Hspec "prebuilt" name)) as (t2 & Ht2 & Hk2);
      [right; by split|].
    rewrite (NoDup_fst_agree _ _ _ _ Hnd Ht2 Ht1) in Hk2. by exists t1. }
  unfold _validate_rule_74. split.
  - rewrite flat_map_nil_iff. split.
    + intros H name [Hr%collects_runnable_refers Hp%collects_prebuilt_refers].
      destruct (Hboth name Hr Hp) as (types & Hin & Hk1 & Hk2).
      specialize (H _ Hin). simpl in H.
      rewrite !bool_decide_eq_true_2 in H by done. simpl in H.
      apply app_eq_nil in H as [H _].
      destruct Hr as (m & Hm & Hc).
      pose proof (rule_74_matches_elem parent_cluster name _ m Hm Hc) as Hel.
      rewrite H in Hel. by apply elem_of_nil in Hel.
    + intros H [name types] Hin. simpl.
      case_bool_decide as Hk1; [|done].
      case_bool_decide as Hk2; [|done].
      exfalso. apply (H name). split.
      * apply collects_runnable_refers.
        destruct (proj1 (Hspec "runnable" name)) as [[_ Hr]|[Heq _]];
          [by exists types|done|done].
      * apply collects_prebuilt_refers.
        destruct (proj1 (Hspec "prebuilt" name)) as [[Heq _]|[_ Hp]];
          [by exists types|done|done].
  - intros name mapping Hr%collects_runnable_refers
           Hp%collects_prebuilt_refers Hm.
    destruct (Hboth name Hr Hp) as (types & Hin & Hk1 & Hk2).
    apply list_elem_of_In, in_flat_map. exists (name, types).
    split; [by apply list_elem_of_In|]. simpl.
    rewrite !bool_decide_eq_true_2 by done. simpl.
    apply list_elem_of_In. rewrite !elem_of_app.
    destruct Hm as [[Hm Hc]|[[Hm Hc]|[Hm Hc]]].
    + left. apply rule_74_matches_elem; [done|].
      by apply parent_cluster_refers.
    + right. left. apply rule_74_matches_elem; [done|].
      by apply parent_cluster_refers.
    + right. right. apply rule_74_matches_elem; [done|].
      by apply own_or_parent_cluster_refers.
Qed.

(** The theorem on two documents. A HW-SW-MAPPING onto Cl0 that holds a
    core-runnable mapping and a prebuilt-application mapping of a core:
    both mappings are reported. A HW-SW-MAPPING that holds a core-runnable
    mapping only: the rule is silent. *)
Lemma cluster_kinds_exclusive_iff_silent_witness :
  _validate_rule_74 doc_both_kinds
  = [ error 74 (rule_74_msg "Cl0")
            "/AUTOSAR/HW-SW-MAPPING/Core-Runnable-Mapping";
      error 74 (rule_74_msg "Cl0")
            "/AUTOSAR/HW-SW-MAPPING/Core-PrebuiltApplication-Mapping" ]
  ∧ error 74 (rule_74_msg "Cl0")
          "/AUTOSAR/HW-SW-MAPPING/Core-PrebuiltApplication-Mapping"
    ∈ _validate_rule_74 doc_both_kinds
  ∧ _validate_rule_74 (doc_nucleus true) = []
  ∧ (∀ name,
        ¬ (refers_runnable (doc_nucleus true) name
           ∧ refers_prebuilt (doc_nucleus true) name)).
Proof.
  split; [by vm_compute|]. split; [|split; [by vm_compute|]].
  - apply (proj2 (cluster_kinds_exclusive_iff_silent doc_both_kinds)
             "Cl0" (node_at doc_both_kinds 7)).
    + exists (node_at doc_both_kinds 6).
      split; [vm_compute; apply list_elem_of_here|].
      exists "/Ecu/Cl0". split; vm_compute; reflexivity.
    + left. exists (node_at doc_both_kinds 7).
      split; [vm_compute; apply list_elem_of_here|].
      exists "/Ecu/Cl0". split; vm_compute; reflexivity.
    + right. left.
      split; [vm_compute; apply list_elem_of_here|].
      exists "/Ecu/Cl0". split; vm_compute; reflexivity.
  - apply (proj1 (proj1 (cluster_kinds_exclusive_iff_silent
                           (doc_nucleus true)))).
    vm_compute. reflexivity.
Defined.
